(** * OpenBox: the falling-sand simulation core of [src/main.cpp]

    A shallow embedding of the grid, the material table, the per-cell
    update pipeline, the tick driver, the brush and the save/load codec,
    followed by the properties that the specification states about them.

    Conventions of the embedding:
    - C++ [int] values are [Z]; every index the program computes stays far
      below 2^31, so the wrap-around of [int] is never reached.
    - C++ [float] values are IEEE-754 binary32 numbers, modelled by the
      Standard Library's executable [spec_float] operations with precision
      24 and maximal exponent 128 (round to nearest, ties to even).  The
      one [double] operation of the program ([sqrt] in the brush) uses
      precision 53 and maximal exponent 1024.
    - the global [grid] is a value threaded through the functions; a
      reference [Particle& current = grid[x][y]] is the position [(x, y)]:
      a write through it is a write at that position of the current grid. *)

From Stdlib Require Import ZArith List Bool Lia SpecFloat.
From stdpp Require Import base list strings gmap.

Open Scope Z_scope.

(** ** Single-precision floating point *)

Module F32.
Definition prec : Z := 24.
Definition emax : Z := 128.

Definition float : Type := spec_float.

Definition of_int (n : Z) : float := binary_normalize prec emax n 0 false.
Definition add : float -> float -> float := SFadd prec emax.
Definition sub : float -> float -> float := SFsub prec emax.
Definition mul : float -> float -> float := SFmul prec emax.
Definition div : float -> float -> float := SFdiv prec emax.
Definition ltb : float -> float -> bool := SFltb.
Definition leb : float -> float -> bool := SFleb.
Definition gtb (a b : float) : bool := SFltb b a.

(** A decimal literal [n/d] written with the [f] suffix denotes the
    binary32 number nearest to the quotient. *)
Definition lit (n d : Z) : float := div (of_int n) (of_int d).
End F32.

Module F64.
Definition prec : Z := 53.
Definition emax : Z := 1024.

Definition of_int (n : Z) : spec_float := binary_normalize prec emax n 0 false.
Definition sqrt : spec_float -> spec_float := SFsqrt prec emax.

(** Conversion [double -> float] of an initialisation [float d = ...]. *)
Definition to_f32 (d : spec_float) : F32.float :=
  match d with
  | S754_finite s m e => binary_round F32.prec F32.emax s m e
  | other => other
  end.
End F64.

(** ** Constants *)

Definition SCREEN_WIDTH : Z := 1280.
Definition SCREEN_HEIGHT : Z := 720.
Definition CELL_SIZE : Z := 8.

(** The dimensions of the grid.  The engine below is written for any
    dimensions; [screen] are those of the program
    ([GRID_WIDTH = SCREEN_WIDTH / CELL_SIZE],
    [GRID_HEIGHT = SCREEN_HEIGHT / CELL_SIZE]). *)
Class Dimensions : Set := { GRID_WIDTH : Z; GRID_HEIGHT : Z }.

Definition screen : Dimensions :=
  Eval cbv in
  {| GRID_WIDTH := SCREEN_WIDTH / CELL_SIZE;
     GRID_HEIGHT := SCREEN_HEIGHT / CELL_SIZE |}.

Definition TEMPERATURE_SPREAD : F32.float := F32.lit 2 10.
Definition COOLING_RATE : F32.float := F32.lit 5 100.

(** ** Particle types and the property table *)

Inductive ParticleType : Set :=
  | EMPTY | SAND | WATER | WALL | FIRE | SMOKE | STEAM | LAVA
  | ICE | OIL | ACID | WOOD | PLANT | SALT | GLASS | METAL.

#[global] Instance ParticleType_eq_dec : EqDecision ParticleType.
Proof. solve_decision. Defined.

(** raylib's [Color]: four [unsigned char] channels. *)
Record Color : Set := mkColor { r : Z; g : Z; b : Z; a : Z }.

(** The colour constants are raylib's (its header is not part of the
    repository); [FADE_WHITE_HALF] is [Fade(WHITE, 0.5f)], whose alpha is
    [(unsigned char)(255.0f * 0.5f)]. *)
Definition LIGHTGRAY := mkColor 200 200 200 255.
Definition DARKGRAY := mkColor 80 80 80 255.
Definition GOLD := mkColor 255 203 0 255.
Definition ORANGE := mkColor 255 161 0 255.
Definition RED := mkColor 230 41 55 255.
Definition GREEN := mkColor 0 228 48 255.
Definition DARKGREEN := mkColor 0 117 44 255.
Definition SKYBLUE := mkColor 102 191 255 255.
Definition BLUE := mkColor 0 121 241 255.
Definition BEIGE := mkColor 211 176 131 255.
Definition BROWN := mkColor 127 106 79 255.
Definition WHITE := mkColor 255 255 255 255.
Definition BLACK := mkColor 0 0 0 255.
Definition FADE_WHITE_HALF := mkColor 255 255 255 127.

Module Props.
Record ParticleProperties : Type := mk {
  color : Color;
  movable : bool;
  flammable : bool;
  mass : F32.float;
  temperature : F32.float;
  conductivity : F32.float;
  viscosity : F32.float;
  lifetime : Z
}.

(** What [std::unordered_map::operator[]] yields for a key that is not
    in the table: a value-initialised record. *)
Definition zero : ParticleProperties :=
  mk (mkColor 0 0 0 0) false false (F32.of_int 0) (F32.of_int 0)
     (F32.of_int 0) (F32.of_int 0) 0.
End Props.

(** [particleProps[t]].  The table has no entry for [EMPTY]; the lookup
    [operator[]] then inserts and returns the value-initialised record, and
    every later lookup returns the same, so the table reads as a function. *)
Definition particleProps (t : ParticleType) : Props.ParticleProperties :=
  let f := F32.lit in
  let i := F32.of_int in
  match t with
  | SAND  => Props.mk GOLD true false (f 15 10) (i 20) (f 2 10) (i 0) (-1)
  | WATER => Props.mk BLUE true false (i 1) (i 20) (f 5 10) (f 8 10) (-1)
  | WALL  => Props.mk DARKGRAY false false (i 999) (i 20) (f 1 10) (i 0) (-1)
  | FIRE  => Props.mk RED true false (f 1 10) (i 800) (i 1) (i 0) 100
  | SMOKE => Props.mk DARKGRAY true false (f 2 10) (i 100) (f 1 10) (f 3 10) 200
  | STEAM => Props.mk LIGHTGRAY true false (f 3 10) (i 100) (f 3 10) (f 2 10) 150
  | LAVA  => Props.mk ORANGE true false (i 2) (i 1000) (f 8 10) (f 9 10) (-1)
  | ICE   => Props.mk SKYBLUE false false (f 9 10) (i (-10)) (f 9 10) (i 0) (-1)
  | OIL   => Props.mk BROWN true true (f 8 10) (i 20) (f 1 10) (f 4 10) (-1)
  | ACID  => Props.mk GREEN true false (f 12 10) (i 20) (f 3 10) (f 5 10) (-1)
  | WOOD  => Props.mk BEIGE false true (f 7 10) (i 20) (f 2 10) (i 0) (-1)
  | PLANT => Props.mk DARKGREEN false true (f 6 10) (i 20) (f 3 10) (i 0) (-1)
  | SALT  => Props.mk WHITE true false (f 11 10) (i 20) (f 2 10) (i 0) (-1)
  | GLASS => Props.mk FADE_WHITE_HALF false false (f 15 10) (i 20) (f 4 10) (i 0) (-1)
  | METAL => Props.mk LIGHTGRAY false false (i 2) (i 20) (f 9 10) (i 0) (-1)
  | EMPTY => Props.zero
  end.

(** ** Particles *)

(** The struct [Particle].  [ghost_id] is not a field of the source struct:
    it is a label carried by the occupant of a cell, which no function of
    the program reads or writes and which moves with the occupant when two
    cells are swapped.  It exists only so that a statement can say which
    occupant is which after a swap. *)
Record Particle : Type := mkParticle {
  type : ParticleType;
  color : Color;
  updated : bool;
  temperature : F32.float;
  velocity_y : F32.float;
  velocity_x : F32.float;
  lifetime : Z;
  ghost_id : Z
}.

(** The default member initialisers of the struct. *)
Definition default_particle : Particle :=
  mkParticle EMPTY BLACK false (F32.of_int 20) (F32.of_int 0) (F32.of_int 0) (-1) 0.

(** Field assignments [p.field = v]. *)
Definition set_type (v : ParticleType) (p : Particle) : Particle :=
  mkParticle v (color p) (updated p) (temperature p) (velocity_y p) (velocity_x p)
             (lifetime p) (ghost_id p).
Definition set_color (v : Color) (p : Particle) : Particle :=
  mkParticle (type p) v (updated p) (temperature p) (velocity_y p) (velocity_x p)
             (lifetime p) (ghost_id p).
Definition set_updated (v : bool) (p : Particle) : Particle :=
  mkParticle (type p) (color p) v (temperature p) (velocity_y p) (velocity_x p)
             (lifetime p) (ghost_id p).
Definition set_temperature (v : F32.float) (p : Particle) : Particle :=
  mkParticle (type p) (color p) (updated p) v (velocity_y p) (velocity_x p)
             (lifetime p) (ghost_id p).
Definition set_velocity_y (v : F32.float) (p : Particle) : Particle :=
  mkParticle (type p) (color p) (updated p) (temperature p) v (velocity_x p)
             (lifetime p) (ghost_id p).
Definition set_velocity_x (v : F32.float) (p : Particle) : Particle :=
  mkParticle (type p) (color p) (updated p) (temperature p) (velocity_y p) v
             (lifetime p) (ghost_id p).
Definition set_lifetime (v : Z) (p : Particle) : Particle :=
  mkParticle (type p) (color p) (updated p) (temperature p) (velocity_y p)
             (velocity_x p) v (ghost_id p).

(** ** The grid *)

(** [std::vector<std::vector<Particle>> grid(GRID_WIDTH, ...(GRID_HEIGHT))]:
    the outer index is the column [x], the inner index the row [y]. *)
Abbreviation Grid := (list (list Particle)).

(** The values that the random source will still yield (see
    [GetRandomValue] below). *)
Abbreviation Rng := (list Z).

Section Engine.
Context `{D : Dimensions}.

Definition IsValidPosition (x y : Z) : bool :=
  (0 <=? x) && (x <? GRID_WIDTH) && (0 <=? y) && (y <? GRID_HEIGHT).

(** [grid[x][y]] read.  The program guards every access with
    [IsValidPosition]; outside the grid, where C++ leaves the behaviour
    undefined, a read yields the default particle and a write does
    nothing. *)
Definition cell (gr : Grid) (x y : Z) : Particle :=
  if IsValidPosition x y then
    match gr !! Z.to_nat x with
    | Some col => match col !! Z.to_nat y with
                  | Some p => p
                  | None => default_particle
                  end
    | None => default_particle
    end
  else default_particle.

Definition set_cell (gr : Grid) (x y : Z) (p : Particle) : Grid :=
  if IsValidPosition x y then
    alter (fun col => <[Z.to_nat y := p]> col) (Z.to_nat x) gr
  else gr.

(** A write through a reference to [grid[x][y]]. *)
Definition update (gr : Grid) (x y : Z) (f : Particle -> Particle) : Grid :=
  set_cell gr x y (f (cell gr x y)).

(** [std::swap(grid[x1][y1], grid[x2][y2])]: the two cells exchange their
    whole state. *)
Definition swap (gr : Grid) (x1 y1 x2 y2 : Z) : Grid :=
  let p1 := cell gr x1 y1 in
  let p2 := cell gr x2 y2 in
  set_cell (set_cell gr x1 y1 p2) x2 y2 p1.

(** The grid has its declared dimensions. *)
Definition well_formed (gr : Grid) : bool :=
  (Z.of_nat (length gr) =? GRID_WIDTH) &&
  forallb (fun col : list Particle => Z.of_nat (length col) =? GRID_HEIGHT) gr.

(** The grid as the global's initialiser builds it. *)
Definition default_grid : Grid :=
  replicate (Z.to_nat GRID_WIDTH) (replicate (Z.to_nat GRID_HEIGHT) default_particle).

(** ** Loops *)

(** [for (i = lo; i < hi; i++)] visits [upto lo hi];
    [for (i = hi; i >= lo; i--)] visits [downto hi lo]. *)
Definition upto (lo hi : Z) : list Z := seqZ lo (hi - lo).
Definition downto (hi lo : Z) : list Z := reverse (seqZ lo (hi - lo + 1)).

Definition for_each {S : Type} (l : list Z) (body : Z -> S -> S) (s : S) : S :=
  fold_left (fun s i => body i s) l s.

(** [for (dx = -1; dx <= 1; dx++) for (dy = -1; dy <= 1; dy++)]. *)
Definition neighborhood : list (Z * Z) :=
  [(-1, -1); (-1, 0); (-1, 1); (0, -1); (0, 0); (0, 1); (1, -1); (1, 0); (1, 1)].

(** ** The random source *)

(** raylib's [GetRandomValue(min, max)] is not part of the repository.  It
    is documented to return a value between [min] and [max], both
    included.  The source of randomness is the list of raw values still to
    be drawn; a raw value is reduced to the requested range, and an
    exhausted source yields [min]. *)
Definition GetRandomValue (min max : Z) (rs : Rng) : Z * Rng :=
  match rs with
  | [] => (min, [])
  | v :: rest => (min + v mod (max - min + 1), rest)
  end.

(** ** Initialisation *)

Definition InitializeGrid (gr : Grid) : Grid :=
  for_each (upto 0 GRID_WIDTH) (fun x gr =>
    for_each (upto 0 GRID_HEIGHT) (fun y gr =>
      let gr := update gr x y (set_type EMPTY) in
      let gr := update gr x y (set_color BLACK) in
      let gr := update gr x y (set_temperature (F32.of_int 20)) in
      let gr := update gr x y (set_velocity_x (F32.of_int 0)) in
      let gr := update gr x y (set_velocity_y (F32.of_int 0)) in
      let gr := update gr x y (set_lifetime (-1)) in
      let gr := update gr x y (set_updated false) in
      let gr :=
        if y =? GRID_HEIGHT - 1 then
          update (update gr x y (set_type WALL)) x y
                 (set_color (Props.color (particleProps WALL)))
        else gr in
      if (x =? 0) || (x =? GRID_WIDTH - 1) then
        update (update gr x y (set_type WALL)) x y
               (set_color (Props.color (particleProps WALL)))
      else gr) gr) gr.

(** ** The brush *)

(** [float distance = sqrt(dx*dx + dy*dy); distance <= brushSize]: the
    square root is taken in [double], stored in a [float] and compared with
    the brush size converted to [float]. *)
Definition within_brush (dx dy brushSize : Z) : bool :=
  let distance := F64.to_f32 (F64.sqrt (F64.of_int (dx * dx + dy * dy))) in
  F32.leb distance (F32.of_int brushSize).

(** The seven assignments that stamp one cell. *)
Definition place (t : ParticleType) (p : Particle) : Particle :=
  let p := set_type t p in
  let p := set_color (Props.color (particleProps t)) p in
  let p := set_temperature (Props.temperature (particleProps t)) p in
  let p := set_velocity_x (F32.of_int 0) p in
  let p := set_velocity_y (F32.of_int 0) p in
  let p := set_lifetime (Props.lifetime (particleProps t)) p in
  set_updated false p.

(** [brushSize] is a global of the program; it is an argument here. *)
Definition PlaceParticles (brushSize : Z) (x y : Z) (t : ParticleType) (gr : Grid) : Grid :=
  if negb (IsValidPosition x y) then gr
  else
    for_each (upto (- brushSize) (brushSize + 1)) (fun dx gr =>
      for_each (upto (- brushSize) (brushSize + 1)) (fun dy gr =>
        let newX := x + dx in
        let newY := y + dy in
        if IsValidPosition newX newY then
          if within_brush dx dy brushSize then update gr newX newY (place t)
          else gr
        else gr) gr) gr.

(** ** The stages of the cell update *)

Definition is_type (t : ParticleType) (p : Particle) : bool :=
  bool_decide (type p = t).

Definition reset_velocity (gr : Grid) (x y : Z) : Grid :=
  update (update gr x y (set_velocity_x (F32.of_int 0))) x y
         (set_velocity_y (F32.of_int 0)).

(** One of the three lateral attempts of [UpdatePhysics]: try the target
    on side [dir], then the one on the other side; [ty] is the row of both
    targets. *)
Definition try_sides (x y ty dir : Z) (gr : Grid) : Grid :=
  if IsValidPosition (x + dir) ty && is_type EMPTY (cell gr (x + dir) ty) then
    reset_velocity (swap gr x y (x + dir) ty) x y
  else if IsValidPosition (x - dir) ty && is_type EMPTY (cell gr (x - dir) ty) then
    reset_velocity (swap gr x y (x - dir) ty) x y
  else gr.

Definition UpdatePhysics (x y : Z) (st : Grid * Rng) : Grid * Rng :=
  let '(gr, rs) := st in
  let current := cell gr x y in
  if negb (Props.movable (particleProps (type current))) then (gr, rs)
  else if (y <? GRID_HEIGHT - 1) && is_type EMPTY (cell gr x (y + 1)) then
    (reset_velocity (swap gr x y x (y + 1)) x y, rs)
  else if is_type WATER current || is_type OIL current then
    let '(v, rs) := GetRandomValue 0 1 rs in
    let dir := v * 2 - 1 in
    (try_sides x y y dir gr, rs)
  else if is_type SAND current then
    let '(v, rs) := GetRandomValue 0 1 rs in
    let dir := v * 2 - 1 in
    (try_sides x y (y + 1) dir gr, rs)
  else (gr, rs).

(** The value that [UpdateTemperature] stores in [current.temperature]. *)
Definition new_temperature (x y : Z) (gr : Grid) : F32.float :=
  let current := cell gr x y in
  let '(avgTemp, count) :=
    fold_left (fun '(avgTemp, count) '(dx, dy) =>
      if IsValidPosition (x + dx) (y + dy) then
        (F32.add avgTemp (temperature (cell gr (x + dx) (y + dy))), count + 1)
      else (avgTemp, count))
      neighborhood (temperature current, 1) in
  let avgTemp := F32.div avgTemp (F32.of_int count) in
  let t := F32.add (F32.mul avgTemp TEMPERATURE_SPREAD)
                   (F32.mul (temperature current)
                            (F32.sub (F32.of_int 1) TEMPERATURE_SPREAD)) in
  if F32.gtb t (F32.of_int 20) then F32.sub t COOLING_RATE
  else if F32.ltb t (F32.of_int 20) then F32.add t COOLING_RATE
  else t.

Definition UpdateTemperature (x y : Z) (gr : Grid) : Grid :=
  update gr x y (set_temperature (new_temperature x y gr)).

(** The random tests of the interaction rules, on the value drawn by
    [GetRandomValue(0, 100)]. *)
Definition ignites (v : Z) : bool := v <? 10.
Definition smokes (v : Z) : bool := v <? 5.
Definition dissolves (v : Z) : bool := v <? 20.

Definition HandleParticleInteractions (x y : Z) (st : Grid * Rng) : Grid * Rng :=
  let '(gr, rs) := st in
  match type (cell gr x y) with
  | WATER =>
      let gr :=
        fold_left (fun gr '(dx, dy) =>
          if IsValidPosition (x + dx) (y + dy)
             && is_type FIRE (cell gr (x + dx) (y + dy))
          then update gr (x + dx) (y + dy) (set_type STEAM)
          else gr) neighborhood gr in
      let gr :=
        if F32.ltb (temperature (cell gr x y)) (F32.of_int 0)
        then update gr x y (set_type ICE) else gr in
      (gr, rs)
  | FIRE =>
      let '(gr, rs) :=
        fold_left (fun '(gr, rs) '(dx, dy) =>
          if IsValidPosition (x + dx) (y + dy) then
            let nearbyType := type (cell gr (x + dx) (y + dy)) in
            if Props.flammable (particleProps nearbyType) then
              let '(v, rs) := GetRandomValue 0 100 rs in
              if ignites v then (update gr (x + dx) (y + dy) (set_type FIRE), rs)
              else (gr, rs)
            else (gr, rs)
          else (gr, rs)) neighborhood (gr, rs) in
      let '(v, rs) := GetRandomValue 0 100 rs in
      if smokes v then
        if IsValidPosition x (y - 1) && is_type EMPTY (cell gr x (y - 1))
        then (update gr x (y - 1) (set_type SMOKE), rs)
        else (gr, rs)
      else (gr, rs)
  | LAVA =>
      let gr :=
        fold_left (fun gr '(dx, dy) =>
          if IsValidPosition (x + dx) (y + dy) then
            if is_type WATER (cell gr (x + dx) (y + dy))
            then update gr (x + dx) (y + dy) (set_type STEAM)
            else gr
          else gr) neighborhood gr in
      let gr :=
        if F32.ltb (temperature (cell gr x y)) (F32.of_int 800)
        then update gr x y (set_type METAL) else gr in
      (gr, rs)
  | ACID =>
      fold_left (fun '(gr, rs) '(dx, dy) =>
        if IsValidPosition (x + dx) (y + dy) then
          let nearbyType := type (cell gr (x + dx) (y + dy)) in
          if negb (bool_decide (nearbyType = EMPTY))
             && negb (bool_decide (nearbyType = ACID))
             && negb (bool_decide (nearbyType = GLASS)) then
            let '(v, rs) := GetRandomValue 0 100 rs in
            if dissolves v then (update gr (x + dx) (y + dy) (set_type EMPTY), rs)
            else (gr, rs)
          else (gr, rs)
        else (gr, rs)) neighborhood (gr, rs)
  | _ => (gr, rs)
  end.

Definition ProcessChemicalReactions (x y : Z) (gr : Grid) : Grid :=
  let current := cell gr x y in
  if is_type SAND current && F32.gtb (temperature current) (F32.of_int 1700) then
    update gr x y (set_type GLASS)
  else if is_type WATER current then
    fold_left (fun gr '(dx, dy) =>
      if IsValidPosition (x + dx) (y + dy)
         && is_type SALT (cell gr (x + dx) (y + dy))
      then update (update gr (x + dx) (y + dy) (set_type EMPTY)) x y
                  (set_color SKYBLUE)
      else gr) neighborhood gr
  else gr.

(** ** The cell update and the tick *)

(** The stages after the lifetime check. *)
Definition pipeline (x y : Z) (st : Grid * Rng) : Grid * Rng :=
  let st := UpdatePhysics x y st in
  let st := (UpdateTemperature x y (fst st), snd st) in
  let st := HandleParticleInteractions x y st in
  (ProcessChemicalReactions x y (fst st), snd st).

Definition UpdateParticle (x y : Z) (st : Grid * Rng) : Grid * Rng :=
  let '(gr, rs) := st in
  if negb (IsValidPosition x y) || updated (cell gr x y) then (gr, rs)
  else
    let gr := update gr x y (set_updated true) in
    if 0 <? lifetime (cell gr x y) then
      let gr := update gr x y (fun p => set_lifetime (lifetime p - 1) p) in
      if lifetime (cell gr x y) <=? 0 then (update gr x y (set_type EMPTY), rs)
      else pipeline x y (gr, rs)
    else pipeline x y (gr, rs).

Definition reset_updated (gr : Grid) : Grid :=
  for_each (upto 0 GRID_WIDTH) (fun x gr =>
    for_each (upto 0 GRID_HEIGHT) (fun y gr =>
      update gr x y (set_updated false)) gr) gr.

Definition UpdateParticles (st : Grid * Rng) : Grid * Rng :=
  let st := (reset_updated (fst st), snd st) in
  for_each (downto (GRID_HEIGHT - 1) 0) (fun y st =>
    for_each (upto 0 GRID_WIDTH) (fun x st =>
      UpdateParticle x y st) st) st.

(** ** Persistence *)

(** The files of the host.  [fwrite(&grid[x][y], sizeof(Particle), 1, file)]
    dumps the bytes of one struct and [fread] copies them back into a
    struct of the same program, so a file is the list of the records
    written to it; the byte layout itself is not modelled.  [can_open]
    says whether [fopen] on a path succeeds at all (permissions, missing
    directory); reading also needs the file to exist. *)
Record FileSystem : Type := mkFS {
  can_open : string -> bool;
  files : gmap string (list Particle)
}.

(** [fopen(filename, "wb")]: on success the file is created or truncated. *)
Definition fopen_wb (filename : string) (fs : FileSystem) : option FileSystem :=
  if can_open fs filename
  then Some (mkFS (can_open fs) (<[filename := []]> (files fs)))
  else None.

(** [fopen(filename, "rb")]: the records that can be read from the file. *)
Definition fopen_rb (filename : string) (fs : FileSystem) : option (list Particle) :=
  if can_open fs filename then files fs !! filename else None.

Definition fwrite (filename : string) (p : Particle) (fs : FileSystem) : FileSystem :=
  mkFS (can_open fs)
       (alter (fun recs => recs ++ [p]) filename (files fs)).

Definition SaveToFile (filename : string) (gr : Grid) (fs : FileSystem) : FileSystem :=
  match fopen_wb filename fs with
  | Some fs =>
      for_each (upto 0 GRID_WIDTH) (fun x fs =>
        for_each (upto 0 GRID_HEIGHT) (fun y fs =>
          fwrite filename (cell gr x y) fs) fs) fs
  | None => fs
  end.

(** [fread(&grid[x][y], sizeof(Particle), 1, file)]: the next record of the
    stream overwrites the cell; at the end of the stream nothing is read
    and the cell keeps its state.  A file is a sequence of whole records
    here, as [SaveToFile] writes it; a file whose length is not a multiple
    of [sizeof(Particle)] is not represented (there the C library copies
    the bytes of the last, partial record into the next cell). *)
Definition fread (x y : Z) (st : Grid * list Particle) : Grid * list Particle :=
  match snd st with
  | p :: rest => (set_cell (fst st) x y p, rest)
  | [] => st
  end.

Definition LoadFromFile (filename : string) (gr : Grid) (fs : FileSystem) : Grid :=
  match fopen_rb filename fs with
  | Some stream =>
      fst (for_each (upto 0 GRID_WIDTH) (fun x st =>
             for_each (upto 0 GRID_HEIGHT) (fun y st => fread x y st) st)
             (gr, stream))
  | None => gr
  end.

(** ** Lists of positions *)

(** A loop nest over the grid visits a list of positions; [sweep] runs a
    body over such a list. *)
Definition sweep {S : Type} (ps : list (Z * Z)) (f : Z -> Z -> S -> S) (s : S) : S :=
  fold_left (fun s '(x, y) => f x y s) ps s.

Definition x_major (xs ys : list Z) : list (Z * Z) :=
  flat_map (fun x => map (fun y => (x, y)) ys) xs.

Definition y_major (ys xs : list Z) : list (Z * Z) :=
  flat_map (fun y => map (fun x => (x, y)) xs) ys.

(** The positions of the grid in the order of its storage (the loops of
    [SaveToFile], [LoadFromFile], [InitializeGrid]) and in the order of
    the tick (the second loop nest of [UpdateParticles]). *)
Definition storage_order : list (Z * Z) :=
  x_major (upto 0 GRID_WIDTH) (upto 0 GRID_HEIGHT).

Definition scan_order : list (Z * Z) :=
  y_major (downto (GRID_HEIGHT - 1) 0) (upto 0 GRID_WIDTH).

(** ** Relations between a grid and a later grid *)

(** [q] is [p] with possibly another material kind; with possibly another
    kind and colour; with possibly another temperature. *)
Definition kind_only (p q : Particle) : Prop := q = set_type (type q) p.
Definition kind_color_only (p q : Particle) : Prop :=
  q = set_color (color q) (set_type (type q) p).
Definition temperature_only (p q : Particle) : Prop :=
  q = set_temperature (temperature q) p.

(** Every cell of [gr'] is related by [R] to the cell of [gr] at the same
    position. *)
Definition related (R : Particle -> Particle -> Prop) (gr gr' : Grid) : Prop :=
  well_formed gr' = true /\ forall i j, R (cell gr i j) (cell gr' i j).

(** [q] keeps the temperature, lifetime, velocity, processed flag and
    label of [p]. *)
Definition fields_kept (p q : Particle) : Prop :=
  temperature q = temperature p /\ lifetime q = lifetime p /\
  velocity_x q = velocity_x p /\ velocity_y q = velocity_y p /\
  updated q = updated p /\ ghost_id q = ghost_id p.

(** ** Concrete grids *)

(** The grid that [InitializeGrid] leaves: ambient Empty cells, with Wall
    in the bottom row and in the leftmost and rightmost columns. *)
Definition wall_particle : Particle :=
  set_color (Props.color (particleProps WALL)) (set_type WALL default_particle).

Definition box : Grid :=
  map (fun x =>
    map (fun y =>
      if (y =? GRID_HEIGHT - 1) || (x =? 0) || (x =? GRID_WIDTH - 1)
      then wall_particle else default_particle)
      (upto 0 GRID_HEIGHT))
    (upto 0 GRID_WIDTH).

(** The box with one particle of kind [t] and temperature [temp] painted
    at [(x, y)]. *)
Definition box_with (x y : Z) (t : ParticleType) (temp : Z) : Grid :=
  update (update box x y (place t)) x y (set_temperature (F32.of_int temp)).

(** ** Falling sand *)

(** The kinds that neither move nor take part in an interaction or a
    reaction. *)
Definition inert (t : ParticleType) : bool :=
  match t with
  | EMPTY | WALL | ICE | WOOD | PLANT | GLASS | METAL => true
  | _ => false
  end.

(** [(sx, sy)] holds a Sand particle that does not expire, and every other
    cell of the grid holds an inert kind. *)
Definition lone_sand (gr : Grid) (sx sy : Z) : bool :=
  well_formed gr && IsValidPosition sx sy &&
  is_type SAND (cell gr sx sy) && (lifetime (cell gr sx sy) <=? 0) &&
  forallb (fun '(i, j) => bool_decide (i = sx /\ j = sy) || inert (type (cell gr i j)))
          storage_order.

(** The [n] cells below [(sx, sy)] are in the grid and Empty. *)
Definition clear_below (gr : Grid) (sx sy n : Z) : bool :=
  (sy + n <? GRID_HEIGHT) &&
  forallb (fun k => is_type EMPTY (cell gr sx (sy + k))) (upto 1 (n + 1)).

(** States of a sweep over a grid with a lone Sand particle above an Empty
    cell: the particle is still to be visited at [(sx, sy)], or it has
    been visited and sits one row lower.  [gr0] is the grid at the start
    of the sweep. *)
Definition background (gr : Grid) (sx sy : Z) : Prop :=
  forall i j, i <> sx \/ j <> sy -> inert (type (cell gr i j)) = true.

Definition empties_kept (gr0 gr : Grid) (sx sy : Z) : Prop :=
  forall i j, i <> sx \/ j <> sy ->
    type (cell gr0 i j) = EMPTY -> type (cell gr i j) = EMPTY.

Definition pending (gr0 gr : Grid) (sx sy : Z) : Prop :=
  well_formed gr = true /\ IsValidPosition sx sy = true /\
  IsValidPosition sx (sy + 1) = true /\
  type (cell gr sx sy) = SAND /\ updated (cell gr sx sy) = false /\
  lifetime (cell gr sx sy) <= 0 /\ type (cell gr sx (sy + 1)) = EMPTY /\
  background gr sx sy /\ empties_kept gr0 gr sx (sy + 1) /\
  cell gr sx sy = cell gr0 sx sy.

Definition landed (gr0 gr : Grid) (sx sy : Z) : Prop :=
  well_formed gr = true /\ IsValidPosition sx (sy + 1) = true /\
  type (cell gr sx (sy + 1)) = SAND /\ updated (cell gr sx (sy + 1)) = true /\
  lifetime (cell gr sx (sy + 1)) <= 0 /\ type (cell gr sx sy) = EMPTY /\
  background gr sx (sy + 1) /\ empties_kept gr0 gr sx (sy + 1) /\
  cell gr sx (sy + 1) = set_updated true (cell gr0 sx sy).

(** The cell [(sx, sy)] holds the processed particle [p] and every other
    cell holds an inert kind. *)
Definition settled (p : Particle) (gr : Grid) (sx sy : Z) : Prop :=
  well_formed gr = true /\ IsValidPosition sx sy = true /\
  cell gr sx sy = p /\ updated p = true /\ background gr sx sy.

(** The decidable form of [settled]. *)
Definition settledb (gr : Grid) (sx sy : Z) : bool :=
  well_formed gr && IsValidPosition sx sy && updated (cell gr sx sy) &&
  forallb (fun '(i, j) => bool_decide (i = sx /\ j = sy) || inert (type (cell gr i j)))
          storage_order.

(** [ticks k] runs [k] ticks. *)
Definition ticks (k : nat) (st : Grid * Rng) : Grid * Rng :=
  Nat.iter k UpdateParticles st.

(** ** Which occupants the cell update runs on *)

(** [q] carries the label and the processed flag of [p]. *)
Definition same_label (p q : Particle) : Prop :=
  ghost_id q = ghost_id p /\ updated q = updated p.

(** [UpdateParticle(x, y)] gets past its guard. *)
Definition enters (x y : Z) (gr : Grid) : bool :=
  IsValidPosition x y && negb (updated (cell gr x y)).

(** The labels of the occupants on which the body of [UpdateParticle] runs
    during a sweep over [ps], in the order in which it runs on them. *)
Fixpoint entered (ps : list (Z * Z)) (st : Grid * Rng) : list Z :=
  match ps with
  | [] => []
  | (x, y) :: ps =>
      (if enters x y (fst st) then [ghost_id (cell (fst st) x y)] else [])
      ++ entered ps (UpdateParticle x y st)
  end.

(** No two cells of the grid carry the same label. *)
Definition distinct_labels (gr : Grid) : Prop :=
  forall i j i' j',
    IsValidPosition i j = true -> IsValidPosition i' j' = true ->
    ghost_id (cell gr i j) = ghost_id (cell gr i' j') -> i = i' /\ j = j'.

(** Every cell is labelled with its index in the storage order. *)
Definition labelled (gr : Grid) : bool :=
  forallb (fun '(i, j) => ghost_id (cell gr i j) =? i * GRID_HEIGHT + j) storage_order.

Definition set_ghost_id (v : Z) (p : Particle) : Particle :=
  mkParticle (type p) (color p) (updated p) (temperature p) (velocity_y p)
             (velocity_x p) (lifetime p) v.

Definition label_cells (gr : Grid) : Grid :=
  imap (fun x col =>
    imap (fun y p => set_ghost_id (Z.of_nat x * GRID_HEIGHT + Z.of_nat y) p) col) gr.

(** The exchange of the positions [(x, y)] and [(tx, ty)]. *)
Definition transpose (x y tx ty i j : Z) : Z * Z :=
  if bool_decide (i = tx /\ j = ty) then (x, y)
  else if bool_decide (i = x /\ j = y) then (tx, ty)
  else (i, j).

(** Every label of [E] is carried by a cell whose processed flag is set. *)
Definition flagged_in (gr : Grid) (E : list Z) : Prop :=
  forall t, t ∈ E ->
    exists i j, IsValidPosition i j = true /\
                ghost_id (cell gr i j) = t /\ updated (cell gr i j) = true.

(** ** The brush as a disc *)

(** The test of the brush on the squared distance [n]. *)
Definition within_radius (n brushSize : Z) : bool :=
  F32.leb (F64.to_f32 (F64.sqrt (F64.of_int n))) (F32.of_int brushSize).

(** [(i, j)] lies within Euclidean distance [radius] of [(x, y)]. *)
Definition in_disc (x y radius i j : Z) : bool :=
  (i - x) * (i - x) + (j - y) * (j - y) <=? radius * radius.

(** The body of the two loops of [PlaceParticles]. *)
Definition stamp (brushSize x y : Z) (t : ParticleType) (dx dy : Z) (gr : Grid) : Grid :=
  if IsValidPosition (x + dx) (y + dy) then
    if within_brush dx dy brushSize then update gr (x + dx) (y + dy) (place t)
    else gr
  else gr.

(** The brush sizes that [HandleInput] allows ([std::max(1, ...)],
    [std::min(20, ...)], initial value 3), with 0 added. *)
Definition brush_sizes : list Z := seqZ 0 21.

(** The particle that [PlaceParticles] leaves in a cell: the kind and its
    colour, temperature and lifetime from the table, no velocity, the
    processed flag cleared, under the label [id]. *)
Definition fresh (t : ParticleType) (id : Z) : Particle :=
  mkParticle t (Props.color (particleProps t)) false
             (Props.temperature (particleProps t)) (F32.of_int 0) (F32.of_int 0)
             (Props.lifetime (particleProps t)) id.

(** ** Sand that cannot move *)

(** None of the three targets of a Sand particle at [(x, y)] is free: the
    cell below, and the two cells diagonally below. *)
Definition sand_blocked (gr : Grid) (x y : Z) : bool :=
  negb ((y <? GRID_HEIGHT - 1) && is_type EMPTY (cell gr x (y + 1))) &&
  negb (IsValidPosition (x + 1) (y + 1) && is_type EMPTY (cell gr (x + 1) (y + 1))) &&
  negb (IsValidPosition (x - 1) (y + 1) && is_type EMPTY (cell gr (x - 1) (y + 1))).

(** ** The diffusion as the specification words it *)

(** The specification's mean: the cell's own temperature once, plus one
    term per in-bounds neighbour (the eight positions around the cell). *)
Definition spec_neighbors : list (Z * Z) :=
  [(-1, -1); (-1, 0); (-1, 1); (0, -1); (0, 1); (1, -1); (1, 0); (1, 1)].

Definition spec_new_temperature (x y : Z) (gr : Grid) : F32.float :=
  let own := temperature (cell gr x y) in
  let '(sum, count) :=
    fold_left (fun '(sum, count) '(dx, dy) =>
      if IsValidPosition (x + dx) (y + dy) then
        (F32.add sum (temperature (cell gr (x + dx) (y + dy))), count + 1)
      else (sum, count))
      spec_neighbors (own, 1) in
  let mean := F32.div sum (F32.of_int count) in
  let t := F32.add (F32.mul mean TEMPERATURE_SPREAD)
                   (F32.mul own (F32.sub (F32.of_int 1) TEMPERATURE_SPREAD)) in
  if F32.gtb t (F32.of_int 20) then F32.sub t COOLING_RATE
  else if F32.ltb t (F32.of_int 20) then F32.add t COOLING_RATE
  else t.

(** The number of terms that [UpdateTemperature] averages at [(x, y)]. *)
Definition terms_averaged (x y : Z) : Z :=
  fold_left (fun count '(dx, dy) =>
    if IsValidPosition (x + dx) (y + dy) then count + 1 else count)
    neighborhood 1.

(** ** Chances under a uniform source *)

(** The values that [GetRandomValue(min, max)] can return, each as likely
    as any other under a uniform source; and, of these, the number on
    which a test succeeds together with their total number. *)
Definition outcomes (min max : Z) : list Z := seqZ min (max - min + 1).

Definition chance (test : Z -> bool) (min max : Z) : Z * Z :=
  (Z.of_nat (length (filter (fun v => test v = true) (outcomes min max))),
   Z.of_nat (length (outcomes min max))).

(** The direction drawn by [GetRandomValue(0, 1) * 2 - 1] is the left. *)
Definition goes_left (v : Z) : bool := v * 2 - 1 =? -1.

(** ** The cells of a fresh grid *)

(** The bottom row and the leftmost and rightmost columns. *)
Definition on_border (x y : Z) : bool :=
  (y =? GRID_HEIGHT - 1) || ((x =? 0) || (x =? GRID_WIDTH - 1)).

(** An ambient cell under the label [id]: Wall on the border, Empty
    elsewhere. *)
Definition initial_particle (x y id : Z) : Particle :=
  if on_border x y
  then mkParticle WALL DARKGRAY false (F32.of_int 20) (F32.of_int 0) (F32.of_int 0) (-1) id
  else mkParticle EMPTY BLACK false (F32.of_int 20) (F32.of_int 0) (F32.of_int 0) (-1) id.

(** ** What a cell update carries along *)

(** [q] carries the label, the processed flag and the lifetime of [p]. *)
Definition carried (p q : Particle) : Prop :=
  ghost_id q = ghost_id p /\ updated q = updated p /\ lifetime q = lifetime p.

(** [(i, j)] is one of the nine positions of the neighbourhood of
    [(x, y)], the position itself included. *)
Definition adjacent (x y i j : Z) : bool :=
  (Z.abs (i - x) <=? 1) && (Z.abs (j - y) <=? 1).

(** The kinds that are the target of no rule of [HandleParticleInteractions]
    and [ProcessChemicalReactions]. *)
Definition immune (t : ParticleType) : bool :=
  match t with
  | ACID | GLASS => true
  | _ => false
  end.

(** ** The controls *)

(** The keys that [HandleInput] tests, with [IsKeyPressed] (the key went
    down in this frame) or with [IsKeyDown] (the key is held). *)
Inductive Key : Set :=
  | KEY_ONE | KEY_TWO | KEY_THREE | KEY_FOUR | KEY_FIVE | KEY_SIX | KEY_SEVEN
  | KEY_EIGHT | KEY_NINE | KEY_LEFT_BRACKET | KEY_RIGHT_BRACKET | KEY_SPACE
  | KEY_R | KEY_S | KEY_L | KEY_M | KEY_F3
  | KEY_LEFT_CONTROL | KEY_LEFT | KEY_RIGHT | KEY_UP | KEY_DOWN.

(** What raylib reports to [HandleInput] during one frame: the keys, the
    mouse buttons that are held ([MOUSE_BUTTON_LEFT] and
    [MOUSE_LEFT_BUTTON] name the same button), the movement of the mouse
    and of its wheel, and the cell under the mouse,
    [(int)(mousePos.x / CELL_SIZE)] and [(int)(mousePos.y / CELL_SIZE)]
    for the position that [GetScreenToWorld2D] returns. *)
Record Input : Type := mkInput {
  IsKeyPressed : Key -> bool;
  IsKeyDown : Key -> bool;
  left_button_down : bool;
  right_button_down : bool;
  mouse_delta_x : F32.float;
  mouse_delta_y : F32.float;
  wheel : F32.float;
  mouse_x : Z;
  mouse_y : Z
}.

(** The fields of the global [camera] that the program reads or writes
    after its initialisation. *)
Record Camera2D : Type := mkCamera {
  target_x : F32.float;
  target_y : F32.float;
  zoom : F32.float
}.

(** The globals of the program, and the files of the host. *)
Record World : Type := mkWorld {
  grid : Grid;
  currentType : ParticleType;
  brushSize : Z;
  paused : bool;
  showDebug : bool;
  symmetryMode : bool;
  camera : Camera2D;
  wind_x : F32.float;
  wind_y : F32.float;
  disk : FileSystem
}.

Definition set_grid (v : Grid) (w : World) : World :=
  mkWorld v (currentType w) (brushSize w) (paused w) (showDebug w) (symmetryMode w)
          (camera w) (wind_x w) (wind_y w) (disk w).
Definition set_currentType (v : ParticleType) (w : World) : World :=
  mkWorld (grid w) v (brushSize w) (paused w) (showDebug w) (symmetryMode w)
          (camera w) (wind_x w) (wind_y w) (disk w).
Definition set_brushSize (v : Z) (w : World) : World :=
  mkWorld (grid w) (currentType w) v (paused w) (showDebug w) (symmetryMode w)
          (camera w) (wind_x w) (wind_y w) (disk w).
Definition set_paused (v : bool) (w : World) : World :=
  mkWorld (grid w) (currentType w) (brushSize w) v (showDebug w) (symmetryMode w)
          (camera w) (wind_x w) (wind_y w) (disk w).
Definition set_showDebug (v : bool) (w : World) : World :=
  mkWorld (grid w) (currentType w) (brushSize w) (paused w) v (symmetryMode w)
          (camera w) (wind_x w) (wind_y w) (disk w).
Definition set_symmetryMode (v : bool) (w : World) : World :=
  mkWorld (grid w) (currentType w) (brushSize w) (paused w) (showDebug w) v
          (camera w) (wind_x w) (wind_y w) (disk w).
Definition set_camera (v : Camera2D) (w : World) : World :=
  mkWorld (grid w) (currentType w) (brushSize w) (paused w) (showDebug w) (symmetryMode w)
          v (wind_x w) (wind_y w) (disk w).
Definition set_wind (vx vy : F32.float) (w : World) : World :=
  mkWorld (grid w) (currentType w) (brushSize w) (paused w) (showDebug w) (symmetryMode w)
          (camera w) vx vy (disk w).
Definition set_disk (v : FileSystem) (w : World) : World :=
  mkWorld (grid w) (currentType w) (brushSize w) (paused w) (showDebug w) (symmetryMode w)
          (camera w) (wind_x w) (wind_y w) v.

(** [if (c) statement;] *)
Definition when {S : Type} (c : bool) (f : S -> S) (s : S) : S :=
  if c then f s else s.

(** [camera.target.x -= delta.x; camera.target.y -= delta.y;] *)
Definition pan (dx dy : F32.float) (c : Camera2D) : Camera2D :=
  mkCamera (F32.sub (target_x c) dx) (F32.sub (target_y c) dy) (zoom c).

(** [camera.zoom += wheel * 0.05f] and the two tests that clamp it. *)
Definition zoom_by (wheel : F32.float) (c : Camera2D) : Camera2D :=
  let z := F32.add (zoom c) (F32.mul wheel (F32.lit 5 100)) in
  let z := if F32.ltb z (F32.lit 1 10) then F32.lit 1 10 else z in
  let z := if F32.gtb z (F32.of_int 3) then F32.of_int 3 else z in
  mkCamera (target_x c) (target_y c) z.

(** The two calls of [PlaceParticles] under a held mouse button. *)
Definition paint (x y : Z) (t : ParticleType) (w : World) : World :=
  let w := set_grid (PlaceParticles (brushSize w) x y t (grid w)) w in
  when (symmetryMode w)
       (fun w => set_grid (PlaceParticles (brushSize w) (GRID_WIDTH - 1 - x) y t (grid w)) w)
       w.

Definition save_name : string := "sandbox_save.dat".

Definition HandleInput (inp : Input) (w : World) : World :=
  let key := IsKeyPressed inp in
  let w :=
    when (IsKeyDown inp KEY_LEFT_CONTROL) (fun w =>
      let w := when (left_button_down inp)
                    (fun w => set_camera (pan (mouse_delta_x inp) (mouse_delta_y inp)
                                              (camera w)) w) w in
      when (negb (SFeqb (wheel inp) (F32.of_int 0)))
           (fun w => set_camera (zoom_by (wheel inp) (camera w)) w) w) w in
  let w := when (key KEY_ONE) (set_currentType SAND) w in
  let w := when (key KEY_TWO) (set_currentType WATER) w in
  let w := when (key KEY_THREE) (set_currentType WALL) w in
  let w := when (key KEY_FOUR) (set_currentType FIRE) w in
  let w := when (key KEY_FIVE) (set_currentType LAVA) w in
  let w := when (key KEY_SIX) (set_currentType ICE) w in
  let w := when (key KEY_SEVEN) (set_currentType OIL) w in
  let w := when (key KEY_EIGHT) (set_currentType ACID) w in
  let w := when (key KEY_NINE) (set_currentType WOOD) w in
  let w := when (key KEY_LEFT_BRACKET)
                (fun w => set_brushSize (Z.max 1 (brushSize w - 1)) w) w in
  let w := when (key KEY_RIGHT_BRACKET)
                (fun w => set_brushSize (Z.min 20 (brushSize w + 1)) w) w in
  let w := when (key KEY_SPACE) (fun w => set_paused (negb (paused w)) w) w in
  let w := when (key KEY_R) (fun w => set_grid (InitializeGrid (grid w)) w) w in
  let w := when (key KEY_S)
                (fun w => set_disk (SaveToFile save_name (grid w) (disk w)) w) w in
  let w := when (key KEY_L)
                (fun w => set_grid (LoadFromFile save_name (grid w) (disk w)) w) w in
  let w := when (key KEY_M) (fun w => set_symmetryMode (negb (symmetryMode w)) w) w in
  let w := when (key KEY_F3) (fun w => set_showDebug (negb (showDebug w)) w) w in
  let w := when (left_button_down inp)
                (fun w => paint (mouse_x inp) (mouse_y inp) (currentType w) w) w in
  let w := when (right_button_down inp)
                (fun w => paint (mouse_x inp) (mouse_y inp) EMPTY w) w in
  set_wind
    (if IsKeyDown inp KEY_LEFT then SFopp (F32.lit 1 10)
     else if IsKeyDown inp KEY_RIGHT then F32.lit 1 10 else F32.of_int 0)
    (if IsKeyDown inp KEY_UP then SFopp (F32.lit 1 10)
     else if IsKeyDown inp KEY_DOWN then F32.lit 1 10 else F32.of_int 0)
    w.

(** One turn of the loop of [main], without the drawing:
    [HandleInput(); if (!paused) UpdateParticles();]. *)
Definition frame (inp : Input) (st : World * Rng) : World * Rng :=
  let w := HandleInput inp (fst st) in
  if paused w then (w, snd st)
  else
    let '(gr, rs) := UpdateParticles (grid w, snd st) in
    (set_grid gr w, rs).

(** The camera as [main] sets it up. *)
Definition initial_camera : Camera2D :=
  mkCamera (F32.of_int 0) (F32.of_int 0) (F32.of_int 1).

(** The globals as they are initialised, after the call of
    [InitializeGrid] that precedes the loop. *)
Definition initial_world (fs : FileSystem) : World :=
  mkWorld (InitializeGrid default_grid) SAND 3 false false false
          initial_camera (F32.of_int 0) (F32.of_int 0) fs.

(** The program run on the inputs of successive frames. *)
Definition run (inputs : list Input) (st : World * Rng) : World * Rng :=
  fold_left (fun st inp => frame inp st) inputs st.

(** The kinds that a number key selects. *)
Definition selectable : list ParticleType :=
  [SAND; WATER; WALL; FIRE; LAVA; ICE; OIL; ACID; WOOD].

(** ** Drawing *)

(** The conversion [(int)f] of a [float] drops the fractional part.  Where
    the value is not finite or does not fit an [int], C++ leaves the
    conversion undefined; the function below then yields 0, respectively
    the integral part itself. *)
Definition float_to_int (f : F32.float) : Z :=
  match f with
  | S754_finite s m e =>
      let v := if 0 <=? e then Z.pos m * 2 ^ e else Z.pos m / 2 ^ (- e) in
      if s then - v else v
  | _ => 0
  end.

(** The conversion [(unsigned char)n] of an [int]. *)
Definition to_uchar (n : Z) : Z := n mod 256.

Definition GetTemperatureColor (baseColor : Color) (temperature : F32.float) : Color :=
  if F32.gtb temperature (F32.of_int 100) then
    let hot := F32.sub temperature (F32.of_int 100) in
    mkColor
      (to_uchar (Z.min 255 (r baseColor + float_to_int (F32.div hot (F32.of_int 4)))))
      (to_uchar (Z.max 0 (g baseColor - float_to_int (F32.div hot (F32.of_int 8)))))
      (to_uchar (Z.max 0 (b baseColor - float_to_int (F32.div hot (F32.of_int 8)))))
      (a baseColor)
  else if F32.ltb temperature (F32.of_int 0) then
    let cold := SFopp temperature in
    mkColor
      (to_uchar (Z.max 0 (r baseColor - float_to_int (F32.div cold (F32.of_int 8)))))
      (to_uchar (Z.max 0 (g baseColor - float_to_int (F32.div cold (F32.of_int 8)))))
      (to_uchar (Z.min 255 (b baseColor + float_to_int (F32.div cold (F32.of_int 4)))))
      (a baseColor)
  else baseColor.

(** The calls of raylib's drawing functions that [DrawGrid] makes. *)
Inductive Drawing : Type :=
  | DrawRectangle (posX posY width height : Z) (c : Color)
  | DrawLine (startPosX startPosY endPosX endPosY : Z) (c : Color).

(** What [DrawGrid] draws for the cell [(x, y)] when it is not Empty: a
    square in the colour that the table gives for the kind, tinted by the
    temperature, and, in debug mode, a line for a cell whose vertical
    velocity is not zero. *)
Definition draw_cell (debug : bool) (x y : Z) (p : Particle) : list Drawing :=
  let particleColor :=
    GetTemperatureColor (Props.color (particleProps (type p))) (temperature p) in
  DrawRectangle (x * CELL_SIZE) (y * CELL_SIZE) CELL_SIZE CELL_SIZE particleColor ::
  (if debug && negb (SFeqb (velocity_y p) (F32.of_int 0)) then
     [DrawLine (x * CELL_SIZE + CELL_SIZE / 2) (y * CELL_SIZE + CELL_SIZE / 2)
        (float_to_int (F32.add (F32.of_int (x * CELL_SIZE + CELL_SIZE / 2))
                               (F32.mul (velocity_x p) (F32.of_int 5))))
        (float_to_int (F32.add (F32.of_int (y * CELL_SIZE + CELL_SIZE / 2))
                               (F32.mul (velocity_y p) (F32.of_int 5))))
        RED]
   else []).

(** [DrawGrid]; the result is the list of the drawing calls in the order
    in which they are made. *)
Definition DrawGrid (w : World) : list Drawing :=
  let cs := F32.of_int CELL_SIZE in
  let startX := Z.max 0 (float_to_int (F32.div (SFopp (target_x (camera w))) cs)) in
  let startY := Z.max 0 (float_to_int (F32.div (SFopp (target_y (camera w))) cs)) in
  let endX :=
    Z.min GRID_WIDTH
      (float_to_int
         (F32.add (F32.div (F32.sub (F32.of_int SCREEN_WIDTH) (target_x (camera w))) cs)
                  (F32.of_int 1))) in
  let endY :=
    Z.min GRID_HEIGHT
      (float_to_int
         (F32.add (F32.div (F32.sub (F32.of_int SCREEN_HEIGHT) (target_y (camera w))) cs)
                  (F32.of_int 1))) in
  for_each (upto startX endX) (fun x out =>
    for_each (upto startY endY) (fun y out =>
      if negb (is_type EMPTY (cell (grid w) x y))
      then out ++ draw_cell (showDebug w) x y (cell (grid w) x y)
      else out) out) [].

(** The label of a kind in the user interface. *)
Definition GetParticleTypeName (t : ParticleType) : string :=
  match t with
  | SAND => "Sand" | WATER => "Water" | WALL => "Wall" | FIRE => "Fire"
  | SMOKE => "Smoke" | STEAM => "Steam" | LAVA => "Lava" | ICE => "Ice"
  | OIL => "Oil" | ACID => "Acid" | WOOD => "Wood" | PLANT => "Plant"
  | SALT => "Salt" | GLASS => "Glass" | METAL => "Metal"
  | EMPTY => "Empty"
  end.

(** Two particles that [DrawGrid] cannot tell apart: they agree on every
    field but the colour, the lifetime and the processed flag. *)
Definition look_alike (p q : Particle) : Prop :=
  type p = type q /\ temperature p = temperature q /\
  velocity_x p = velocity_x q /\ velocity_y p = velocity_y q.

(** ** The targets of a move *)

(** The cells that a particle of kind [t] at [(x, y)] can move to: the
    cell below for every movable kind, the cells to the left and to the
    right for Water and Oil, the two cells diagonally below for Sand. *)
Definition targets (t : ParticleType) (x y : Z) : list (Z * Z) :=
  if Props.movable (particleProps t) then
    (x, y + 1) ::
    match t with
    | WATER | OIL => [(x - 1, y); (x + 1, y)]
    | SAND => [(x - 1, y + 1); (x + 1, y + 1)]
    | _ => []
    end
  else [].

(** The position is in the grid and holds an Empty cell. *)
Definition is_free (gr : Grid) (pos : Z * Z) : bool :=
  IsValidPosition (fst pos) (snd pos) && is_type EMPTY (cell gr (fst pos) (snd pos)).

Definition has_free_target (gr : Grid) (x y : Z) : bool :=
  existsb (is_free gr) (targets (type (cell gr x y)) x y).

(** ** The occupants on which the stages of a cell update run *)

(** The grid on which the stages of [UpdateParticle(x, y)] run, when the
    call gets as far as them: past the guard and past the lifetime
    check. *)
Definition reaches_pipeline (x y : Z) (gr : Grid) : option Grid :=
  if negb (IsValidPosition x y) || updated (cell gr x y) then None
  else
    let gr := update gr x y (set_updated true) in
    if 0 <? lifetime (cell gr x y) then
      let gr := update gr x y (fun p => set_lifetime (lifetime p - 1) p) in
      if lifetime (cell gr x y) <=? 0 then None else Some gr
    else Some gr.

(** The labels of the occupants on which [UpdateTemperature],
    [HandleParticleInteractions] and [ProcessChemicalReactions] run
    during a sweep over [ps], in the order in which they run: each time
    the occupant of [(x, y)] once [UpdatePhysics(x, y)] has returned. *)
Fixpoint staged (ps : list (Z * Z)) (st : Grid * Rng) : list Z :=
  match ps with
  | [] => []
  | (x, y) :: ps =>
      match reaches_pipeline x y (fst st) with
      | Some gr => [ghost_id (cell (fst (UpdatePhysics x y (gr, snd st))) x y)]
      | None => []
      end ++ staged ps (UpdateParticle x y st)
  end.

(** The grid on which [ProcessChemicalReactions(x, y)] runs in
    [UpdateParticle(x, y)], when the call gets that far. *)
Definition reaction_input (x y : Z) (st : Grid * Rng) : option Grid :=
  match reaches_pipeline x y (fst st) with
  | Some gr =>
      let st := UpdatePhysics x y (gr, snd st) in
      let st := (UpdateTemperature x y (fst st), snd st) in
      Some (fst (HandleParticleInteractions x y st))
  | None => None
  end.

End Engine.

(** ** Grids and hosts of the program *)

(** Scenes on the grid of the program, 160 by 90 cells: the initial box
    with one painted particle, whose temperature is then set. *)
Definition warm_cell : Grid := @box_with screen 80 45 SAND 30.
Definition falling_hot_sand : Grid := @box_with screen 80 10 SAND 1701.
Definition corner_hot_sand : Grid := @box_with screen 0 89 SAND 1701.
Definition resting_hot_sand : Grid := @box_with screen 80 88 SAND 3000.
Definition falling_sand : Grid := @box_with screen 80 10 SAND 20.
Definition burning : Grid := @box_with screen 80 45 FIRE 800.

(** Water with Salt to its right and below it. *)
Definition salty_water : Grid :=
  @update screen
    (@update screen (@box_with screen 80 45 WATER 20) 81 45 (place SALT))
    80 46 (place SALT).

(** The initial box with every cell labelled by its storage index. *)
Definition labelled_box : Grid := @label_cells screen (@box screen).

(** A host on which every path can be opened and no file exists yet, and
    a host on which no path can be opened. *)
Definition empty_host : FileSystem := mkFS (fun _ => true) ∅.
Definition closed_host : FileSystem := mkFS (fun _ => false) ∅.

(** Fire on its last unit of lifetime; Water beside Fire; Lava beside
    Water; Acid above Wood; a Glass cell. *)
Definition dying_fire : Grid := @update screen burning 80 45 (set_lifetime 1).
Definition quenching : Grid :=
  @update screen (@box_with screen 80 45 WATER 20) 81 45 (place FIRE).
Definition boiling : Grid :=
  @update screen (@box_with screen 80 45 LAVA 1000) 81 45 (place WATER).
Definition corroding : Grid :=
  @update screen (@box_with screen 80 45 ACID 20) 80 46 (place WOOD).
Definition glazed : Grid := @box_with screen 80 45 GLASS 20.

(** A host whose save file holds a single record. *)
Definition short_file_host : FileSystem :=
  mkFS (fun _ => true) {[ "sandbox_save.dat" := [fresh LAVA 7] ]}.

(** The globals over the initial box, with the symmetry mode on; the same
    with one cell recoloured; and a frame in which every key is down, both
    mouse buttons are held over the middle of the grid and the wheel
    turns. *)
Definition studio : World :=
  mkWorld (@box screen) SAND 3 false false true initial_camera
          (F32.of_int 0) (F32.of_int 0) empty_host.
Definition recoloured : World :=
  set_grid (@update screen (@box screen) 0 0 (set_color SKYBLUE)) studio.
Definition busy_frame : Input :=
  mkInput (fun _ => true) (fun _ => true) true true
          (F32.of_int 3) (F32.of_int (-2)) (F32.of_int 100) 80 45.

(** One Sand particle in the initial box, every cell labelled by its
    storage index. *)
Definition labelled_falling_sand : Grid := @label_cells screen falling_sand.

(** Water in the bottom-left corner of the box, between the wall and a
    Salt cell, with Lava above the Water and Sand above the Salt. *)
Definition crowded_corner : Grid :=
  @update screen
    (@update screen
       (@update screen (@update screen (@box screen) 1 88 (place WATER)) 2 88 (place SALT))
       1 87 (place LAVA))
    2 87 (place SAND).

(** * Properties *)

Section Theory.
Context `{D : Dimensions}.

Lemma valid_spec x y :
  IsValidPosition x y = true <-> 0 <= x < GRID_WIDTH /\ 0 <= y < GRID_HEIGHT.
Proof.
  unfold IsValidPosition.
  rewrite !andb_true_iff, !Z.leb_le, !Z.ltb_lt. lia.
Qed.

Lemma wf_spec gr :
  well_formed gr = true <->
  Z.of_nat (length gr) = GRID_WIDTH /\
  Forall (fun col : list Particle => Z.of_nat (length col) = GRID_HEIGHT) gr.
Proof.
  unfold well_formed.
  rewrite andb_true_iff, Z.eqb_eq, forallb_forall, Forall_forall.
  split; intros [Hw Hh]; (split; [done|]); intros col Hin.
  - apply list_elem_of_In in Hin. apply Hh in Hin. by apply Z.eqb_eq in Hin.
  - apply Z.eqb_eq. apply list_elem_of_In in Hin. by apply Hh in Hin.
Qed.

Lemma wf_set_cell gr x y p :
  well_formed gr = true -> well_formed (set_cell gr x y p) = true.
Proof.
  rewrite !wf_spec. unfold set_cell. intros [Hw Hh].
  destruct (IsValidPosition x y); [|done].
  split; [by rewrite length_alter|].
  apply Forall_alter; [done|].
  intros col _ Hcol. by rewrite length_insert.
Qed.

Lemma cell_invalid gr x y : IsValidPosition x y = false -> cell gr x y = default_particle.
Proof. unfold cell. by intros ->. Qed.

Lemma cell_set_cell gr x y p i j :
  well_formed gr = true ->
  cell (set_cell gr x y p) i j =
  if bool_decide (i = x /\ j = y) && IsValidPosition x y then p else cell gr i j.
Proof.
  intros Hwf. apply wf_spec in Hwf as [Hw Hh].
  unfold set_cell.
  destruct (IsValidPosition x y) eqn:Hv; [|by rewrite andb_false_r].
  rewrite andb_true_r.
  case_bool_decide as Hij.
  - destruct Hij as [-> ->]. unfold cell. rewrite Hv.
    apply valid_spec in Hv.
    rewrite list_lookup_alter_eq.
    destruct (gr !! Z.to_nat x) as [col|] eqn:Hc; simpl.
    + rewrite list_lookup_insert_eq; [done|].
      rewrite Forall_forall in Hh.
      specialize (Hh col ltac:(by eapply list_elem_of_lookup_2)). lia.
    + apply lookup_ge_None in Hc. lia.
  - unfold cell. destruct (IsValidPosition i j) eqn:Hv'; [|done].
    apply valid_spec in Hv, Hv'.
    destruct (decide (i = x)) as [->|Hne].
    + rewrite list_lookup_alter_eq.
      destruct (gr !! Z.to_nat x) as [col|]; simpl; [|done].
      rewrite list_lookup_insert_ne; [done|]. intros Heq. apply Hij. lia.
    + rewrite list_lookup_alter_ne; [done|]. lia.
Qed.

Lemma cell_set_cell_ne gr x y p i j :
  i <> x \/ j <> y -> cell (set_cell gr x y p) i j = cell gr i j.
Proof.
  intros Hne. unfold set_cell.
  destruct (IsValidPosition x y) eqn:Hv; [|done].
  unfold cell. destruct (IsValidPosition i j) eqn:Hv'; [|done].
  apply valid_spec in Hv, Hv'.
  destruct (decide (i = x)) as [->|Hx].
  - rewrite list_lookup_alter_eq.
    destruct (gr !! Z.to_nat x) as [col|]; simpl; [|done].
    rewrite list_lookup_insert_ne; [done|]. lia.
  - rewrite list_lookup_alter_ne; [done|]. lia.
Qed.

Lemma cell_set_cell_eq gr x y p :
  well_formed gr = true -> IsValidPosition x y = true ->
  cell (set_cell gr x y p) x y = p.
Proof.
  intros Hwf Hv. rewrite cell_set_cell by done.
  rewrite Hv, andb_true_r. by rewrite bool_decide_eq_true_2.
Qed.

Lemma wf_update gr x y f :
  well_formed gr = true -> well_formed (update gr x y f) = true.
Proof. apply wf_set_cell. Qed.

Lemma cell_update_eq gr x y f :
  well_formed gr = true -> IsValidPosition x y = true ->
  cell (update gr x y f) x y = f (cell gr x y).
Proof. intros. by apply cell_set_cell_eq. Qed.

Lemma cell_update_ne gr x y f i j :
  i <> x \/ j <> y -> cell (update gr x y f) i j = cell gr i j.
Proof. apply cell_set_cell_ne. Qed.

Lemma cell_update gr x y f i j :
  well_formed gr = true ->
  cell (update gr x y f) i j =
  if bool_decide (i = x /\ j = y) && IsValidPosition x y
  then f (cell gr x y) else cell gr i j.
Proof. intros. by apply cell_set_cell. Qed.

Lemma wf_swap gr x1 y1 x2 y2 :
  well_formed gr = true -> well_formed (swap gr x1 y1 x2 y2) = true.
Proof. intros. unfold swap. by do 2 apply wf_set_cell. Qed.

Lemma cell_swap gr x1 y1 x2 y2 i j :
  well_formed gr = true ->
  IsValidPosition x1 y1 = true -> IsValidPosition x2 y2 = true ->
  cell (swap gr x1 y1 x2 y2) i j =
  if bool_decide (i = x2 /\ j = y2) then cell gr x1 y1
  else if bool_decide (i = x1 /\ j = y1) then cell gr x2 y2
  else cell gr i j.
Proof.
  intros Hwf H1 H2. unfold swap.
  rewrite cell_set_cell by by apply wf_set_cell.
  rewrite H2, andb_true_r. case_bool_decide; [done|].
  rewrite cell_set_cell by done.
  by rewrite H1, andb_true_r.
Qed.

Lemma wf_reset_velocity gr x y :
  well_formed gr = true -> well_formed (reset_velocity gr x y) = true.
Proof. intros. unfold reset_velocity. by do 2 apply wf_update. Qed.

Lemma cell_reset_velocity gr x y i j :
  well_formed gr = true ->
  cell (reset_velocity gr x y) i j =
  if bool_decide (i = x /\ j = y) && IsValidPosition x y
  then set_velocity_y (F32.of_int 0) (set_velocity_x (F32.of_int 0) (cell gr x y))
  else cell gr i j.
Proof.
  intros Hwf. unfold reset_velocity.
  rewrite cell_update by by apply wf_update.
  destruct (bool_decide (i = x /\ j = y) && IsValidPosition x y) eqn:E.
  - apply andb_true_iff in E as [_ Hv]. by rewrite cell_update_eq.
  - rewrite cell_update by done. by rewrite E.
Qed.

Create HintDb grid.
#[local] Hint Resolve wf_set_cell wf_update wf_swap wf_reset_velocity : grid.

(** *** Loops as sweeps over lists of positions *)




Lemma sweep_app {S} ps qs f (s : S) :
  sweep (ps ++ qs) f s = sweep qs f (sweep ps f s).
Proof. unfold sweep. apply fold_left_app. Qed.

Lemma for_each_x_major {S} xs ys (f : Z -> Z -> S -> S) s :
  for_each xs (fun x s => for_each ys (fun y s => f x y s) s) s =
  sweep (x_major xs ys) f s.
Proof.
  revert s. induction xs as [|x xs IH]; intros s; [done|].
  unfold x_major; simpl. rewrite sweep_app. rewrite <- IH.
  unfold for_each at 1; simpl. f_equal.
  generalize s. clear. induction ys as [|y ys IH]; intros s; [done|].
  simpl. apply IH.
Qed.

Lemma for_each_y_major {S} ys xs (f : Z -> Z -> S -> S) s :
  for_each ys (fun y s => for_each xs (fun x s => f x y s) s) s =
  sweep (y_major ys xs) f s.
Proof.
  revert s. induction ys as [|y ys IH]; intros s; [done|].
  unfold y_major; simpl. rewrite sweep_app. rewrite <- IH.
  unfold for_each at 1; simpl. f_equal.
  generalize s. clear. induction xs as [|x xs IH]; intros s; [done|].
  simpl. apply IH.
Qed.

Lemma sweep_inv {S} (P : S -> Prop) ps (f : Z -> Z -> S -> S) s :
  P s -> (forall x y s, (x, y) ∈ ps -> P s -> P (f x y s)) -> P (sweep ps f s).
Proof.
  revert s. induction ps as [|[x y] ps IH]; intros s Hs Hstep; [done|].
  simpl. apply IH.
  - apply Hstep; [left|done].
  - intros. apply Hstep; [by right|done].
Qed.

Lemma fold_left_inv {A B} (P : A -> Prop) (f : A -> B -> A) l a :
  P a -> (forall a b, b ∈ l -> P a -> P (f a b)) -> P (fold_left f l a).
Proof.
  revert a. induction l as [|b l IH]; intros a Ha Hstep; [done|].
  simpl. apply IH.
  - apply Hstep; [left|done].
  - intros. apply Hstep; [by right|done].
Qed.

Lemma elem_of_upto lo hi k : k ∈ upto lo hi <-> lo <= k < hi.
Proof. unfold upto. rewrite elem_of_seqZ. lia. Qed.

Lemma elem_of_downto hi lo k : k ∈ downto hi lo <-> lo <= k <= hi.
Proof. unfold downto. rewrite elem_of_reverse, elem_of_seqZ. lia. Qed.

Lemma elem_of_x_major xs ys x y : (x, y) ∈ x_major xs ys <-> x ∈ xs /\ y ∈ ys.
Proof.
  unfold x_major. rewrite list_elem_of_In, in_flat_map. split.
  - intros (x' & Hx & Hin). apply in_map_iff in Hin as (y' & Heq & Hy).
    inversion Heq; subst. by rewrite !list_elem_of_In.
  - intros [Hx Hy]. exists x. rewrite <- list_elem_of_In. split; [done|].
    apply in_map_iff. exists y. by rewrite <- list_elem_of_In.
Qed.

Lemma elem_of_y_major ys xs x y : (x, y) ∈ y_major ys xs <-> x ∈ xs /\ y ∈ ys.
Proof.
  unfold y_major. rewrite list_elem_of_In, in_flat_map. split.
  - intros (y' & Hy & Hin). apply in_map_iff in Hin as (x' & Heq & Hx).
    inversion Heq; subst. by rewrite !list_elem_of_In.
  - intros [Hx Hy]. exists y. rewrite <- list_elem_of_In. split; [done|].
    apply in_map_iff. exists x. by rewrite <- list_elem_of_In.
Qed.



Lemma elem_of_storage_order x y :
  (x, y) ∈ storage_order <-> IsValidPosition x y = true.
Proof.
  unfold storage_order. rewrite elem_of_x_major, !elem_of_upto, valid_spec. lia.
Qed.

Lemma elem_of_scan_order x y :
  (x, y) ∈ scan_order <-> IsValidPosition x y = true.
Proof.
  unfold scan_order. rewrite elem_of_y_major, elem_of_upto, elem_of_downto, valid_spec. lia.
Qed.

(** *** Relations between grids *)

#[local] Instance kind_only_refl : Reflexive kind_only.
Proof. by intros []. Qed.
#[local] Instance kind_only_trans : Transitive kind_only.
Proof. unfold kind_only. intros p q s Hq Hs. rewrite Hs at 1. by rewrite Hq. Qed.
#[local] Instance kind_color_only_refl : Reflexive kind_color_only.
Proof. by intros []. Qed.
#[local] Instance kind_color_only_trans : Transitive kind_color_only.
Proof. unfold kind_color_only. intros p q s Hq Hs. rewrite Hs at 1. by rewrite Hq. Qed.
#[local] Instance temperature_only_refl : Reflexive temperature_only.
Proof. by intros []. Qed.
#[local] Instance temperature_only_trans : Transitive temperature_only.
Proof. unfold temperature_only. intros p q s Hq Hs. rewrite Hs at 1. by rewrite Hq. Qed.

Lemma kind_only_kind_color p q : kind_only p q -> kind_color_only p q.
Proof. unfold kind_only, kind_color_only. intros ->. by destruct p. Qed.

Lemma related_refl R `{!Reflexive R} gr : well_formed gr = true -> related R gr gr.
Proof. by split. Qed.

Lemma related_trans R `{!Transitive R} gr1 gr2 gr3 :
  related R gr1 gr2 -> related R gr2 gr3 -> related R gr1 gr3.
Proof. intros [? H12] [? H23]. split; [done|]. intros. by etrans. Qed.

Lemma related_wf R gr gr' : related R gr gr' -> well_formed gr' = true.
Proof. by intros []. Qed.

Lemma related_update R `{!Reflexive R} gr x y f :
  well_formed gr = true -> (forall p, R p (f p)) -> related R gr (update gr x y f).
Proof.
  intros Hwf Hf. split; [by apply wf_update|].
  intros i j. rewrite cell_update by done.
  destruct (bool_decide (i = x /\ j = y) && IsValidPosition x y) eqn:E; [|done].
  apply andb_true_iff in E as [E _]. apply bool_decide_eq_true in E as [-> ->].
  apply Hf.
Qed.

Lemma related_step R `{!Reflexive R} `{!Transitive R} gr0 gr x y f :
  related R gr0 gr -> (forall p, R p (f p)) -> related R gr0 (update gr x y f).
Proof.
  intros H Hf. eapply related_trans; [done..|].
  apply related_update; [done|by eapply related_wf|done].
Qed.

Lemma related_impl (R R' : Particle -> Particle -> Prop) gr gr' :
  (forall p q, R p q -> R' p q) -> related R gr gr' -> related R' gr gr'.
Proof. intros HR [? H]. split; [done|]. intros. by apply HR. Qed.

Lemma kind_only_set_type t p : kind_only p (set_type t p).
Proof. by destruct p. Qed.
Lemma kind_color_only_set_type t p : kind_color_only p (set_type t p).
Proof. by destruct p. Qed.
Lemma kind_color_only_set_color c p : kind_color_only p (set_color c p).
Proof. by destruct p. Qed.
Lemma temperature_only_set t p : temperature_only p (set_temperature t p).
Proof. by destruct p. Qed.

#[local] Hint Resolve kind_only_set_type kind_color_only_set_type
  kind_color_only_set_color temperature_only_set : grid.

(** *** The interaction and reaction stages write only the kind (and the
    colour of the Water cell) *)

Lemma interactions_kind_only x y gr rs :
  well_formed gr = true ->
  related kind_only gr (fst (HandleParticleInteractions x y (gr, rs))).
Proof.
  intros Hwf. unfold HandleParticleInteractions.
  pose proof (related_refl kind_only gr Hwf) as H0.
  assert (Hpair : forall l (body : Grid * Rng -> Z * Z -> Grid * Rng) st,
    related kind_only gr (fst st) ->
    (forall st d, related kind_only gr (fst st) -> related kind_only gr (fst (body st d))) ->
    related kind_only gr (fst (fold_left body l st))).
  { intros l body st Hst Hb. apply (fold_left_inv (fun st => related kind_only gr (fst st))); auto. }
  assert (Hone : forall l (body : Grid -> Z * Z -> Grid) g0,
    related kind_only gr g0 ->
    (forall g1 d, related kind_only gr g1 -> related kind_only gr (body g1 d)) ->
    related kind_only gr (fold_left body l g0)).
  { intros l body g0 Hg Hb. apply (fold_left_inv (fun g1 => related kind_only gr g1)); auto. }
  assert (Hstep : forall g1 a b t, related kind_only gr g1 ->
    related kind_only gr (update g1 a b (set_type t))).
  { intros. apply related_step; auto with grid; apply _. }
  destruct (type (cell gr x y)); try done.
  - (* WATER *)
    match goal with |- context [fold_left ?body ?l ?g] =>
      assert (related kind_only gr (fold_left body l g)) as Hg;
      [|generalize dependent (fold_left body l g); intros g1 Hg] end.
    { apply Hone; [done|]. intros g1 [dx dy] Hg1.
      destruct (_ && _); [|done]. by apply Hstep. }
    cbn [fst]. destruct (F32.ltb _ _); [|done]. by apply Hstep.
  - (* FIRE *)
    match goal with |- context [fold_left ?body ?l ?st] =>
      assert (related kind_only gr (fst (fold_left body l st))) as Hg;
      [|destruct (fold_left body l st) as [g1 rs1]] end.
    { apply Hpair; [done|]. intros [g1 rs1] [dx dy] Hg1. cbn [fst] in *.
      destruct (IsValidPosition _ _); [|done].
      destruct (Props.flammable _); [|done].
      destruct (GetRandomValue 0 100 rs1) as [v rs2].
      destruct (ignites v); [|done]. cbn [fst]. by apply Hstep. }
    cbn [fst] in Hg. destruct (GetRandomValue 0 100 rs1) as [v rs2].
    destruct (smokes v); [|done]. destruct (_ && _); [|done].
    cbn [fst]. by apply Hstep.
  - (* LAVA *)
    match goal with |- context [fold_left ?body ?l ?g] =>
      assert (related kind_only gr (fold_left body l g)) as Hg;
      [|generalize dependent (fold_left body l g); intros g1 Hg] end.
    { apply Hone; [done|]. intros g1 [dx dy] Hg1.
      destruct (IsValidPosition _ _); [|done].
      destruct (is_type _ _); [|done]. by apply Hstep. }
    cbn [fst]. destruct (F32.ltb _ _); [|done]. by apply Hstep.
  - (* ACID *)
    apply Hpair; [done|]. intros [g1 rs1] [dx dy] Hg1. cbn [fst] in *.
    destruct (IsValidPosition _ _); [|done].
    destruct (_ && _); [|done].
    destruct (GetRandomValue 0 100 rs1) as [v rs2].
    destruct (dissolves v); [|done]. cbn [fst]. by apply Hstep.
Qed.

Lemma reactions_kind_color_only x y gr :
  well_formed gr = true ->
  related kind_color_only gr (ProcessChemicalReactions x y gr).
Proof.
  intros Hwf. unfold ProcessChemicalReactions.
  pose proof (related_refl kind_color_only gr Hwf) as H0.
  destruct (_ && _).
  { apply related_step; auto with grid; apply _. }
  destruct (is_type WATER _); [|done].
  apply (fold_left_inv (fun g1 => related kind_color_only gr g1)); [done|].
  intros g1 [dx dy] _ Hg1.
  destruct (_ && _); [|done].
  apply related_step; auto with grid; try apply _.
  apply related_step; auto with grid; apply _.
Qed.

(** The colour is written at the visited position only, and only to the
    salt-water tint. *)
Lemma reactions_color x y gr i j :
  well_formed gr = true ->
  color (cell (ProcessChemicalReactions x y gr) i j) = color (cell gr i j) \/
  (i = x /\ j = y /\ type (cell gr x y) = WATER /\
   color (cell (ProcessChemicalReactions x y gr) i j) = SKYBLUE).
Proof.
  intros Hwf. unfold ProcessChemicalReactions.
  destruct (_ && _).
  { left. rewrite cell_update by done.
    destruct (bool_decide (i = x /\ j = y) && IsValidPosition x y) eqn:E; [|done].
    apply andb_true_iff in E as [E _]. by apply bool_decide_eq_true in E as [-> ->]. }
  destruct (is_type WATER _) eqn:Hw; [|by left].
  apply bool_decide_eq_true in Hw.
  match goal with |- context [fold_left ?body ?l ?g] =>
    enough (well_formed (fold_left body l g) = true /\
      (color (cell (fold_left body l g) i j) = color (cell gr i j) \/
       (i = x /\ j = y /\ type (cell gr x y) = WATER /\
        color (cell (fold_left body l g) i j) = SKYBLUE))) as [_ H] by exact H end.
  apply (fold_left_inv (fun g1 => well_formed g1 = true /\
    (color (cell g1 i j) = color (cell gr i j) \/
     (i = x /\ j = y /\ type (cell gr x y) = WATER /\ color (cell g1 i j) = SKYBLUE))));
    [by split; [|left]|].
  intros g1 [dx dy] _ [Hwf1 Hc].
  destruct (IsValidPosition (x + dx) (y + dy) && _); [|by split].
  split; [auto with grid|].
  rewrite cell_update by auto with grid.
  destruct (bool_decide (i = x /\ j = y) && IsValidPosition x y) eqn:E.
  - apply andb_true_iff in E as [E _]. apply bool_decide_eq_true in E as [-> ->].
    by right.
  - rewrite cell_update by done.
    destruct (bool_decide (i = x + dx /\ j = y + dy) && _) eqn:E'; [|done].
    apply andb_true_iff in E' as [E' _].
    apply bool_decide_eq_true in E' as [-> ->].
    destruct Hc as [Hc|(Hx & Hy & _ & Hc)]; [by left|].
    exfalso. apply andb_false_iff in E as [E|E].
    + apply bool_decide_eq_false in E. tauto.
    + rewrite cell_invalid in Hw by done. discriminate.
Qed.

Lemma temperature_stage_only x y gr :
  well_formed gr = true ->
  related temperature_only gr (UpdateTemperature x y gr).
Proof.
  intros Hwf. unfold UpdateTemperature.
  apply related_update; auto with grid. apply _.
Qed.

(** *** Movement *)

(** [UpdatePhysics] leaves the grid as it is or exchanges the visited cell
    with an Empty cell at another position and zeroes the velocity stored
    at the visited position. *)
Lemma physics_cases x y gr rs :
  IsValidPosition x y = true ->
  fst (UpdatePhysics x y (gr, rs)) = gr \/
  exists tx ty,
    IsValidPosition tx ty = true /\ (tx <> x \/ ty <> y) /\
    type (cell gr tx ty) = EMPTY /\
    Props.movable (particleProps (type (cell gr x y))) = true /\
    fst (UpdatePhysics x y (gr, rs)) = reset_velocity (swap gr x y tx ty) x y.
Proof.
  intros Hxy. unfold UpdatePhysics.
  destruct (Props.movable _) eqn:Hm; cbn [negb]; [|by left].
  assert (Hside : forall ty dir, dir <> 0 ->
    try_sides x y ty dir gr = gr \/
    exists tx, IsValidPosition tx ty = true /\ tx <> x /\
      type (cell gr tx ty) = EMPTY /\
      try_sides x y ty dir gr = reset_velocity (swap gr x y tx ty) x y).
  { intros ty dir Hdir. unfold try_sides.
    destruct (IsValidPosition (x + dir) ty && _) eqn:E1.
    { right. apply andb_true_iff in E1 as [Hv He]. apply bool_decide_eq_true in He.
      exists (x + dir). repeat split; auto. lia. }
    destruct (IsValidPosition (x - dir) ty && _) eqn:E2; [|by left].
    right. apply andb_true_iff in E2 as [Hv He]. apply bool_decide_eq_true in He.
    exists (x - dir). repeat split; auto. lia. }
  assert (Hdir : forall rs0, (fst (GetRandomValue 0 1 rs0)) * 2 - 1 <> 0) by (intros; lia).
  destruct ((y <? GRID_HEIGHT - 1) && _) eqn:E.
  { right. apply andb_true_iff in E as [Hy He]. apply bool_decide_eq_true in He.
    exists x, (y + 1). cbn [fst]. repeat split; auto; [|lia].
    apply valid_spec in Hxy. apply valid_spec. lia. }
  destruct (_ || _).
  { specialize (Hdir rs). destruct (GetRandomValue 0 1 rs) as [v rs1]. cbn [fst] in *.
    destruct (Hside y (v * 2 - 1) Hdir) as [->|(tx & ? & ? & ? & ->)]; [by left|].
    right. exists tx, y. repeat split; auto. }
  destruct (is_type SAND _); [|by left].
  specialize (Hdir rs). destruct (GetRandomValue 0 1 rs) as [v rs1]. cbn [fst] in *.
  destruct (Hside (y + 1) (v * 2 - 1) Hdir) as [->|(tx & ? & ? & ? & ->)]; [by left|].
  right. exists tx, (y + 1). repeat split; auto.
Qed.

Lemma fields_kept_kind_only p q : kind_only p q -> fields_kept p q.
Proof. unfold kind_only. intros ->. by destruct p. Qed.

Lemma fields_kept_kind_color_only p q : kind_color_only p q -> fields_kept p q.
Proof. unfold kind_color_only. intros ->. by destruct p. Qed.

Lemma color_kind_only p q : kind_only p q -> color q = color p.
Proof. unfold kind_only. intros ->. by destruct p. Qed.

Lemma type_valid gr x y : type (cell gr x y) <> EMPTY -> IsValidPosition x y = true.
Proof.
  intros H. destruct (IsValidPosition x y) eqn:E; [done|].
  by rewrite cell_invalid in H.
Qed.

(** *** Reactions *)

Lemma hot_sand_reaction x y gr :
  type (cell gr x y) = SAND ->
  F32.gtb (temperature (cell gr x y)) (F32.of_int 1700) = true ->
  ProcessChemicalReactions x y gr = update gr x y (set_type GLASS).
Proof.
  intros Ht Hhot. unfold ProcessChemicalReactions.
  unfold is_type at 1. rewrite bool_decide_eq_true_2 by done. by rewrite Hhot.
Qed.

Lemma salt_reaction x y gr :
  well_formed gr = true -> type (cell gr x y) = WATER ->
  let gr' := ProcessChemicalReactions x y gr in
  well_formed gr' = true /\
  (forall i j, type (cell gr' i j) = type (cell gr i j) \/
               (type (cell gr i j) = SALT /\ type (cell gr' i j) = EMPTY)) /\
  (forall dx dy, (dx, dy) ∈ neighborhood ->
     IsValidPosition (x + dx) (y + dy) = true ->
     type (cell gr (x + dx) (y + dy)) = SALT ->
     type (cell gr' (x + dx) (y + dy)) = EMPTY /\ color (cell gr' x y) = SKYBLUE).
Proof.
  intros Hwf Hw gr'.
  assert (Hxy : IsValidPosition x y = true) by (apply (type_valid gr); congruence).
  set (body := fun (gr0 : Grid) '(dx, dy) =>
    if IsValidPosition (x + dx) (y + dy) && is_type SALT (cell gr0 (x + dx) (y + dy))
    then update (update gr0 (x + dx) (y + dy) (set_type EMPTY)) x y (set_color SKYBLUE)
    else gr0).
  assert (Hgr' : gr' = fold_left body neighborhood gr).
  { subst gr'. unfold ProcessChemicalReactions, is_type.
    rewrite bool_decide_eq_false_2 by congruence. cbn [andb].
    by rewrite bool_decide_eq_true_2 by done. }
  rewrite Hgr'. clear Hgr' gr'.
  set (Inv := fun (done : list (Z * Z)) (g1 : Grid) =>
    well_formed g1 = true /\
    (forall i j, type (cell g1 i j) = type (cell gr i j) \/
                 (type (cell gr i j) = SALT /\ type (cell g1 i j) = EMPTY)) /\
    (forall i j, type (cell g1 i j) <> type (cell gr i j) ->
                 color (cell g1 x y) = SKYBLUE) /\
    (forall dx dy, (dx, dy) ∈ done ->
       IsValidPosition (x + dx) (y + dy) = true ->
       type (cell gr (x + dx) (y + dy)) = SALT ->
       type (cell g1 (x + dx) (y + dy)) = EMPTY)).
  enough (Hgen : forall l done g1, Inv done g1 -> Inv (done ++ l) (fold_left body l g1)).
  { destruct (Hgen neighborhood [] gr) as (H1 & H2 & H3 & H4).
    { repeat split; auto. intros; congruence. intros ? ? Hin. by apply elem_of_nil in Hin. }
    split; [exact H1|]. split; [exact H2|].
    intros dx dy Hin Hv Hs. split; [by apply H4|].
    apply (H3 (x + dx) (y + dy)). rewrite (H4 dx dy) by done. congruence. }
  induction l as [|[dx dy] l IH]; intros done g1 HI.
  { by rewrite app_nil_r. }
  replace (done ++ (dx, dy) :: l) with ((done ++ [(dx, dy)]) ++ l) by by rewrite <- app_assoc.
  cbn [fold_left]. apply IH. clear IH.
  destruct HI as (H1 & H2 & H3 & H4).
  unfold body at 1.
  destruct (IsValidPosition (x + dx) (y + dy) && _) eqn:E.
  - apply andb_true_iff in E as [Hv Hs]. apply bool_decide_eq_true in Hs.
    assert (Hsalt : type (cell gr (x + dx) (y + dy)) = SALT).
    { destruct (H2 (x + dx) (y + dy)) as [Heq|[? ?]]; congruence. }
    assert (Hne : x + dx <> x \/ y + dy <> y).
    { destruct (decide (dx = 0)) as [->|]; [|lia].
      destruct (decide (dy = 0)) as [->|]; [|lia].
      exfalso. rewrite !Z.add_0_r in Hsalt. congruence. }
    assert (Hcell : forall i j,
      cell (update (update g1 (x + dx) (y + dy) (set_type EMPTY)) x y (set_color SKYBLUE)) i j =
      if bool_decide (i = x /\ j = y) then set_color SKYBLUE (cell g1 x y)
      else if bool_decide (i = x + dx /\ j = y + dy) then set_type EMPTY (cell g1 i j)
      else cell g1 i j).
    { intros i j. rewrite cell_update by auto with grid.
      rewrite Hxy, andb_true_r. case_bool_decide as Hij.
      - destruct Hij as [-> ->]. by rewrite cell_update_ne by lia.
      - rewrite cell_update by done. rewrite Hv, andb_true_r.
        case_bool_decide as Hij'; [|done]. by destruct Hij' as [-> ->]. }
    repeat split.
    + auto with grid.
    + intros i j. rewrite Hcell. case_bool_decide as Hij.
      { destruct Hij as [-> ->]. apply (H2 x y). }
      case_bool_decide as Hij'; [|apply H2].
      destruct Hij' as [-> ->]. right. by split.
    + intros _ _ _. rewrite Hcell. by rewrite bool_decide_eq_true_2.
    + intros dx' dy' Hin Hv' Hs'. rewrite Hcell.
      case_bool_decide as Hij.
      { exfalso. destruct Hij as [Ha Hb]. rewrite Ha, Hb in Hs'. congruence. }
      case_bool_decide; [done|].
      apply elem_of_app in Hin as [Hin|Hin]; [by apply H4|].
      apply list_elem_of_singleton in Hin. inversion Hin; subst. tauto.
  - repeat split; auto.
    intros dx' dy' Hin Hv' Hs'.
    apply elem_of_app in Hin as [Hin|Hin]; [by apply H4|].
    apply list_elem_of_singleton in Hin. inversion Hin; subst.
    destruct (H2 (x + dx) (y + dy)) as [Heq|[? ?]]; [|done].
    exfalso. rewrite Hv' in E. cbn [andb] in E.
    apply bool_decide_eq_false in E. congruence.
Qed.

(** *** The cell update on particular cells *)

Lemma cell_UpdateTemperature x y gr i j :
  well_formed gr = true ->
  cell (UpdateTemperature x y gr) i j =
  if bool_decide (i = x /\ j = y) && IsValidPosition x y
  then set_temperature (new_temperature x y gr) (cell gr x y)
  else cell gr i j.
Proof. intros. unfold UpdateTemperature. by rewrite cell_update. Qed.

Lemma wf_UpdateTemperature x y gr :
  well_formed gr = true -> well_formed (UpdateTemperature x y gr) = true.
Proof. intros. by apply wf_update. Qed.

#[local] Hint Resolve wf_UpdateTemperature : grid.

Lemma UpdateParticle_skip x y gr rs :
  IsValidPosition x y = false \/ updated (cell gr x y) = true ->
  UpdateParticle x y (gr, rs) = (gr, rs).
Proof.
  intros H. unfold UpdateParticle.
  destruct H as [-> | ->]; [done|]. by rewrite orb_true_r.
Qed.

Lemma inert_not_movable t : inert t = true -> Props.movable (particleProps t) = false.
Proof. by destruct t. Qed.

(** On an inert kind the stages after the lifetime check only diffuse the
    temperature of the visited cell. *)
Lemma pipeline_inert x y gr rs :
  well_formed gr = true ->
  inert (type (cell gr x y)) = true ->
  pipeline x y (gr, rs) = (UpdateTemperature x y gr, rs).
Proof.
  intros Hwf Hin. unfold pipeline.
  assert (Hp : UpdatePhysics x y (gr, rs) = (gr, rs)).
  { unfold UpdatePhysics. by rewrite inert_not_movable. }
  rewrite Hp. cbn [fst snd].
  assert (Ht : type (cell (UpdateTemperature x y gr) x y) = type (cell gr x y)).
  { rewrite cell_UpdateTemperature by done. by destruct (_ && _). }
  assert (Hi : HandleParticleInteractions x y (UpdateTemperature x y gr, rs)
               = (UpdateTemperature x y gr, rs)).
  { unfold HandleParticleInteractions. rewrite Ht.
    by destruct (type (cell gr x y)). }
  rewrite Hi. cbn [fst snd]. f_equal.
  unfold ProcessChemicalReactions, is_type. rewrite Ht.
  by destruct (type (cell gr x y)).
Qed.

(** A movable particle above an Empty cell: the two cells are exchanged,
    and the later stages run on the Empty cell that now sits at the
    visited position. *)
Lemma pipeline_fall x y gr rs :
  well_formed gr = true ->
  IsValidPosition x y = true -> IsValidPosition x (y + 1) = true ->
  Props.movable (particleProps (type (cell gr x y))) = true ->
  type (cell gr x (y + 1)) = EMPTY ->
  pipeline x y (gr, rs) =
  (UpdateTemperature x y (reset_velocity (swap gr x y x (y + 1)) x y), rs).
Proof.
  intros Hwf Hv Hv1 Hm He. unfold pipeline.
  set (g2 := reset_velocity (swap gr x y x (y + 1)) x y).
  assert (Hp : UpdatePhysics x y (gr, rs) = (g2, rs)).
  { unfold UpdatePhysics. rewrite Hm. cbn [negb].
    unfold is_type at 1. rewrite bool_decide_eq_true_2 by done.
    apply valid_spec in Hv1.
    replace (y <? GRID_HEIGHT - 1) with true; [done|].
    symmetry. apply Z.ltb_lt. lia. }
  rewrite Hp. cbn [fst snd].
  assert (Hwf2 : well_formed g2 = true) by (subst g2; auto with grid).
  assert (Ht : type (cell (UpdateTemperature x y g2) x y) = EMPTY).
  { rewrite cell_UpdateTemperature by done.
    rewrite Hv, andb_true_r, bool_decide_eq_true_2 by done.
    subst g2. rewrite cell_reset_velocity by auto with grid.
    rewrite Hv, andb_true_r, bool_decide_eq_true_2 by done.
    rewrite cell_swap by done.
    rewrite bool_decide_eq_false_2 by lia.
    rewrite bool_decide_eq_true_2 by done. done. }
  assert (Hi : HandleParticleInteractions x y (UpdateTemperature x y g2, rs)
               = (UpdateTemperature x y g2, rs)).
  { unfold HandleParticleInteractions. by rewrite Ht. }
  rewrite Hi. cbn [fst snd]. f_equal.
  unfold ProcessChemicalReactions, is_type. by rewrite Ht.
Qed.

(** The cell update on an inert cell writes that cell only, and leaves it
    with its kind or Empty. *)
Lemma UpdateParticle_inert x y gr rs :
  well_formed gr = true ->
  inert (type (cell gr x y)) = true ->
  snd (UpdateParticle x y (gr, rs)) = rs /\
  well_formed (fst (UpdateParticle x y (gr, rs))) = true /\
  (forall i j, i <> x \/ j <> y ->
     cell (fst (UpdateParticle x y (gr, rs))) i j = cell gr i j) /\
  (type (cell (fst (UpdateParticle x y (gr, rs))) x y) = type (cell gr x y) \/
   type (cell (fst (UpdateParticle x y (gr, rs))) x y) = EMPTY).
Proof.
  intros Hwf Hin. unfold UpdateParticle.
  destruct (negb _ || _) eqn:Hguard; [by auto|].
  apply orb_false_iff in Hguard as [Hv Hu]. apply negb_false_iff in Hv.
  set (g1 := update gr x y (set_updated true)).
  assert (Hwf1 : well_formed g1 = true) by (subst g1; auto with grid).
  assert (Hc1 : cell g1 x y = set_updated true (cell gr x y)).
  { subst g1. by rewrite cell_update_eq. }
  assert (Ho1 : forall i j, i <> x \/ j <> y -> cell g1 i j = cell gr i j).
  { intros. subst g1. by rewrite cell_update_ne. }
  assert (Hpipe : forall g2, well_formed g2 = true ->
    (forall i j, i <> x \/ j <> y -> cell g2 i j = cell gr i j) ->
    type (cell g2 x y) = type (cell gr x y) ->
    snd (pipeline x y (g2, rs)) = rs /\
    well_formed (fst (pipeline x y (g2, rs))) = true /\
    (forall i j, i <> x \/ j <> y -> cell (fst (pipeline x y (g2, rs))) i j = cell gr i j) /\
    (type (cell (fst (pipeline x y (g2, rs))) x y) = type (cell gr x y) \/
     type (cell (fst (pipeline x y (g2, rs))) x y) = EMPTY)).
  { intros g2 Hwf2 Ho2 Ht2. rewrite pipeline_inert by (done || congruence).
    cbn [fst snd]. repeat split; auto with grid.
    - intros i j Hne. rewrite cell_UpdateTemperature by done.
      rewrite bool_decide_eq_false_2 by tauto. by apply Ho2.
    - left. rewrite cell_UpdateTemperature by done.
      by rewrite Hv, andb_true_r, bool_decide_eq_true_2. }
  destruct (0 <? lifetime (cell g1 x y)); [|apply Hpipe; auto; by rewrite Hc1].
  set (g2 := update g1 x y _).
  assert (Hwf2 : well_formed g2 = true) by (subst g2; auto with grid).
  assert (Ho2 : forall i j, i <> x \/ j <> y -> cell g2 i j = cell gr i j).
  { intros. subst g2. rewrite cell_update_ne by done. by apply Ho1. }
  assert (Ht2 : type (cell g2 x y) = type (cell gr x y)).
  { subst g2. rewrite cell_update_eq by done. by rewrite Hc1. }
  destruct (lifetime (cell g2 x y) <=? 0); [|by apply Hpipe].
  cbn [fst snd]. repeat split; auto with grid.
  - intros. rewrite cell_update_ne by done. by apply Ho2.
  - right. by rewrite cell_update_eq.
Qed.

(** The cell update on an unprocessed, unexpiring movable particle above
    an Empty cell. *)
Lemma UpdateParticle_fall x y gr rs :
  well_formed gr = true ->
  IsValidPosition x y = true -> IsValidPosition x (y + 1) = true ->
  updated (cell gr x y) = false -> lifetime (cell gr x y) <= 0 ->
  Props.movable (particleProps (type (cell gr x y))) = true ->
  type (cell gr x (y + 1)) = EMPTY ->
  snd (UpdateParticle x y (gr, rs)) = rs /\
  well_formed (fst (UpdateParticle x y (gr, rs))) = true /\
  forall i j,
    cell (fst (UpdateParticle x y (gr, rs))) i j =
    if bool_decide (i = x /\ j = y + 1) then set_updated true (cell gr x y)
    else if bool_decide (i = x /\ j = y) then
      set_temperature
        (new_temperature x y
           (reset_velocity (swap (update gr x y (set_updated true)) x y x (y + 1)) x y))
        (set_velocity_y (F32.of_int 0)
           (set_velocity_x (F32.of_int 0) (cell gr x (y + 1))))
    else cell gr i j.
Proof.
  intros Hwf Hv Hv1 Hu Hl Hm He. unfold UpdateParticle.
  rewrite Hv, Hu. cbn [negb orb].
  set (g1 := update gr x y (set_updated true)).
  assert (Hwf1 : well_formed g1 = true) by (subst g1; auto with grid).
  assert (Hc1 : cell g1 x y = set_updated true (cell gr x y)).
  { subst g1. by rewrite cell_update_eq. }
  assert (Ho1 : forall i j, i <> x \/ j <> y -> cell g1 i j = cell gr i j).
  { intros. subst g1. by rewrite cell_update_ne. }
  replace (0 <? lifetime (cell g1 x y)) with false
    by (symmetry; apply Z.ltb_ge; by rewrite Hc1).
  rewrite pipeline_fall; try done.
  2: by rewrite Hc1.
  2: rewrite Ho1 by lia; done.
  cbn [fst snd]. split; [done|]. split; [auto with grid|].
  intros i j. rewrite cell_UpdateTemperature by auto with grid.
  rewrite Hv, andb_true_r.
  destruct (decide (i = x /\ j = y)) as [[-> ->]|H1].
  { rewrite (bool_decide_eq_true_2 (x = x /\ y = y)) by done.
    rewrite (bool_decide_eq_false_2 (x = x /\ y = y + 1)) by lia.
    rewrite cell_reset_velocity by auto with grid.
    rewrite Hv, andb_true_r, bool_decide_eq_true_2 by done.
    rewrite cell_swap by done.
    rewrite (bool_decide_eq_false_2 (x = x /\ y = y + 1)) by lia.
    rewrite (bool_decide_eq_true_2 (x = x /\ y = y)) by done.
    by rewrite Ho1 by lia. }
  rewrite (bool_decide_eq_false_2 (i = x /\ j = y)) by done.
  rewrite cell_reset_velocity by auto with grid.
  rewrite (bool_decide_eq_false_2 (i = x /\ j = y)) by done. cbn [andb].
  rewrite cell_swap by done.
  case_bool_decide as H2; [by rewrite Hc1|].
  rewrite (bool_decide_eq_false_2 (i = x /\ j = y)) by done.
  apply Ho1. destruct (decide (i = x)); [|tauto]. right. intros ->. tauto.
Qed.

(** *** A lone Sand particle during one sweep of the tick *)

Lemma inert_EMPTY_or t t' : inert t = true -> t' = t \/ t' = EMPTY -> inert t' = true.
Proof. by intros ? [-> | ->]. Qed.

Lemma pending_other gr0 gr rs sx sy x y :
  pending gr0 gr sx sy -> x <> sx \/ y <> sy ->
  pending gr0 (fst (UpdateParticle x y (gr, rs))) sx sy /\
  snd (UpdateParticle x y (gr, rs)) = rs.
Proof.
  intros (Hwf & Hv & Hv1 & Hs & Hu & Hl & He & Hbg & Hk & Hid) Hne.
  destruct (UpdateParticle_inert x y gr rs Hwf (Hbg x y Hne)) as (Hrs & Hwf' & Ho & Ht).
  split; [|done].
  assert (Hsame : cell (fst (UpdateParticle x y (gr, rs))) sx sy = cell gr sx sy).
  { apply Ho. lia. }
  unfold pending. rewrite Hsame. repeat split; try done.
  - destruct (decide (sx = x /\ sy + 1 = y)) as [[<- <-]|Hd].
    + destruct Ht as [Ht|Ht]; congruence.
    + rewrite Ho; [done|]. lia.
  - intros i j Hij. destruct (decide (i = x /\ j = y)) as [[-> ->]|Hd].
    + eapply inert_EMPTY_or; [by apply Hbg|done].
    + rewrite Ho; [by apply Hbg|]. lia.
  - intros i j Hij H0. destruct (decide (i = x /\ j = y)) as [[-> ->]|Hd].
    + specialize (Hk x y Hij H0). destruct Ht as [Ht|Ht]; congruence.
    + rewrite Ho; [by apply Hk|]. lia.
Qed.

Lemma pending_visit gr0 gr rs sx sy :
  pending gr0 gr sx sy ->
  landed gr0 (fst (UpdateParticle sx sy (gr, rs))) sx sy /\
  snd (UpdateParticle sx sy (gr, rs)) = rs.
Proof.
  intros (Hwf & Hv & Hv1 & Hs & Hu & Hl & He & Hbg & Hk & Hid).
  destruct (UpdateParticle_fall sx sy gr rs) as (Hrs & Hwf' & Hc); try done.
  { by rewrite Hs. }
  split; [|done]. unfold landed. rewrite !Hc.
  rewrite (bool_decide_eq_true_2 (sx = sx /\ sy + 1 = sy + 1)) by done.
  rewrite (bool_decide_eq_false_2 (sx = sx /\ sy = sy + 1)) by lia.
  rewrite (bool_decide_eq_true_2 (sx = sx /\ sy = sy)) by done.
  repeat split; try done.
  - intros i j Hij. rewrite Hc.
    rewrite bool_decide_eq_false_2 by lia.
    case_bool_decide as Hd; [cbn [type set_temperature set_velocity_y set_velocity_x]; by rewrite He|]. apply Hbg.
    lia.
  - intros i j Hij H0. rewrite Hc.
    rewrite bool_decide_eq_false_2 by lia.
    case_bool_decide as Hd; [done|]. by apply Hk.
  - by rewrite Hid.
Qed.

Lemma landed_step gr0 gr rs sx sy x y :
  landed gr0 gr sx sy ->
  landed gr0 (fst (UpdateParticle x y (gr, rs))) sx sy /\
  snd (UpdateParticle x y (gr, rs)) = rs.
Proof.
  intros HL. destruct (decide (x = sx /\ y = sy + 1)) as [[-> ->]|Hne].
  { destruct HL as (Hwf & Hv1 & Hs & Hu & ?). by rewrite UpdateParticle_skip by auto. }
  destruct HL as (Hwf & Hv1 & Hs & Hu & Hl & He & Hbg & Hk & Hid).
  assert (Hne' : x <> sx \/ y <> sy + 1).
  { lia. }
  destruct (UpdateParticle_inert x y gr rs Hwf (Hbg x y Hne')) as (Hrs & Hwf' & Ho & Ht).
  split; [|done].
  assert (Hsame : cell (fst (UpdateParticle x y (gr, rs))) sx (sy + 1) = cell gr sx (sy + 1)).
  { apply Ho. lia. }
  unfold landed. rewrite Hsame. repeat split; try done.
  - destruct (decide (sx = x /\ sy = y)) as [[<- <-]|Hd].
    + destruct Ht as [Ht|Ht]; congruence.
    + rewrite Ho; [done|]. lia.
  - intros i j Hij. destruct (decide (i = x /\ j = y)) as [[-> ->]|Hd].
    + eapply inert_EMPTY_or; [by apply Hbg|done].
    + rewrite Ho; [by apply Hbg|]. lia.
  - intros i j Hij H0. destruct (decide (i = x /\ j = y)) as [[-> ->]|Hd].
    + specialize (Hk x y Hij H0). destruct Ht as [Ht|Ht]; congruence.
    + rewrite Ho; [by apply Hk|]. lia.
Qed.

Lemma sweep_landed ps gr0 gr rs sx sy :
  landed gr0 gr sx sy ->
  landed gr0 (fst (sweep ps UpdateParticle (gr, rs))) sx sy /\
  snd (sweep ps UpdateParticle (gr, rs)) = rs.
Proof.
  revert gr. induction ps as [|[x y] ps IH]; intros gr HL; [done|].
  cbn [sweep fold_left].
  destruct (landed_step gr0 gr rs sx sy x y HL) as [HL' Hrs].
  destruct (UpdateParticle x y (gr, rs)) as [gr' rs']. cbn [fst snd] in *. subst rs'.
  by apply IH.
Qed.

Lemma sweep_pending ps gr0 gr rs sx sy :
  pending gr0 gr sx sy -> (sx, sy) ∈ ps ->
  landed gr0 (fst (sweep ps UpdateParticle (gr, rs))) sx sy /\
  snd (sweep ps UpdateParticle (gr, rs)) = rs.
Proof.
  revert gr. induction ps as [|[x y] ps IH]; intros gr HP Hin.
  { by apply elem_of_nil in Hin. }
  cbn [sweep fold_left].
  destruct (decide (x = sx /\ y = sy)) as [[-> ->]|Hne].
  - destruct (pending_visit gr0 gr rs sx sy HP) as [HL Hrs].
    destruct (UpdateParticle sx sy (gr, rs)) as [gr' rs']. cbn [fst snd] in *. subst rs'.
    by apply sweep_landed.
  - assert (Hne' : x <> sx \/ y <> sy).
    { lia. }
    destruct (pending_other gr0 gr rs sx sy x y HP Hne') as [HP' Hrs].
    destruct (UpdateParticle x y (gr, rs)) as [gr' rs']. cbn [fst snd] in *. subst rs'.
    apply IH; [done|].
    apply elem_of_cons in Hin as [Heq|Hin]; [|done].
    inversion Heq; subst. lia.
Qed.

(** *** Loops that apply one assignment to every visited cell *)

Lemma sweep_update_wf ps f gr :
  well_formed gr = true ->
  well_formed (sweep ps (fun x y gr => update gr x y f) gr) = true.
Proof. intros. apply (sweep_inv (fun gr => well_formed gr = true)); auto with grid. Qed.

Lemma sweep_update_cell ps f gr i j :
  (forall p, f (f p) = f p) ->
  well_formed gr = true ->
  cell (sweep ps (fun x y gr => update gr x y f) gr) i j =
  if bool_decide ((i, j) ∈ ps) && IsValidPosition i j then f (cell gr i j)
  else cell gr i j.
Proof.
  intros Hf. revert gr. induction ps as [|[x y] ps IH]; intros gr Hwf; [done|].
  cbn [sweep fold_left]. fold (sweep ps (fun x y gr => update gr x y f) (update gr x y f)).
  rewrite IH by auto with grid.
  rewrite cell_update by done.
  destruct (IsValidPosition i j) eqn:Hv; rewrite ?andb_false_r, ?andb_true_r.
  - destruct (decide (i = x /\ j = y)) as [[-> ->]|Hne].
    + rewrite (bool_decide_eq_true_2 (x = x /\ y = y)) by done.
      rewrite Hv. cbn [andb].
      rewrite (bool_decide_eq_true_2 ((x, y) ∈ (x, y) :: ps)) by left.
      by destruct (bool_decide _); rewrite ?Hf.
    + rewrite (bool_decide_eq_false_2 (i = x /\ j = y)) by done. cbn [andb].
      destruct (decide ((i, j) ∈ ps)) as [Hin|Hin].
      * rewrite !bool_decide_eq_true_2; [done| by right | done].
      * rewrite !bool_decide_eq_false_2; [done| | done].
        intros Hin'. apply elem_of_cons in Hin' as [Heq|?]; [|done].
        inversion Heq; subst. tauto.
  - rewrite (cell_invalid gr i j) by done.
    destruct (bool_decide (i = x /\ j = y) && _) eqn:E; [|done].
    apply andb_true_iff in E as [E Hv'].
    apply bool_decide_eq_true in E as [-> ->]. congruence.
Qed.

Lemma wf_reset_updated gr :
  well_formed gr = true -> well_formed (reset_updated gr) = true.
Proof.
  intros. unfold reset_updated.
  rewrite (for_each_x_major _ _ (fun x y gr => update gr x y (set_updated false))).
  by apply sweep_update_wf.
Qed.

Lemma cell_reset_updated gr i j :
  well_formed gr = true ->
  cell (reset_updated gr) i j = set_updated false (cell gr i j).
Proof.
  intros Hwf. unfold reset_updated.
  rewrite (for_each_x_major _ _ (fun x y gr => update gr x y (set_updated false))).
  rewrite sweep_update_cell by (done || by intros []).
  destruct (IsValidPosition i j) eqn:Hv.
  - rewrite bool_decide_eq_true_2; [done|]. by apply elem_of_storage_order.
  - rewrite andb_false_r. by rewrite cell_invalid.
Qed.

#[local] Hint Resolve wf_reset_updated : grid.

Lemma UpdateParticles_sweep st :
  UpdateParticles st = sweep scan_order UpdateParticle (reset_updated (fst st), snd st).
Proof.
  unfold UpdateParticles.
  by rewrite (for_each_y_major _ _ UpdateParticle).
Qed.

(** *** A lone Sand particle over whole ticks *)

Lemma lone_sand_spec gr sx sy :
  lone_sand gr sx sy = true <->
  well_formed gr = true /\ IsValidPosition sx sy = true /\
  type (cell gr sx sy) = SAND /\ lifetime (cell gr sx sy) <= 0 /\
  background gr sx sy.
Proof.
  unfold lone_sand, background, is_type.
  rewrite !andb_true_iff, bool_decide_eq_true, Z.leb_le, forallb_forall.
  split.
  - intros ((((? & ?) & ?) & ?) & Hall). repeat split; try done.
    intros i j Hij. destruct (IsValidPosition i j) eqn:Hv.
    + specialize (Hall (i, j)). cbn beta iota in Hall.
      rewrite bool_decide_eq_false_2 in Hall by lia. apply Hall.
      apply list_elem_of_In. by apply elem_of_storage_order.
    + by rewrite cell_invalid.
  - intros (? & ? & ? & ? & Hbg). repeat split; try done.
    intros [i j] _. case_bool_decide as Hd; [done|]. apply Hbg. lia.
Qed.

Lemma clear_below_spec gr sx sy n :
  clear_below gr sx sy n = true <->
  sy + n < GRID_HEIGHT /\
  forall k, 1 <= k <= n -> type (cell gr sx (sy + k)) = EMPTY.
Proof.
  unfold clear_below, is_type.
  rewrite andb_true_iff, Z.ltb_lt, forallb_forall.
  split; intros [? Hall]; (split; [done|]).
  - intros k Hk. specialize (Hall k). rewrite bool_decide_eq_true in Hall.
    apply Hall. apply list_elem_of_In, elem_of_upto. lia.
  - intros k Hk. apply bool_decide_eq_true. apply Hall.
    apply list_elem_of_In, elem_of_upto in Hk. lia.
Qed.

(** One tick moves the particle one row down, unchanged but for its
    processed flag, and changes no other kind except, possibly, to Empty. *)
Lemma lone_sand_tick gr rs sx sy n :
  lone_sand gr sx sy = true -> 1 <= n -> clear_below gr sx sy n = true ->
  lone_sand (fst (UpdateParticles (gr, rs))) sx (sy + 1) = true /\
  clear_below (fst (UpdateParticles (gr, rs))) sx (sy + 1) (n - 1) = true /\
  snd (UpdateParticles (gr, rs)) = rs /\
  type (cell (fst (UpdateParticles (gr, rs))) sx sy) = EMPTY /\
  cell (fst (UpdateParticles (gr, rs))) sx (sy + 1) = set_updated true (cell gr sx sy).
Proof.
  intros (Hwf & Hv & Hs & Hl & Hbg)%lone_sand_spec Hn [Hh Hclear]%clear_below_spec.
  rewrite UpdateParticles_sweep. cbn [fst snd].
  assert (Hv1 : IsValidPosition sx (sy + 1) = true).
  { apply valid_spec in Hv. apply valid_spec. lia. }
  pose proof (wf_reset_updated gr Hwf) as Hwf0.
  assert (Hc0 : forall i j, cell (reset_updated gr) i j = set_updated false (cell gr i j)).
  { intros. by apply cell_reset_updated. }
  pose proof (proj2 (elem_of_scan_order sx sy) Hv) as Hin.
  generalize dependent (reset_updated gr). intros g0 Hwf0 Hc0.
  generalize dependent scan_order. intros ps Hin.
  destruct (sweep_pending ps g0 g0 rs sx sy)
    as [(Hwf' & _ & Hs' & _ & Hl' & He' & Hbg' & Hk' & Hid') Hrs]; [|exact Hin|].
  { unfold pending. rewrite !Hc0. cbn [type updated lifetime set_updated].
    split; [exact Hwf0|]. split; [exact Hv|]. split; [exact Hv1|].
    split; [exact Hs|]. split; [reflexivity|]. split; [exact Hl|].
    split; [apply Hclear; lia|]. split; [|split; [|reflexivity]].
    - intros i j Hij. rewrite Hc0. by apply Hbg.
    - by intros i j Hij H0. }
  generalize dependent (sweep ps UpdateParticle (g0, rs)). intros [g1 rs1].
  cbn [fst snd]. intros Hwf' Hs' Hl' He' Hbg' Hk' Hid' ->.
  split; [|split; [|split; [reflexivity|split; [exact He'|]]]].
  - apply lone_sand_spec. by repeat split.
  - apply clear_below_spec. split; [lia|].
    intros k Hk. replace (sy + 1 + k) with (sy + (k + 1)) by lia.
    apply Hk'; [lia|]. rewrite Hc0.
    cbn [type set_updated]. apply Hclear. lia.
  - rewrite Hid', Hc0. by destruct (cell gr sx sy).
Qed.

Lemma ticks_S k st : ticks (S k) st = UpdateParticles (ticks k st).
Proof. exact eq_refl. Qed.

Lemma lone_sand_ticks k gr rs sx sy n :
  lone_sand gr sx sy = true -> clear_below gr sx sy n = true -> Z.of_nat k <= n ->
  lone_sand (fst (ticks k (gr, rs))) sx (sy + Z.of_nat k) = true /\
  clear_below (fst (ticks k (gr, rs))) sx (sy + Z.of_nat k) (n - Z.of_nat k) = true /\
  snd (ticks k (gr, rs)) = rs.
Proof.
  intros Hs Hc. induction k as [|k IH]; intros Hk.
  { change (ticks 0 (gr, rs)) with (gr, rs). cbn [fst snd].
    change (Z.of_nat 0) with 0. rewrite Z.add_0_r, Z.sub_0_r.
    split; [exact Hs|]. split; [exact Hc|reflexivity]. }
  destruct IH as (Hs' & Hc' & Hrs); [lia|].
  rewrite ticks_S, Nat2Z.inj_succ.
  destruct (ticks k (gr, rs)) as [gr' rs']. cbn [fst snd] in Hs', Hc', Hrs. subst rs'.
  destruct (lone_sand_tick gr' rs sx (sy + Z.of_nat k) (n - Z.of_nat k))
    as (H1 & H2 & H3 & _); [exact Hs'|lia|exact Hc'|].
  replace (sy + Z.succ (Z.of_nat k)) with (sy + Z.of_nat k + 1) by lia.
  replace (n - Z.succ (Z.of_nat k)) with (n - Z.of_nat k - 1) by lia.
  split; [exact H1|]. split; [exact H2|exact H3].
Qed.

(** *** Labels and flags through the cell update *)

#[local] Instance same_label_refl : Reflexive same_label.
Proof. by intros p. Qed.
#[local] Instance same_label_trans : Transitive same_label.
Proof. intros p q s [? ?] [? ?]. split; congruence. Qed.

Lemma same_label_kind_only p q : kind_only p q -> same_label p q.
Proof. unfold kind_only. intros ->. by destruct p. Qed.
Lemma same_label_kind_color_only p q : kind_color_only p q -> same_label p q.
Proof. unfold kind_color_only. intros ->. by destruct p. Qed.
Lemma same_label_temperature_only p q : temperature_only p q -> same_label p q.
Proof. unfold temperature_only. intros ->. by destruct p. Qed.

Lemma transpose_valid x y tx ty i j :
  IsValidPosition x y = true -> IsValidPosition tx ty = true ->
  IsValidPosition i j = true ->
  IsValidPosition (transpose x y tx ty i j).1 (transpose x y tx ty i j).2 = true.
Proof. intros. unfold transpose. by repeat case_bool_decide. Qed.

Lemma transpose_involutive x y tx ty i j :
  transpose x y tx ty (transpose x y tx ty i j).1 (transpose x y tx ty i j).2 = (i, j).
Proof.
  unfold transpose.
  repeat (case_bool_decide; cbn [fst snd]); destruct_and?; subst; try done; try tauto.
Qed.

Lemma transpose_id x y i j : transpose x y x y i j = (i, j).
Proof. unfold transpose. case_bool_decide as H; [by destruct H as [-> ->]|done]. Qed.

(** The stages after the lifetime check exchange at most the visited cell
    with one other cell; labels and flags travel with the exchange and are
    otherwise untouched. *)
Lemma pipeline_labels x y gr rs :
  well_formed gr = true -> IsValidPosition x y = true ->
  exists tx ty,
    IsValidPosition tx ty = true /\
    well_formed (fst (pipeline x y (gr, rs))) = true /\
    forall i j,
      same_label (cell gr (transpose x y tx ty i j).1 (transpose x y tx ty i j).2)
                 (cell (fst (pipeline x y (gr, rs))) i j).
Proof.
  intros Hwf Hv. unfold pipeline.
  assert (Hrest : forall g2 rs2, well_formed g2 = true ->
    related same_label g2
      (ProcessChemicalReactions x y
         (fst (HandleParticleInteractions x y (UpdateTemperature x y g2, rs2))))).
  { intros g2 rs2 Hwf2.
    eapply related_trans; [apply _| |].
    { eapply related_impl; [apply same_label_temperature_only|].
      by apply temperature_stage_only. }
    eapply related_trans; [apply _| |].
    { eapply related_impl; [apply same_label_kind_only|].
      apply interactions_kind_only. auto with grid. }
    eapply related_impl; [apply same_label_kind_color_only|].
    apply reactions_kind_color_only.
    eapply related_wf. apply interactions_kind_only. auto with grid. }
  destruct (physics_cases x y gr rs Hv) as [Heq|(tx & ty & Hvt & Hne & He & Hm & Heq)].
  - exists x, y. split; [done|].
    destruct (UpdatePhysics x y (gr, rs)) as [g2 rs2]. cbn [fst snd] in *. subst g2.
    destruct (Hrest gr rs2 Hwf) as [Hwf' Hrel]. split; [done|].
    intros i j. rewrite transpose_id. apply Hrel.
  - exists tx, ty. split; [done|].
    destruct (UpdatePhysics x y (gr, rs)) as [g2 rs2]. cbn [fst snd] in *. subst g2.
    destruct (Hrest (reset_velocity (swap gr x y tx ty) x y) rs2) as [Hwf' Hrel];
      [auto with grid|].
    split; [done|]. intros i j.
    etrans; [|apply Hrel].
    rewrite cell_reset_velocity by auto with grid.
    rewrite Hv, andb_true_r. rewrite !cell_swap by done.
    unfold transpose.
    rewrite (bool_decide_eq_false_2 (x = tx /\ y = ty)) by lia.
    rewrite (bool_decide_eq_true_2 (x = x /\ y = y)) by done.
    destruct (decide (i = x /\ j = y)) as [[-> ->]|Hd].
    + rewrite (bool_decide_eq_true_2 (x = x /\ y = y)) by done.
      rewrite (bool_decide_eq_false_2 (x = tx /\ y = ty)) by lia. done.
    + rewrite (bool_decide_eq_false_2 (i = x /\ j = y)) by done.
      by case_bool_decide.
Qed.

Lemma UpdateParticle_labels x y gr rs :
  well_formed gr = true -> enters x y gr = true ->
  exists tx ty,
    IsValidPosition tx ty = true /\
    well_formed (fst (UpdateParticle x y (gr, rs))) = true /\
    forall i j,
      same_label
        (cell (update gr x y (set_updated true))
              (transpose x y tx ty i j).1 (transpose x y tx ty i j).2)
        (cell (fst (UpdateParticle x y (gr, rs))) i j).
Proof.
  intros Hwf He. unfold enters in He.
  apply andb_true_iff in He as [Hv Hu]. apply negb_true_iff in Hu.
  unfold UpdateParticle. rewrite Hv, Hu. cbn [negb orb].
  set (g1 := update gr x y (set_updated true)).
  assert (Hwf1 : well_formed g1 = true) by (subst g1; auto with grid).
  assert (Hupd : forall g f, well_formed g = true ->
    (forall p, same_label p (f p)) -> related same_label g (update g x y f)).
  { intros. apply related_update; auto. apply _. }
  destruct (0 <? lifetime (cell g1 x y)).
  2: { destruct (pipeline_labels x y g1 rs Hwf1 Hv) as (tx & ty & ? & ? & ?).
       by exists tx, ty. }
  set (g2 := update g1 x y _).
  assert (H12 : related same_label g1 g2).
  { subst g2. apply Hupd; [done|]. by intros []. }
  destruct (lifetime (cell g2 x y) <=? 0).
  - exists x, y. split; [done|]. cbn [fst].
    assert (H13 : related same_label g1 (update g2 x y (set_type EMPTY))).
    { eapply related_trans; [apply _|done|]. apply Hupd; [by eapply related_wf|].
      by intros []. }
    split; [by eapply related_wf|]. intros i j. rewrite transpose_id. apply H13.
  - destruct (pipeline_labels x y g2 rs (related_wf _ _ _ H12) Hv) as (tx & ty & ? & ? & Hl).
    exists tx, ty. split; [done|]. split; [done|].
    intros i j. etrans; [|apply Hl]. apply H12.
Qed.

(** *** No occupant enters the cell update twice in a sweep *)

Lemma entered_step x y gr rs E :
  well_formed gr = true -> distinct_labels gr -> flagged_in gr E ->
  enters x y gr = true ->
  (ghost_id (cell gr x y) ∉ E) /\
  well_formed (fst (UpdateParticle x y (gr, rs))) = true /\
  distinct_labels (fst (UpdateParticle x y (gr, rs))) /\
  flagged_in (fst (UpdateParticle x y (gr, rs))) (E ++ [ghost_id (cell gr x y)]).
Proof.
  intros Hwf Hd Hf He.
  destruct (UpdateParticle_labels x y gr rs Hwf He) as (tx & ty & Hvt & Hwf' & Hl).
  unfold enters in He. apply andb_true_iff in He as [Hv Hu]. apply negb_true_iff in Hu.
  set (g1 := update gr x y (set_updated true)) in *.
  assert (Hid1 : forall i j, ghost_id (cell g1 i j) = ghost_id (cell gr i j)).
  { intros i j. subst g1. rewrite cell_update by done.
    destruct (_ && _) eqn:E1; [|done].
    apply andb_true_iff in E1 as [E1 _]. by apply bool_decide_eq_true in E1 as [-> ->]. }
  assert (Hup1 : forall i j, updated (cell gr i j) = true -> updated (cell g1 i j) = true).
  { intros i j H. subst g1. rewrite cell_update by done. by destruct (_ && _). }
  assert (Hxy1 : updated (cell g1 x y) = true).
  { subst g1. by rewrite cell_update_eq. }
  set (T := transpose x y tx ty) in *.
  assert (HT : forall i j, IsValidPosition i j = true ->
                 IsValidPosition (T i j).1 (T i j).2 = true).
  { intros. by apply transpose_valid. }
  assert (Hback : forall i j, same_label (cell g1 i j)
            (cell (fst (UpdateParticle x y (gr, rs))) (T i j).1 (T i j).2)).
  { intros i j. specialize (Hl (T i j).1 (T i j).2).
    subst T. by rewrite transpose_involutive in Hl. }
  split; [|split; [done|split]].
  - intros Hin. destruct (Hf _ Hin) as (i & j & Hvij & Hid & Hupd).
    destruct (Hd i j x y Hvij Hv Hid) as [-> ->]. congruence.
  - intros i j i' j' Hvij Hvij' Hid.
    destruct (Hl i j) as [Ha _]. destruct (Hl i' j') as [Hb _].
    rewrite Ha, Hb, !Hid1 in Hid.
    apply Hd in Hid; [|by apply HT..].
    destruct Hid as [H1 H2].
    assert (HTT : T (T i j).1 (T i j).2 = T (T i' j').1 (T i' j').2) by by rewrite H1, H2.
    subst T. rewrite !transpose_involutive in HTT. by inversion HTT.
  - intros t Hin. apply elem_of_app in Hin as [Hin|Hin].
    + destruct (Hf _ Hin) as (i & j & Hvij & Hid & Hupd).
      exists (T i j).1, (T i j).2. split; [by apply HT|].
      destruct (Hback i j) as [-> ->]. split; [by rewrite Hid1|by apply Hup1].
    + apply list_elem_of_singleton in Hin as ->.
      exists (T x y).1, (T x y).2. split; [by apply HT|].
      destruct (Hback x y) as [-> ->]. by rewrite Hid1.
Qed.

Lemma enters_false x y gr :
  enters x y gr = false -> IsValidPosition x y = false \/ updated (cell gr x y) = true.
Proof.
  unfold enters. intros H. apply andb_false_iff in H as [H|H]; [by left|right].
  by apply negb_false_iff in H.
Qed.

Lemma entered_NoDup_from ps gr rs E :
  well_formed gr = true -> distinct_labels gr -> flagged_in gr E -> NoDup E ->
  NoDup (E ++ entered ps (gr, rs)).
Proof.
  revert gr rs E. induction ps as [|[x y] ps IH]; intros gr rs E Hwf Hd Hf HE.
  { by rewrite app_nil_r. }
  cbn [entered fst]. destruct (enters x y gr) eqn:He.
  - destruct (entered_step x y gr rs E Hwf Hd Hf He) as (Hnew & Hwf' & Hd' & Hf').
    destruct (UpdateParticle x y (gr, rs)) as [gr' rs']. cbn [fst] in *.
    rewrite app_assoc. apply IH; try done.
    apply NoDup_app. split; [done|]. split; [|apply NoDup_singleton].
    intros t Ht Ht'. apply list_elem_of_singleton in Ht'. by subst.
  - rewrite UpdateParticle_skip by by apply enters_false.
    cbn [app]. by apply IH.
Qed.

Lemma NoDup_y_major ys xs : NoDup ys -> NoDup xs -> NoDup (y_major ys xs).
Proof.
  intros Hys Hxs. induction Hys as [|y ys Hy Hys IH]; [constructor|].
  unfold y_major. cbn [flat_map]. apply NoDup_app. split; [|split; [|done]].
  - apply NoDup_fmap_2_strong; [|exact Hxs]. by intros ? ? _ _ [= ->].
  - intros [a b] Hin Hin'.
    apply list_elem_of_fmap in Hin as (x' & [= -> ->] & _).
    apply (elem_of_y_major ys xs) in Hin' as [_ ?]. done.
Qed.

Lemma NoDup_scan_order : NoDup scan_order.
Proof.
  apply NoDup_y_major.
  - unfold downto. rewrite reverse_Permutation. apply NoDup_seqZ.
  - apply NoDup_seqZ.
Qed.

Lemma distinct_labels_reset gr :
  well_formed gr = true -> distinct_labels gr -> distinct_labels (reset_updated gr).
Proof.
  intros Hwf Hd i j i' j' Hv Hv'. rewrite !cell_reset_updated by done.
  cbn [ghost_id set_updated]. by apply Hd.
Qed.

Lemma labelled_distinct gr : labelled gr = true -> distinct_labels gr.
Proof.
  unfold labelled. rewrite forallb_forall. intros Hall i j i' j' Hv Hv' Hid.
  pose proof (Hall (i, j)) as H1. pose proof (Hall (i', j')) as H2.
  cbn beta iota in H1, H2.
  rewrite Z.eqb_eq in H1, H2.
  rewrite H1, H2 in Hid; try (apply list_elem_of_In; by apply elem_of_storage_order).
  apply valid_spec in Hv, Hv'.
  assert (i = i') as ->.
  { destruct (Z.lt_trichotomy i i') as [Hlt|[Heq|Hgt]]; [|done|].
    - assert ((i + 1) * GRID_HEIGHT <= i' * GRID_HEIGHT) by nia. lia.
    - assert ((i' + 1) * GRID_HEIGHT <= i * GRID_HEIGHT) by nia. lia. }
  lia.
Qed.

(** *** A processed cell among inert cells *)

Lemma settled_step p gr rs sx sy x y :
  settled p gr sx sy ->
  settled p (fst (UpdateParticle x y (gr, rs))) sx sy /\
  snd (UpdateParticle x y (gr, rs)) = rs.
Proof.
  intros (Hwf & Hv & Hc & Hu & Hbg).
  destruct (decide (x = sx /\ y = sy)) as [[-> ->]|Hne].
  { rewrite UpdateParticle_skip by (right; by rewrite Hc). done. }
  assert (Hne' : x <> sx \/ y <> sy) by lia.
  destruct (UpdateParticle_inert x y gr rs Hwf (Hbg x y Hne')) as (Hrs & Hwf' & Ho & Ht).
  split; [|done]. repeat split; try done.
  - rewrite Ho; [done|lia].
  - intros i j Hij. destruct (decide (i = x /\ j = y)) as [[-> ->]|Hd].
    + eapply inert_EMPTY_or; [by apply Hbg|done].
    + rewrite Ho; [by apply Hbg|lia].
Qed.

Lemma sweep_settled ps p gr rs sx sy :
  settled p gr sx sy ->
  settled p (fst (sweep ps UpdateParticle (gr, rs))) sx sy /\
  snd (sweep ps UpdateParticle (gr, rs)) = rs.
Proof.
  revert gr. induction ps as [|[x y] ps IH]; intros gr HS; [done|].
  cbn [sweep fold_left].
  destruct (settled_step p gr rs sx sy x y HS) as [HS' Hrs].
  destruct (UpdateParticle x y (gr, rs)) as [gr' rs']. cbn [fst snd] in *. subst rs'.
  by apply IH.
Qed.

Lemma settledb_spec gr sx sy :
  settledb gr sx sy = true -> settled (cell gr sx sy) gr sx sy.
Proof.
  unfold settledb, settled, background.
  rewrite !andb_true_iff, forallb_forall.
  intros (((? & ?) & ?) & Hall). repeat split; try done.
  intros i j Hij. destruct (IsValidPosition i j) eqn:Hv.
  - specialize (Hall (i, j)). cbn beta iota in Hall.
    rewrite bool_decide_eq_false_2 in Hall by lia. apply Hall.
    apply list_elem_of_In. by apply elem_of_storage_order.
  - by rewrite cell_invalid.
Qed.

(** *** Equality of grids *)

Lemma grid_ext gr gr' :
  well_formed gr = true -> well_formed gr' = true ->
  (forall i j, IsValidPosition i j = true -> cell gr i j = cell gr' i j) ->
  gr = gr'.
Proof.
  intros [Hw Hh]%wf_spec [Hw' Hh']%wf_spec Hc.
  rewrite Forall_forall in Hh, Hh'.
  apply list_eq_same_length with (length gr); [lia|done|].
  intros x col col' Hx Hcol Hcol'.
  assert (Hl : Z.of_nat (length col) = GRID_HEIGHT)
    by (apply Hh; by eapply list_elem_of_lookup_2).
  assert (Hl' : Z.of_nat (length col') = GRID_HEIGHT)
    by (apply Hh'; by eapply list_elem_of_lookup_2).
  apply list_eq_same_length with (length col); [lia|done|].
  intros y p p' Hy Hp Hp'.
  specialize (Hc (Z.of_nat x) (Z.of_nat y)).
  unfold cell in Hc. rewrite !Nat2Z.id, Hcol, Hcol', Hp, Hp' in Hc.
  assert (Hv : IsValidPosition (Z.of_nat x) (Z.of_nat y) = true) by (apply valid_spec; lia).
  rewrite Hv in Hc. by apply Hc.
Qed.

Lemma reset_updated_id gr :
  well_formed gr = true ->
  forallb (fun '(i, j) => negb (updated (cell gr i j))) storage_order = true ->
  reset_updated gr = gr.
Proof.
  intros Hwf Hall. rewrite forallb_forall in Hall.
  apply grid_ext; auto with grid.
  intros i j Hv. rewrite cell_reset_updated by done.
  specialize (Hall (i, j)). cbn beta iota in Hall.
  rewrite negb_true_iff in Hall.
  assert (Hu : updated (cell gr i j) = false).
  { apply Hall. apply list_elem_of_In. by apply elem_of_storage_order. }
  clear Hall. destruct (cell gr i j) as [? ? u ? ? ? ? ?].
  cbn [updated] in Hu. by subst u.
Qed.

(** *** The brush *)

(** For the brush sizes of the program, the floating-point test of the
    brush agrees with the comparison of the squared distances. *)
Lemma within_radius_table :
  forallb (fun b =>
    forallb (fun n => Bool.eqb (within_radius n b) (n <=? b * b))
            (seqZ 0 (2 * b * b + 1)))
    brush_sizes = true.
Proof. vm_compute. reflexivity. Qed.

Lemma within_brush_exact dx dy b :
  0 <= b <= 20 -> - b <= dx <= b -> - b <= dy <= b ->
  within_brush dx dy b = (dx * dx + dy * dy <=? b * b).
Proof.
  intros Hb Hdx Hdy.
  pose proof within_radius_table as H. rewrite forallb_forall in H.
  specialize (H b). rewrite forallb_forall in H.
  apply eqb_prop. apply (H ltac:(apply list_elem_of_In, elem_of_seqZ; lia)).
  apply list_elem_of_In, elem_of_seqZ. nia.
Qed.

Lemma place_idem t p : place t (place t p) = place t p.
Proof. by destruct p. Qed.

Lemma PlaceParticles_sweep b x y t gr :
  IsValidPosition x y = true ->
  PlaceParticles b x y t gr =
  sweep (x_major (upto (- b) (b + 1)) (upto (- b) (b + 1))) (stamp b x y t) gr.
Proof.
  intros Hv. unfold PlaceParticles. rewrite Hv. cbn [negb].
  exact (for_each_x_major _ _ (stamp b x y t) gr).
Qed.

Lemma sweep_stamp ps b x y t gr i j :
  well_formed gr = true ->
  well_formed (sweep ps (stamp b x y t) gr) = true /\
  cell (sweep ps (stamp b x y t) gr) i j =
  if bool_decide ((i - x, j - y) ∈ ps) && IsValidPosition i j
     && within_brush (i - x) (j - y) b
  then place t (cell gr i j) else cell gr i j.
Proof.
  revert gr. induction ps as [|[dx dy] ps IH]; intros gr Hwf; [done|].
  cbn [sweep fold_left]. fold (sweep ps (stamp b x y t) (stamp b x y t dx dy gr)).
  assert (Hwf1 : well_formed (stamp b x y t dx dy gr) = true).
  { unfold stamp. destruct (IsValidPosition (x + dx) (y + dy)); [|done].
    destruct (within_brush dx dy b); auto with grid. }
  destruct (IH _ Hwf1) as [Hwf' ->]. split; [done|].
  assert (Hc1 : cell (stamp b x y t dx dy gr) i j =
    if bool_decide (i - x = dx /\ j - y = dy) && IsValidPosition i j
       && within_brush (i - x) (j - y) b
    then place t (cell gr i j) else cell gr i j).
  { unfold stamp. destruct (decide (i - x = dx /\ j - y = dy)) as [Hd|Hd];
      [rewrite (bool_decide_eq_true_2 _ Hd)|rewrite (bool_decide_eq_false_2 _ Hd)].
    - destruct Hd as [<- <-]. replace (x + (i - x)) with i by lia.
      replace (y + (j - y)) with j by lia. cbn [andb].
      destruct (IsValidPosition i j) eqn:Hv; [|done]. cbn [andb].
      destruct (within_brush (i - x) (j - y) b); [|done]. by rewrite cell_update_eq.
    - cbn [andb]. destruct (IsValidPosition (x + dx) (y + dy)); [|done].
      destruct (within_brush dx dy b); [|done].
      rewrite cell_update_ne; [done|]. lia. }
  rewrite Hc1.
  destruct (IsValidPosition i j); [|by rewrite !andb_false_r].
  destruct (within_brush (i - x) (j - y) b); [|by rewrite !andb_false_r].
  rewrite !andb_true_r.
  destruct (decide (i - x = dx /\ j - y = dy)) as [Hd|Hd];
    [rewrite (bool_decide_eq_true_2 _ Hd)|rewrite (bool_decide_eq_false_2 _ Hd)].
  - destruct Hd as [<- <-]. rewrite (bool_decide_eq_true_2 (_ ∈ _ :: ps)) by left.
    destruct (bool_decide _); [|done]. by rewrite place_idem.
  - destruct (decide ((i - x, j - y) ∈ ps)) as [Hin|Hin].
    + by rewrite !bool_decide_eq_true_2 by (done || by right).
    + rewrite !bool_decide_eq_false_2; [done| |done].
      intros [[= ? ?]|?]%elem_of_cons; [lia|done].
Qed.

Lemma in_disc_bounds x y b i j :
  0 <= b -> in_disc x y b i j = true -> - b <= i - x <= b /\ - b <= j - y <= b.
Proof.
  unfold in_disc. rewrite Z.leb_le. intros Hb H.
  assert (Hsq : forall d e, d * d + e * e <= b * b -> - b <= d <= b).
  { intros d e Hde. pose proof (Z.square_nonneg e).
    destruct (Z_lt_le_dec b d); [nia|]. destruct (Z_lt_le_dec d (- b)); [nia|lia]. }
  split; [by eapply Hsq|]. eapply Hsq. by rewrite Z.add_comm.
Qed.

Lemma cell_PlaceParticles b x y t gr i j :
  well_formed gr = true -> 0 <= b <= 20 -> IsValidPosition x y = true ->
  cell (PlaceParticles b x y t gr) i j =
  if IsValidPosition i j && in_disc x y b i j then place t (cell gr i j)
  else cell gr i j.
Proof.
  intros Hwf Hb Hv. rewrite PlaceParticles_sweep by done.
  destruct (sweep_stamp (x_major (upto (- b) (b + 1)) (upto (- b) (b + 1)))
              b x y t gr i j Hwf) as [_ ->].
  destruct (IsValidPosition i j); [|by rewrite andb_false_r]. cbn [andb].
  rewrite andb_true_r.
  destruct (decide (- b <= i - x <= b /\ - b <= j - y <= b)) as [Hin|Hout].
  - rewrite bool_decide_eq_true_2
      by (apply elem_of_x_major; rewrite !elem_of_upto; lia).
    cbn [andb]. rewrite within_brush_exact by lia. done.
  - rewrite bool_decide_eq_false_2
      by (rewrite elem_of_x_major, !elem_of_upto; lia).
    cbn [andb]. destruct (in_disc x y b i j) eqn:E; [|done].
    apply in_disc_bounds in E; [tauto|lia].
Qed.

Lemma wf_PlaceParticles b x y t gr :
  well_formed gr = true -> well_formed (PlaceParticles b x y t gr) = true.
Proof.
  intros Hwf. destruct (IsValidPosition x y) eqn:Hv.
  - rewrite PlaceParticles_sweep by done. by apply sweep_stamp.
  - unfold PlaceParticles. by rewrite Hv.
Qed.

(** *** Persistence *)

Lemma sweep_fwrite filename gr ps fs recs :
  files fs !! filename = Some recs ->
  files (sweep ps (fun x y fs => fwrite filename (cell gr x y) fs) fs) !! filename =
    Some (recs ++ map (fun '(x, y) => cell gr x y) ps) /\
  can_open (sweep ps (fun x y fs => fwrite filename (cell gr x y) fs) fs) = can_open fs /\
  forall other, other <> filename ->
    files (sweep ps (fun x y fs => fwrite filename (cell gr x y) fs) fs) !! other =
    files fs !! other.
Proof.
  revert fs recs. induction ps as [|[x y] ps IH]; intros fs recs Hf.
  { cbn [sweep fold_left map]. by rewrite app_nil_r. }
  cbn [sweep fold_left map].
  fold (sweep ps (fun x y fs => fwrite filename (cell gr x y) fs)
              (fwrite filename (cell gr x y) fs)).
  destruct (IH (fwrite filename (cell gr x y) fs) (recs ++ [cell gr x y])) as (H1 & H2 & H3).
  { unfold fwrite. cbn [files]. by rewrite lookup_alter_eq, Hf. }
  rewrite H1, H2. split; [by rewrite <- app_assoc|]. split; [done|].
  intros other Hne. rewrite H3 by done. unfold fwrite. cbn [files].
  by rewrite lookup_alter_ne.
Qed.

(** What [SaveToFile] leaves on the host when the file can be opened:
    the file holds the cells of the grid in storage order, and no other
    file is touched. *)
Lemma SaveToFile_opened filename gr fs :
  can_open fs filename = true ->
  files (SaveToFile filename gr fs) !! filename =
    Some (map (fun '(x, y) => cell gr x y) storage_order) /\
  can_open (SaveToFile filename gr fs) = can_open fs /\
  forall other, other <> filename ->
    files (SaveToFile filename gr fs) !! other = files fs !! other.
Proof.
  intros Hopen. unfold SaveToFile, fopen_wb. rewrite Hopen.
  rewrite (for_each_x_major _ _ (fun x y fs => fwrite filename (cell gr x y) fs)).
  fold storage_order.
  destruct (sweep_fwrite filename gr storage_order
              (mkFS (can_open fs) (<[filename:=[]]> (files fs))) [])
    as (H1 & H2 & H3).
  { cbn [files]. by rewrite lookup_insert_eq. }
  split; [exact H1|]. split; [exact H2|].
  intros other Hne. rewrite H3 by done. cbn [files]. by rewrite lookup_insert_ne.
Qed.

Lemma sweep_fread gr ps gr' rest :
  well_formed gr' = true ->
  snd (sweep ps fread (gr', map (fun '(x, y) => cell gr x y) ps ++ rest)) = rest /\
  well_formed (fst (sweep ps fread (gr', map (fun '(x, y) => cell gr x y) ps ++ rest))) = true /\
  forall i j,
    cell (fst (sweep ps fread (gr', map (fun '(x, y) => cell gr x y) ps ++ rest))) i j =
    if bool_decide ((i, j) ∈ ps) && IsValidPosition i j then cell gr i j
    else cell gr' i j.
Proof.
  revert gr'. induction ps as [|[x y] ps IH]; intros gr' Hwf.
  { cbn [sweep fold_left map app fst snd]. done. }
  cbn [sweep fold_left map app].
  unfold fread at 2. cbn [fst snd].
  fold (sweep ps fread (set_cell gr' x y (cell gr x y),
                        map (fun '(x, y) => cell gr x y) ps ++ rest)).
  destruct (IH (set_cell gr' x y (cell gr x y))) as (H1 & H2 & H3); [auto with grid|].
  split; [exact H1|]. split; [exact H2|].
  intros i j. rewrite H3. rewrite cell_set_cell by done.
  destruct (IsValidPosition i j) eqn:Hv; rewrite ?andb_true_r, ?andb_false_r.
  - destruct (decide (i = x /\ j = y)) as [[-> ->]|Hd].
    + rewrite (bool_decide_eq_true_2 (_ ∈ _ :: ps)) by left.
      rewrite (bool_decide_eq_true_2 (x = x /\ y = y)) by done. rewrite Hv.
      by destruct (bool_decide _).
    + rewrite (bool_decide_eq_false_2 (i = x /\ j = y)) by done. cbn [andb].
      destruct (decide ((i, j) ∈ ps)) as [Hin|Hin].
      * by rewrite !bool_decide_eq_true_2 by (done || by right).
      * rewrite !bool_decide_eq_false_2; [done| |done].
        intros [[= ? ?]|?]%elem_of_cons; [tauto|done].
  - rewrite !(cell_invalid _ i j) by done.
    destruct (bool_decide (i = x /\ j = y) && IsValidPosition x y) eqn:E; [|done].
    apply andb_true_iff in E as [E Hv']. apply bool_decide_eq_true in E as [-> ->].
    congruence.
Qed.

(** [LoadFromFile] on a file that holds one record per cell: every cell is
    overwritten by its record, in storage order. *)
Lemma LoadFromFile_complete filename gr gr' fs :
  well_formed gr' = true ->
  can_open fs filename = true ->
  files fs !! filename = Some (map (fun '(x, y) => cell gr x y) storage_order) ->
  well_formed (LoadFromFile filename gr' fs) = true /\
  forall i j, IsValidPosition i j = true ->
    cell (LoadFromFile filename gr' fs) i j = cell gr i j.
Proof.
  intros Hwf Hopen Hfile. unfold LoadFromFile, fopen_rb. rewrite Hopen, Hfile.
  rewrite (for_each_x_major _ _ fread). fold storage_order.
  pose proof (sweep_fread gr storage_order gr' [] Hwf) as (H1 & H2 & H3).
  rewrite app_nil_r in H1, H2, H3.
  split; [exact H2|]. intros i j Hv. rewrite H3, Hv, andb_true_r.
  rewrite bool_decide_eq_true_2; [done|]. by apply elem_of_storage_order.
Qed.


Lemma place_fresh t p : place t p = fresh t (ghost_id p).
Proof. by destruct p. Qed.

(** A Sand particle none of whose targets is free stays where it is; the
    movement stage only draws the direction. *)
Lemma physics_blocked x y gr rs :
  type (cell gr x y) = SAND -> sand_blocked gr x y = true ->
  UpdatePhysics x y (gr, rs) = (gr, snd (GetRandomValue 0 1 rs)).
Proof.
  intros Ht Hb. unfold sand_blocked in Hb.
  apply andb_true_iff in Hb as [[H1 H2]%andb_true_iff H3].
  apply negb_true_iff in H1, H2, H3.
  unfold UpdatePhysics. rewrite Ht. cbn [particleProps Props.movable negb].
  rewrite H1. unfold is_type at 1 2 3. rewrite Ht.
  rewrite !bool_decide_eq_false_2 by discriminate. cbn [orb].
  rewrite bool_decide_eq_true_2 by done.
  destruct (GetRandomValue 0 1 rs) as [v rs'] eqn:Hr. cbn [snd].
  f_equal. unfold try_sides.
  assert (Hv : v = 0 \/ v = 1).
  { unfold GetRandomValue in Hr. destruct rs as [|v0 rs0]; inversion Hr; [by left|].
    pose proof (Z.mod_pos_bound v0 (1 - 0 + 1) ltac:(lia)). lia. }
  destruct Hv as [-> | ->].
  - replace (x + (0 * 2 - 1)) with (x - 1) by lia.
    replace (x - (0 * 2 - 1)) with (x + 1) by lia.
    by rewrite H3, H2.
  - replace (x + (1 * 2 - 1)) with (x + 1) by lia.
    replace (x - (1 * 2 - 1)) with (x - 1) by lia.
    by rewrite H2, H3.
Qed.

(** The cell visited first in a tick, when it ends its update processed
    among inert cells, is not written again during that tick. *)
Lemma first_visited_settles gr rs x y :
  head scan_order = Some (x, y) ->
  well_formed gr = true ->
  forallb (fun '(i, j) => negb (updated (cell gr i j))) storage_order = true ->
  settledb (fst (UpdateParticle x y (gr, rs))) x y = true ->
  cell (fst (UpdateParticles (gr, rs))) x y = cell (fst (UpdateParticle x y (gr, rs))) x y.
Proof.
  intros Hhd Hwf Hfl Hs. rewrite UpdateParticles_sweep. cbn [fst snd].
  rewrite reset_updated_id by done.
  destruct scan_order as [|[x0 y0] ps]; [done|]. injection Hhd as -> ->.
  cbn [sweep fold_left]. fold (sweep ps UpdateParticle (UpdateParticle x y (gr, rs))).
  apply settledb_spec in Hs.
  destruct (UpdateParticle x y (gr, rs)) as [g1 rs1]. cbn [fst] in *.
  destruct (sweep_settled ps _ g1 rs1 x y Hs) as [(_ & _ & Hc & _) _]. exact Hc.
Qed.

(** ** The properties of the specification *)

(** C2, as amended: a Sand cell that is not yet processed, does not expire
    and cannot move, and whose temperature after the diffusion stage of its
    own update is above 1700, is Glass after that update; the update leaves
    it with the diffused temperature and changes no other cell, so no
    further reaction is applied. *)
Theorem resting_hot_sand_becomes_glass x y gr rs :
  well_formed gr = true -> IsValidPosition x y = true ->
  type (cell gr x y) = SAND -> updated (cell gr x y) = false ->
  lifetime (cell gr x y) <= 0 -> sand_blocked gr x y = true ->
  F32.gtb (new_temperature x y (update gr x y (set_updated true)))
          (F32.of_int 1700) = true ->
  type (cell (fst (UpdateParticle x y (gr, rs))) x y) = GLASS /\
  temperature (cell (fst (UpdateParticle x y (gr, rs))) x y) =
    new_temperature x y (update gr x y (set_updated true)) /\
  (forall i j, i <> x \/ j <> y ->
     cell (fst (UpdateParticle x y (gr, rs))) i j = cell gr i j).
Proof.
  intros Hwf Hv Ht Hu Hl Hb Hhot.
  unfold UpdateParticle. rewrite Hv, Hu. cbn [negb orb].
  set (g1 := update gr x y (set_updated true)) in *.
  assert (Hwf1 : well_formed g1 = true) by (subst g1; auto with grid).
  assert (Hc1 : cell g1 x y = set_updated true (cell gr x y)).
  { subst g1. by rewrite cell_update_eq. }
  assert (Ho1 : forall i j, i <> x \/ j <> y -> cell g1 i j = cell gr i j).
  { intros. subst g1. by rewrite cell_update_ne. }
  replace (0 <? lifetime (cell g1 x y)) with false
    by (symmetry; apply Z.ltb_ge; by rewrite Hc1).
  assert (Hb1 : sand_blocked g1 x y = true).
  { unfold sand_blocked in *. rewrite !Ho1 by lia. exact Hb. }
  unfold pipeline. rewrite physics_blocked; [|by rewrite Hc1|exact Hb1].
  cbn [fst snd].
  set (g2 := UpdateTemperature x y g1).
  assert (Hc2 : cell g2 x y = set_temperature (new_temperature x y g1) (cell g1 x y)).
  { subst g2. rewrite cell_UpdateTemperature by done.
    by rewrite Hv, andb_true_r, bool_decide_eq_true_2. }
  assert (Hi : HandleParticleInteractions x y (g2, snd (GetRandomValue 0 1 rs))
               = (g2, snd (GetRandomValue 0 1 rs))).
  { unfold HandleParticleInteractions. rewrite Hc2, Hc1. cbn [type set_temperature set_updated].
    by rewrite Ht. }
  rewrite Hi. cbn [fst snd].
  rewrite hot_sand_reaction.
  2: { rewrite Hc2, Hc1. exact Ht. }
  2: { rewrite Hc2. exact Hhot. }
  assert (Hwf2 : well_formed g2 = true) by (subst g2; auto with grid).
  rewrite cell_update_eq by done. rewrite Hc2.
  split; [done|]. split; [done|].
  intros i j Hij. rewrite cell_update_ne by done.
  subst g2. rewrite cell_UpdateTemperature by done.
  rewrite bool_decide_eq_false_2 by lia. by apply Ho1.
Qed.

(** C3: a lone Sand particle (every other cell holding an inert kind, as
    the Wall border and Empty do) with the [n] cells below it Empty is, for
    every [k <= n], exactly [k] rows lower after [k] ticks and nowhere
    else; after [n] ticks it sits in the lowest of these rows. *)
Theorem sand_falls_one_row_per_tick gr rs sx sy n k :
  lone_sand gr sx sy = true -> clear_below gr sx sy n = true ->
  0 <= k <= n ->
  type (cell (fst (ticks (Z.to_nat k) (gr, rs))) sx (sy + k)) = SAND /\
  (forall i j, type (cell (fst (ticks (Z.to_nat k) (gr, rs))) i j) = SAND ->
     i = sx /\ j = sy + k).
Proof.
  intros Hs Hc Hk.
  destruct (lone_sand_ticks (Z.to_nat k) gr rs sx sy n Hs Hc) as (Hs' & _ & _); [lia|].
  rewrite Z2Nat.id in Hs' by lia.
  apply lone_sand_spec in Hs' as (_ & _ & Ht & _ & Hbg).
  split; [exact Ht|].
  intros i j Hij.
  destruct (decide (i = sx /\ j = sy + k)) as [|Hne]; [done|].
  assert (Hin : inert (type (cell (fst (ticks (Z.to_nat k) (gr, rs))) i j)) = true)
    by (apply Hbg; lia).
  rewrite Hij in Hin. discriminate.
Qed.

(** X28: one tick first clears every processed flag (and nothing else),
    then runs the cell update once at every position of the grid, rows
    from the bottom up and columns from the left; during the tick no
    occupant gets past the guard of the cell update twice, wherever swaps
    carry it: the labels of the occupants found at the guard are pairwise
    distinct.  (The stages after a move are another matter, see C4.) *)
Theorem tick_processes_each_occupant_at_most_once gr rs :
  well_formed gr = true -> distinct_labels gr ->
  (forall i j, cell (reset_updated gr) i j = set_updated false (cell gr i j)) /\
  UpdateParticles (gr, rs) =
    sweep (y_major (downto (GRID_HEIGHT - 1) 0) (upto 0 GRID_WIDTH))
          UpdateParticle (reset_updated gr, rs) /\
  NoDup scan_order /\
  (forall x y, (x, y) ∈ scan_order <-> IsValidPosition x y = true) /\
  NoDup (entered scan_order (reset_updated gr, rs)).
Proof.
  intros Hwf Hd.
  split; [intros; by apply cell_reset_updated|].
  split; [apply (UpdateParticles_sweep (gr, rs))|].
  split; [apply NoDup_scan_order|].
  split; [apply elem_of_scan_order|].
  apply (entered_NoDup_from scan_order (reset_updated gr) rs []).
  - by apply wf_reset_updated.
  - by apply distinct_labels_reset.
  - intros t Hin. by apply elem_of_nil in Hin.
  - constructor.
Qed.

(** C6: saving a grid and loading the file into any grid of the same
    dimensions (a freshly initialised one among them) reproduces every
    cell; the file holds the cells in storage order, which is the order
    in which they are read back. *)
Theorem save_then_load_round_trip filename gr gr' fs :
  well_formed gr' = true -> can_open fs filename = true ->
  files (SaveToFile filename gr fs) !! filename =
    Some (map (fun '(x, y) => cell gr x y) storage_order) /\
  (forall i j, IsValidPosition i j = true ->
     cell (LoadFromFile filename gr' (SaveToFile filename gr fs)) i j = cell gr i j).
Proof.
  intros Hwf Hopen.
  destruct (SaveToFile_opened filename gr fs Hopen) as (H1 & H2 & _).
  split; [exact H1|].
  apply (LoadFromFile_complete filename gr gr' (SaveToFile filename gr fs)); [done| |done].
  by rewrite H2.
Qed.

(** C7: for a brush size that the input handling allows and a centre in
    the grid, [PlaceParticles] overwrites exactly the cells of the grid
    within Euclidean distance [brushSize] of the centre, each with a fresh
    particle of the chosen kind, and leaves every other cell as it was;
    with the centre outside the grid it leaves the grid as it was. *)
Theorem paint_stamps_a_disc brushSize x y t gr :
  well_formed gr = true -> 0 <= brushSize <= 20 ->
  (IsValidPosition x y = true ->
   forall i j,
     cell (PlaceParticles brushSize x y t gr) i j =
     if IsValidPosition i j && in_disc x y brushSize i j
     then fresh t (ghost_id (cell gr i j)) else cell gr i j) /\
  (IsValidPosition x y = false -> PlaceParticles brushSize x y t gr = gr).
Proof.
  intros Hwf Hb. split.
  - intros Hv i j. rewrite cell_PlaceParticles by done. by rewrite place_fresh.
  - intros Hv. unfold PlaceParticles. by rewrite Hv.
Qed.

(** C8, as amended: when the reaction pass runs on a Water cell, every
    Salt cell among its neighbours is Empty at the end of that pass, the
    colour of the Water cell is then the salt-water tint, and the Water
    cell is still Water; this holds for each Salt neighbour, however many
    there are. *)
Theorem water_dissolves_adjacent_salt x y gr dx dy :
  well_formed gr = true -> type (cell gr x y) = WATER ->
  (dx, dy) ∈ neighborhood -> type (cell gr (x + dx) (y + dy)) = SALT ->
  type (cell (ProcessChemicalReactions x y gr) (x + dx) (y + dy)) = EMPTY /\
  color (cell (ProcessChemicalReactions x y gr) x y) = SKYBLUE /\
  type (cell (ProcessChemicalReactions x y gr) x y) = WATER.
Proof.
  intros Hwf Hw Hin Hs. destruct (salt_reaction x y gr Hwf Hw) as (_ & H2 & H3).
  assert (Hv : IsValidPosition (x + dx) (y + dy) = true).
  { apply (type_valid gr). by rewrite Hs. }
  destruct (H3 dx dy Hin Hv Hs) as [He Hc].
  split; [exact He|]. split; [exact Hc|].
  destruct (H2 x y) as [->|[Hs' _]]; [done|congruence].
Qed.

(** C9: the interaction rules and the reaction rules write the kind of a
    cell and nothing else, apart from the colour of the visited Water cell
    in the salt reaction: every cell keeps its temperature, lifetime,
    velocity and processed flag, so Smoke and Fire made of another cell
    keep that cell's lifetime and temperature. *)
Theorem interactions_and_reactions_write_the_kind_only x y gr rs i j :
  well_formed gr = true ->
  (fields_kept (cell gr i j) (cell (fst (HandleParticleInteractions x y (gr, rs))) i j) /\
   color (cell (fst (HandleParticleInteractions x y (gr, rs))) i j) = color (cell gr i j)) /\
  (fields_kept (cell gr i j) (cell (ProcessChemicalReactions x y gr) i j) /\
   (color (cell (ProcessChemicalReactions x y gr) i j) = color (cell gr i j) \/
    (i = x /\ j = y /\ type (cell gr x y) = WATER /\
     color (cell (ProcessChemicalReactions x y gr) i j) = SKYBLUE))).
Proof.
  intros Hwf. split; split.
  - apply fields_kept_kind_only. by apply interactions_kind_only.
  - apply color_kind_only. by apply interactions_kind_only.
  - apply fields_kept_kind_color_only. by apply reactions_kind_color_only.
  - by apply reactions_color.
Qed.

(** C10: when [fopen] fails, [SaveToFile] leaves the host's files as they
    are and [LoadFromFile] leaves the grid as it is; neither has an error
    to report.  Opening for writing fails on a path that cannot be
    opened; opening for reading fails on such a path and also on a path
    at which no file exists. *)
Theorem unopenable_file_is_skipped filename gr fs :
  (can_open fs filename = false ->
   fopen_wb filename fs = None /\ fopen_rb filename fs = None) /\
  (files fs !! filename = None -> fopen_rb filename fs = None) /\
  (fopen_wb filename fs = None -> SaveToFile filename gr fs = fs) /\
  (fopen_rb filename fs = None -> LoadFromFile filename gr fs = gr).
Proof.
  unfold SaveToFile, LoadFromFile, fopen_wb, fopen_rb.
  split; [|split; [|split]].
  - intros Hopen. by rewrite Hopen.
  - intros Hnone. rewrite Hnone. by destruct (can_open fs filename).
  - intros Hnone. by rewrite Hnone.
  - intros Hnone. by rewrite Hnone.
Qed.

(** The stages of a cell update that gets past the guard and the lifetime
    check run on the grid that [reaches_pipeline] gives, and the reaction
    pass on the grid that [reaction_input] gives. *)
Lemma reaches_pipeline_spec x y gr rs :
  match reaches_pipeline x y gr with
  | Some g => UpdateParticle x y (gr, rs) = pipeline x y (g, rs)
  | None => snd (UpdateParticle x y (gr, rs)) = rs
  end.
Proof.
  unfold reaches_pipeline, UpdateParticle.
  destruct (negb (IsValidPosition x y) || updated (cell gr x y)); [done|].
  cbv zeta.
  destruct (0 <? lifetime (cell (update gr x y (set_updated true)) x y)); [|done].
  by destruct (lifetime (cell (update (update gr x y (set_updated true)) x y
                 (fun p => set_lifetime (lifetime p - 1) p)) x y) <=? 0).
Qed.

Lemma reaction_input_spec x y st :
  match reaction_input x y st with
  | Some g => fst (UpdateParticle x y st) = ProcessChemicalReactions x y g
  | None => True
  end.
Proof.
  destruct st as [gr rs]. unfold reaction_input. cbn [fst snd].
  pose proof (reaches_pipeline_spec x y gr rs) as H.
  destruct (reaches_pipeline x y gr) as [g0|]; [|exact I].
  rewrite H. unfold pipeline. cbn [fst snd]. reflexivity.
Qed.


(** ** Further properties of the code *)

(** *** Writes to one cell *)

Lemma update_twice gr x y f g :
  well_formed gr = true ->
  update (update gr x y f) x y g = update gr x y (fun p => g (f p)).
Proof.
  intros Hwf. apply grid_ext; auto with grid.
  intros i j Hv. rewrite !cell_update by auto with grid.
  destruct (bool_decide (i = x /\ j = y) && IsValidPosition x y) eqn:E; [|done].
  apply andb_true_iff in E as [_ Hxy].
  rewrite (bool_decide_eq_true_2 (x = x /\ y = y)) by done. by rewrite Hxy.
Qed.

Lemma sweep_writes ps (f : Z -> Z -> Grid -> Grid) (F : Z -> Z -> Particle -> Particle) gr i j :
  (forall x y g, well_formed g = true -> f x y g = update g x y (F x y)) ->
  (forall x y p, F x y (F x y p) = F x y p) ->
  well_formed gr = true ->
  well_formed (sweep ps f gr) = true /\
  cell (sweep ps f gr) i j =
  if bool_decide ((i, j) ∈ ps) && IsValidPosition i j then F i j (cell gr i j)
  else cell gr i j.
Proof.
  intros Hf HF. revert gr. induction ps as [|[x y] ps IH]; intros gr Hwf; [done|].
  cbn [sweep fold_left]. fold (sweep ps f (f x y gr)).
  rewrite Hf by done.
  destruct (IH (update gr x y (F x y))) as [IH1 IH2]; [auto with grid|].
  split; [done|]. rewrite IH2. rewrite cell_update by done.
  destruct (IsValidPosition i j) eqn:Hv; rewrite ?andb_false_r, ?andb_true_r.
  - destruct (decide (i = x /\ j = y)) as [[-> ->]|Hne].
    + rewrite (bool_decide_eq_true_2 (x = x /\ y = y)) by done.
      rewrite Hv. cbn [andb].
      rewrite (bool_decide_eq_true_2 ((x, y) ∈ (x, y) :: ps)) by left.
      by destruct (bool_decide _); rewrite ?HF.
    + rewrite (bool_decide_eq_false_2 (i = x /\ j = y)) by done. cbn [andb].
      destruct (decide ((i, j) ∈ ps)) as [Hin|Hin].
      * rewrite !bool_decide_eq_true_2; [done| by right | done].
      * rewrite !bool_decide_eq_false_2; [done| | done].
        intros Hin'. apply elem_of_cons in Hin' as [Heq|?]; [|done].
        inversion Heq; subst. tauto.
  - rewrite (cell_invalid gr i j) by done.
    destruct (bool_decide (i = x /\ j = y) && _) eqn:E; [|done].
    apply andb_true_iff in E as [E Hv'].
    apply bool_decide_eq_true in E as [-> ->]. congruence.
Qed.

(** *** The reset *)

(** X1: [InitializeGrid] keeps the dimensions of the grid and leaves in
    every cell, whatever the cell held, the ambient cell of its position:
    Wall in the bottom row and in the two side columns, Empty elsewhere,
    at 20 degrees, without velocity, with lifetime -1 and the processed
    flag cleared. *)
Theorem reset_rebuilds_the_box gr i j :
  well_formed gr = true -> IsValidPosition i j = true ->
  well_formed (InitializeGrid gr) = true /\
  cell (InitializeGrid gr) i j = initial_particle i j (ghost_id (cell gr i j)).
Proof.
  intros Hwf Hv. unfold InitializeGrid.
  match goal with |- context [for_each _ (fun x gr => for_each _ (fun y gr0 => @?f x y gr0) gr) _] =>
    rewrite (for_each_x_major _ _ f) end.
  match goal with |- context [sweep ?ps ?f gr] =>
    destruct (sweep_writes ps f (fun x y p => initial_particle x y (ghost_id p)) gr i j)
      as [H1 H2] end.
  - intros x y g Hg. cbv beta zeta.
    unfold initial_particle, on_border.
    destruct (y =? GRID_HEIGHT - 1); destruct ((x =? 0) || (x =? GRID_WIDTH - 1));
      cbn [orb]; rewrite !update_twice by auto 20 with grid; unfold update; f_equal;
      by destruct (cell g x y).
  - intros x y p. unfold initial_particle. by destruct (on_border x y).
  - done.
  - split; [done|]. rewrite H2.
    rewrite (bool_decide_eq_true_2 ((i, j) ∈ _)) by (by apply elem_of_storage_order).
    by rewrite Hv.
Qed.

(** *** The tick keeps the grid in shape *)

Lemma wf_UpdateParticle x y gr rs :
  well_formed gr = true -> well_formed (fst (UpdateParticle x y (gr, rs))) = true.
Proof.
  intros Hwf. destruct (enters x y gr) eqn:E.
  - by destruct (UpdateParticle_labels x y gr rs Hwf E) as (tx & ty & _ & Hw & _).
  - rewrite UpdateParticle_skip; [done|]. by apply enters_false.
Qed.

Lemma wf_UpdateParticles gr rs :
  well_formed gr = true -> well_formed (fst (UpdateParticles (gr, rs))) = true.
Proof.
  intros Hwf. rewrite UpdateParticles_sweep. cbn [fst snd].
  apply (sweep_inv (fun st => well_formed (fst st) = true)).
  - cbn [fst]. auto with grid.
  - intros x y [g r] _ Hg. by apply wf_UpdateParticle.
Qed.

(** X2: a tick permutes the occupants of the grid: when no two cells carry
    the same label before the tick, none do after it, and every label of
    the grid is still carried by a cell.  Particles move by exchange only;
    none is copied and none is dropped. *)
Theorem tick_permutes_the_occupants gr rs i j :
  well_formed gr = true -> distinct_labels gr -> IsValidPosition i j = true ->
  distinct_labels (fst (UpdateParticles (gr, rs))) /\
  exists i' j', IsValidPosition i' j' = true /\
    ghost_id (cell (fst (UpdateParticles (gr, rs))) i' j') = ghost_id (cell gr i j).
Proof.
  intros Hwf Hd Hv. rewrite UpdateParticles_sweep. cbn [fst snd].
  cut (well_formed (fst (sweep scan_order UpdateParticle (reset_updated gr, rs))) = true /\
       distinct_labels (fst (sweep scan_order UpdateParticle (reset_updated gr, rs))) /\
       exists i' j', IsValidPosition i' j' = true /\
         ghost_id (cell (fst (sweep scan_order UpdateParticle (reset_updated gr, rs))) i' j') =
         ghost_id (cell gr i j)).
  { intros (_ & ? & ?). done. }
  apply (sweep_inv (fun st => well_formed (fst st) = true /\ distinct_labels (fst st) /\
           exists i' j', IsValidPosition i' j' = true /\
             ghost_id (cell (fst st) i' j') = ghost_id (cell gr i j))).
  - cbn [fst]. split; [auto with grid|]. split; [by apply distinct_labels_reset|].
    exists i, j. split; [done|]. by rewrite cell_reset_updated.
  - intros x y [g r] _ (Hg & Hdg & i' & j' & Hv' & Hl). cbn [fst] in *.
    destruct (enters x y g) eqn:E.
    2: { rewrite UpdateParticle_skip by (by apply enters_false). cbn [fst]. eauto 10. }
    destruct (entered_step x y g r [] Hg Hdg) as (_ & Hw & Hd' & _); [|done|].
    { intros t Ht. by apply elem_of_nil in Ht. }
    split; [done|]. split; [done|].
    destruct (UpdateParticle_labels x y g r Hg E) as (tx & ty & Hvt & _ & Hs).
    apply andb_true_iff in E as [Hxy _].
    exists (transpose x y tx ty i' j').1, (transpose x y tx ty i' j').2.
    split; [by apply transpose_valid|].
    destruct (Hs (transpose x y tx ty i' j').1 (transpose x y tx ty i' j').2) as [Hid _].
    rewrite transpose_involutive in Hid. cbn [fst snd] in Hid.
    rewrite Hid, <- Hl. rewrite cell_update by done.
    destruct (_ && _) eqn:E1; [|done].
    apply andb_true_iff in E1 as [E1 _]. by apply bool_decide_eq_true in E1 as [-> ->].
Qed.

(** *** The lifetime *)

#[local] Instance carried_refl : Reflexive carried.
Proof. by intros p. Qed.

#[local] Instance carried_trans : Transitive carried.
Proof. intros p q r (? & ? & ?) (? & ? & ?). unfold carried. by repeat split; etrans. Qed.

Lemma carried_kind_color_only p q : kind_color_only p q -> carried p q.
Proof. unfold kind_color_only. intros ->. by destruct p. Qed.

Lemma carried_temperature_only p q : temperature_only p q -> carried p q.
Proof. unfold temperature_only. intros ->. by destruct p. Qed.

(** The stages after the lifetime check exchange the visited cell with at
    most one other cell; apart from that exchange every cell is related to
    itself by any relation that the stages respect. *)
Lemma pipeline_exchanges (R : Particle -> Particle -> Prop)
    `{!Reflexive R} `{!Transitive R} x y gr rs :
  (forall p q, kind_color_only p q -> R p q) ->
  (forall p q, temperature_only p q -> R p q) ->
  (forall p, R p (set_velocity_y (F32.of_int 0) (set_velocity_x (F32.of_int 0) p))) ->
  well_formed gr = true -> IsValidPosition x y = true ->
  exists tx ty,
    IsValidPosition tx ty = true /\
    well_formed (fst (pipeline x y (gr, rs))) = true /\
    forall i j,
      R (cell gr (transpose x y tx ty i j).1 (transpose x y tx ty i j).2)
        (cell (fst (pipeline x y (gr, rs))) i j).
Proof.
  intros Hkc Ht Hvel Hwf Hv. unfold pipeline.
  assert (Hrest : forall g2 rs2, well_formed g2 = true ->
    related R g2
      (ProcessChemicalReactions x y
         (fst (HandleParticleInteractions x y (UpdateTemperature x y g2, rs2))))).
  { intros g2 rs2 Hwf2.
    eapply related_trans; [apply _| |].
    { eapply related_impl; [apply Ht|]. by apply temperature_stage_only. }
    eapply related_trans; [apply _| |].
    { eapply related_impl; [intros p q Hpq; apply Hkc, kind_only_kind_color, Hpq|].
      apply interactions_kind_only. auto with grid. }
    eapply related_impl; [apply Hkc|].
    apply reactions_kind_color_only.
    eapply related_wf. apply interactions_kind_only. auto with grid. }
  destruct (physics_cases x y gr rs Hv) as [Heq|(tx & ty & Hvt & Hne & He & Hm & Heq)].
  - exists x, y. split; [done|].
    destruct (UpdatePhysics x y (gr, rs)) as [g2 rs2]. cbn [fst snd] in *. subst g2.
    destruct (Hrest gr rs2 Hwf) as [Hwf' Hrel]. split; [done|].
    intros i j. rewrite transpose_id. apply Hrel.
  - exists tx, ty. split; [done|].
    destruct (UpdatePhysics x y (gr, rs)) as [g2 rs2]. cbn [fst snd] in *. subst g2.
    destruct (Hrest (reset_velocity (swap gr x y tx ty) x y) rs2) as [Hwf' Hrel];
      [auto with grid|].
    split; [done|]. intros i j.
    etrans; [|apply Hrel].
    rewrite cell_reset_velocity by auto with grid.
    rewrite Hv, andb_true_r. rewrite !cell_swap by done.
    unfold transpose.
    rewrite (bool_decide_eq_false_2 (x = tx /\ y = ty)) by lia.
    rewrite (bool_decide_eq_true_2 (x = x /\ y = y)) by done.
    destruct (decide (i = x /\ j = y)) as [[-> ->]|Hd].
    + rewrite (bool_decide_eq_true_2 (x = x /\ y = y)) by done.
      rewrite (bool_decide_eq_false_2 (x = tx /\ y = ty)) by lia. apply Hvel.
    + rewrite (bool_decide_eq_false_2 (i = x /\ j = y)) by done.
      by case_bool_decide.
Qed.

(** X3: the cell update counts the lifetime of the occupant it runs on
    down by one when it is positive, and leaves it alone otherwise (the
    lifetime -1 of the lasting kinds, and the lifetime 0 of an erased
    cell); the occupant, wherever the update moved it, ends flagged as
    processed. *)
Theorem update_counts_the_lifetime_down x y gr rs :
  well_formed gr = true -> enters x y gr = true ->
  exists tx ty,
    IsValidPosition tx ty = true /\
    ghost_id (cell (fst (UpdateParticle x y (gr, rs))) tx ty) = ghost_id (cell gr x y) /\
    updated (cell (fst (UpdateParticle x y (gr, rs))) tx ty) = true /\
    lifetime (cell (fst (UpdateParticle x y (gr, rs))) tx ty) =
      if 0 <? lifetime (cell gr x y) then lifetime (cell gr x y) - 1
      else lifetime (cell gr x y).
Proof.
  intros Hwf He. unfold enters in He.
  apply andb_true_iff in He as [Hv Hu]. apply negb_true_iff in Hu.
  unfold UpdateParticle. rewrite Hv, Hu. cbn [negb orb].
  set (g1 := update gr x y (set_updated true)).
  assert (Hwf1 : well_formed g1 = true) by (subst g1; auto with grid).
  assert (Hc1 : cell g1 x y = set_updated true (cell gr x y)).
  { subst g1. by rewrite cell_update_eq. }
  assert (Hpipe : forall g, well_formed g = true ->
    exists tx ty, IsValidPosition tx ty = true /\
      carried (cell g x y) (cell (fst (pipeline x y (g, rs))) tx ty)).
  { intros g Hg.
    destruct (pipeline_exchanges carried x y g rs) as (tx & ty & Hvt & _ & Hl); auto.
    { apply carried_kind_color_only. }
    { apply carried_temperature_only. }
    { by intros []. }
    exists tx, ty. split; [done|]. specialize (Hl tx ty). unfold transpose in Hl.
    by rewrite (bool_decide_eq_true_2 (tx = tx /\ ty = ty)) in Hl. }
  rewrite Hc1. cbn [lifetime set_updated].
  destruct (0 <? lifetime (cell gr x y)) eqn:HL.
  2: { destruct (Hpipe g1 Hwf1) as (tx & ty & Hvt & Hid & Hup & Hlt).
       exists tx, ty. rewrite Hid, Hup, Hlt, Hc1. by destruct (cell gr x y). }
  set (g2 := update g1 x y _).
  assert (Hwf2 : well_formed g2 = true) by (subst g2; auto with grid).
  assert (Hc2 : cell g2 x y =
                set_lifetime (lifetime (cell gr x y) - 1) (set_updated true (cell gr x y))).
  { subst g2. rewrite cell_update_eq by done. rewrite Hc1. by destruct (cell gr x y). }
  rewrite Hc2. cbn [lifetime set_lifetime].
  destruct (lifetime (cell gr x y) - 1 <=? 0).
  - exists x, y. cbn [fst]. rewrite cell_update_eq by done. rewrite Hc2.
    by destruct (cell gr x y).
  - destruct (Hpipe g2 Hwf2) as (tx & ty & Hvt & Hid & Hup & Hlt).
    exists tx, ty. rewrite Hid, Hup, Hlt, Hc2. by destruct (cell gr x y).
Qed.

(** X4: an occupant on its last unit of lifetime ends as an Empty cell
    that keeps the colour and the temperature it had; the update stops
    there: nothing moves, no temperature spreads, no other cell changes
    and no random value is drawn. *)
Theorem last_unit_of_lifetime_empties_the_cell x y gr rs i j :
  well_formed gr = true -> enters x y gr = true -> lifetime (cell gr x y) = 1 ->
  snd (UpdateParticle x y (gr, rs)) = rs /\
  cell (fst (UpdateParticle x y (gr, rs))) i j =
  if bool_decide (i = x /\ j = y)
  then set_type EMPTY (set_lifetime 0 (set_updated true (cell gr x y)))
  else cell gr i j.
Proof.
  intros Hwf He HL. unfold enters in He.
  apply andb_true_iff in He as [Hv Hu]. apply negb_true_iff in Hu.
  unfold UpdateParticle. rewrite Hv, Hu. cbn [negb orb].
  rewrite !cell_update_eq by auto with grid.
  cbn [lifetime set_updated set_lifetime]. rewrite HL.
  change (0 <? 1) with true. change (1 - 1 <=? 0) with true. cbv iota.
  cbn [fst snd]. split; [done|].
  rewrite !update_twice by auto with grid.
  rewrite cell_update by done. rewrite Hv, andb_true_r.
  case_bool_decide; [|done]. cbn [lifetime set_updated]. by rewrite HL.
Qed.

(** *** Movement *)

(** X5: the movement stage either leaves the grid as it is or exchanges
    the visited cell with one Empty cell of the grid: the cell below it,
    or, for Water and Oil, the cell to its left or right, or, for Sand,
    one of the two cells diagonally below.  Nothing moves upwards, and
    nothing moves into a cell that is not Empty. *)
Theorem particles_move_down_or_sideways x y gr rs :
  IsValidPosition x y = true ->
  fst (UpdatePhysics x y (gr, rs)) = gr \/
  exists tx ty,
    IsValidPosition tx ty = true /\
    type (cell gr tx ty) = EMPTY /\
    Props.movable (particleProps (type (cell gr x y))) = true /\
    fst (UpdatePhysics x y (gr, rs)) = reset_velocity (swap gr x y tx ty) x y /\
    (tx = x /\ ty = y + 1 \/
     (tx = x - 1 \/ tx = x + 1) /\
     (ty = y /\ (type (cell gr x y) = WATER \/ type (cell gr x y) = OIL) \/
      ty = y + 1 /\ type (cell gr x y) = SAND)).
Proof.
  intros Hxy. unfold UpdatePhysics.
  destruct (Props.movable _) eqn:Hm; cbn [negb]; [|by left].
  assert (Hside : forall ty dir, dir = -1 \/ dir = 1 ->
    try_sides x y ty dir gr = gr \/
    exists tx, IsValidPosition tx ty = true /\ (tx = x - 1 \/ tx = x + 1) /\
      type (cell gr tx ty) = EMPTY /\
      try_sides x y ty dir gr = reset_velocity (swap gr x y tx ty) x y).
  { intros ty dir Hdir. unfold try_sides.
    destruct (IsValidPosition (x + dir) ty && _) eqn:E1.
    { right. apply andb_true_iff in E1 as [Hv He]. apply bool_decide_eq_true in He.
      exists (x + dir). repeat split; auto. lia. }
    destruct (IsValidPosition (x - dir) ty && _) eqn:E2; [|by left].
    right. apply andb_true_iff in E2 as [Hv He]. apply bool_decide_eq_true in He.
    exists (x - dir). repeat split; auto. lia. }
  assert (Hdir : forall rs0, (fst (GetRandomValue 0 1 rs0)) * 2 - 1 = -1 \/
                             (fst (GetRandomValue 0 1 rs0)) * 2 - 1 = 1).
  { intros [|v0 rs0]; cbn [GetRandomValue fst]; [lia|].
    pose proof (Z.mod_pos_bound v0 (1 - 0 + 1) ltac:(lia)). lia. }
  destruct ((y <? GRID_HEIGHT - 1) && _) eqn:E.
  { right. apply andb_true_iff in E as [Hy He]. apply bool_decide_eq_true in He.
    exists x, (y + 1). cbn [fst]. repeat split; auto.
    apply valid_spec in Hxy. apply valid_spec. lia. }
  destruct (_ || _) eqn:Ewo.
  { specialize (Hdir rs). destruct (GetRandomValue 0 1 rs) as [v rs1]. cbn [fst] in *.
    destruct (Hside y (v * 2 - 1) Hdir) as [->|(tx & ? & ? & ? & ->)]; [by left|].
    right. exists tx, y. repeat split; auto. right. split; [done|]. left. split; [done|].
    apply orb_true_iff in Ewo as [Ew|Eo]; apply bool_decide_eq_true in Ew || apply bool_decide_eq_true in Eo; auto. }
  destruct (is_type SAND _) eqn:Es; [|by left].
  apply bool_decide_eq_true in Es.
  specialize (Hdir rs). destruct (GetRandomValue 0 1 rs) as [v rs1]. cbn [fst] in *.
  destruct (Hside (y + 1) (v * 2 - 1) Hdir) as [->|(tx & ? & ? & ? & ->)]; [by left|].
  right. exists tx, (y + 1). repeat split; auto.
Qed.

(** *** Diffusion *)

Lemma elem_of_neighborhood dx dy :
  (dx, dy) ∈ neighborhood <-> -1 <= dx <= 1 /\ -1 <= dy <= 1.
Proof.
  unfold neighborhood. rewrite !elem_of_cons, elem_of_nil. split.
  - intros H. repeat (destruct H as [H|H]; [inversion H; lia|]). done.
  - intros [H1 H2].
    assert (Hx : dx = -1 \/ dx = 0 \/ dx = 1) by lia.
    assert (Hy : dy = -1 \/ dy = 0 \/ dy = 1) by lia.
    destruct Hx as [->|[->| ->]], Hy as [->|[->| ->]]; tauto.
Qed.

Lemma adjacent_spec x y i j :
  adjacent x y i j = true <-> (i - x, j - y) ∈ neighborhood.
Proof.
  rewrite elem_of_neighborhood. unfold adjacent.
  rewrite andb_true_iff, !Z.leb_le. lia.
Qed.

(** Summing copies of the ambient temperature is exact. *)
Lemma ambient_sum l gr x y s c :
  1 <= c -> c + Z.of_nat (length l) <= 10 -> s = F32.of_int (20 * c) ->
  (forall dx dy, (dx, dy) ∈ l -> IsValidPosition (x + dx) (y + dy) = true ->
     temperature (cell gr (x + dx) (y + dy)) = F32.of_int 20) ->
  exists c', 1 <= c' <= 10 /\
    fold_left (fun '(avgTemp, count) '(dx, dy) =>
      if IsValidPosition (x + dx) (y + dy) then
        (F32.add avgTemp (temperature (cell gr (x + dx) (y + dy))), count + 1)
      else (avgTemp, count)) l (s, c) = (F32.of_int (20 * c'), c').
Proof.
  revert s c. induction l as [|[dx dy] l IH]; intros s c Hc Hlen -> Hall.
  { exists c. cbn [length] in Hlen. split; [lia|done]. }
  cbn [fold_left]. cbn [length] in Hlen.
  destruct (IsValidPosition (x + dx) (y + dy)) eqn:Hv.
  - rewrite (Hall dx dy) by (done || left).
    apply IH; [lia|lia| |intros; apply Hall; [by right|done]].
    assert (Hcases : c = 1 \/ c = 2 \/ c = 3 \/ c = 4 \/ c = 5 \/ c = 6 \/ c = 7 \/
                     c = 8 \/ c = 9) by lia.
    destruct Hcases as [->|[->|[->|[->|[->|[->|[->|[->| ->]]]]]]]];
      vm_compute; reflexivity.
  - apply IH; [lia|lia|done|intros; apply Hall; [by right|done]].
Qed.

(** X6: a cell at the ambient temperature whose in-bounds neighbours are
    all at the ambient temperature stays at exactly 20 degrees, in the
    interior, on an edge and in a corner alike: the diffusion and the
    cooling do not drift. *)
Theorem ambient_cells_stay_ambient x y gr :
  well_formed gr = true -> IsValidPosition x y = true ->
  (forall dx dy, (dx, dy) ∈ neighborhood -> IsValidPosition (x + dx) (y + dy) = true ->
     temperature (cell gr (x + dx) (y + dy)) = F32.of_int 20) ->
  temperature (cell (UpdateTemperature x y gr) x y) = F32.of_int 20.
Proof.
  intros Hwf Hv Hall.
  rewrite cell_UpdateTemperature by done.
  rewrite (bool_decide_eq_true_2 (x = x /\ y = y)) by done. rewrite Hv. cbn [andb].
  cbn [temperature set_temperature].
  assert (Hown : temperature (cell gr x y) = F32.of_int 20).
  { specialize (Hall 0 0). rewrite !Z.add_0_r in Hall. apply Hall; [|done].
    apply elem_of_neighborhood. lia. }
  unfold new_temperature. rewrite Hown.
  match goal with |- context [fold_left ?body neighborhood ?s] =>
    destruct (ambient_sum neighborhood gr x y (F32.of_int 20) 1) as (c' & Hc & Hf) end;
    [lia|cbn; lia|done|done|].
  rewrite Hf.
  assert (Hcases : c' = 1 \/ c' = 2 \/ c' = 3 \/ c' = 4 \/ c' = 5 \/ c' = 6 \/ c' = 7 \/
                   c' = 8 \/ c' = 9 \/ c' = 10) by lia.
    destruct Hcases as [->|[->|[->|[->|[->|[->|[->|[->|[->| ->]]]]]]]]];
      vm_compute; reflexivity.
Qed.

(** X7: in the interior of the grid the mean of the diffusion has ten
    terms: the temperatures of the nine cells of the neighbourhood, the
    cell itself among them, added in the order of the two loops to the
    temperature of the cell, with which the sum starts. *)
Theorem interior_mean_has_ten_terms x y gr :
  1 <= x < GRID_WIDTH - 1 -> 1 <= y < GRID_HEIGHT - 1 ->
  new_temperature x y gr =
  let own := temperature (cell gr x y) in
  let near dx dy := temperature (cell gr (x + dx) (y + dy)) in
  let sum :=
    fold_left F32.add
      [near (-1) (-1); near (-1) 0; near (-1) 1;
       near 0 (-1); near 0 0; near 0 1;
       near 1 (-1); near 1 0; near 1 1] own in
  let mean := F32.div sum (F32.of_int 10) in
  let t := F32.add (F32.mul mean TEMPERATURE_SPREAD)
                   (F32.mul own (F32.sub (F32.of_int 1) TEMPERATURE_SPREAD)) in
  if F32.gtb t (F32.of_int 20) then F32.sub t COOLING_RATE
  else if F32.ltb t (F32.of_int 20) then F32.add t COOLING_RATE
  else t.
Proof.
  intros Hx Hy. unfold new_temperature, neighborhood. cbn [fold_left].
  assert (Hv : forall dx dy, -1 <= dx <= 1 -> -1 <= dy <= 1 ->
                 IsValidPosition (x + dx) (y + dy) = true).
  { intros. apply valid_spec. lia. }
  rewrite !Hv by lia. reflexivity.
Qed.

(** *** The interaction rules *)

Lemma fold_left_pointwise {A B} (f g : A -> B -> A) l a :
  (forall a b, f a b = g a b) -> fold_left f l a = fold_left g l a.
Proof. intros H. revert a. induction l as [|b l IH]; intros a; [done|]. cbn. by rewrite H, IH. Qed.

(** A loop over the neighbourhood that turns every cell of kind [A] into
    kind [B]. *)
Lemma convert_fold (A B : ParticleType) x y l gr i j :
  A <> B -> well_formed gr = true ->
  well_formed
    (fold_left (fun g '(dx, dy) =>
       if IsValidPosition (x + dx) (y + dy) && is_type A (cell g (x + dx) (y + dy))
       then update g (x + dx) (y + dy) (set_type B) else g) l gr) = true /\
  cell
    (fold_left (fun g '(dx, dy) =>
       if IsValidPosition (x + dx) (y + dy) && is_type A (cell g (x + dx) (y + dy))
       then update g (x + dx) (y + dy) (set_type B) else g) l gr) i j =
  if bool_decide ((i - x, j - y) ∈ l) && IsValidPosition i j && is_type A (cell gr i j)
  then set_type B (cell gr i j) else cell gr i j.
Proof.
  intros HAB. revert gr. induction l as [|[dx dy] l IH]; intros gr Hwf.
  { cbn [fold_left]. split; [done|].
    rewrite (bool_decide_eq_false_2 (_ ∈ [])); [done|]. apply not_elem_of_nil. }
  cbn [fold_left].
  set (g1 := if IsValidPosition (x + dx) (y + dy) && is_type A (cell gr (x + dx) (y + dy))
             then update gr (x + dx) (y + dy) (set_type B) else gr).
  assert (Hwf1 : well_formed g1 = true).
  { subst g1.
    destruct (IsValidPosition (x + dx) (y + dy) && is_type A (cell gr (x + dx) (y + dy)));
      auto with grid. }
  destruct (IH g1 Hwf1) as [IH1 IH2]. split; [done|]. rewrite IH2. clear IH IH1 IH2.
  assert (Hmem : (i - x, j - y) ∈ (dx, dy) :: l <->
                 (i = x + dx /\ j = y + dy) \/ (i - x, j - y) ∈ l).
  { rewrite elem_of_cons. split; (intros [H|H]; [left|by right]).
    - inversion H. lia.
    - destruct H as [-> ->]. f_equal; lia. }
  destruct (decide (i = x + dx /\ j = y + dy)) as [[-> ->]|Hne].
  - rewrite (bool_decide_eq_true_2 (_ ∈ (dx, dy) :: l)) by (apply Hmem; by left).
    cbn [andb]. subst g1.
    destruct (IsValidPosition (x + dx) (y + dy)) eqn:Hv; cbn [andb].
    2: { by rewrite andb_false_r. }
    rewrite andb_true_r.
    destruct (is_type A (cell gr (x + dx) (y + dy))) eqn:HA.
    + rewrite cell_update_eq by done.
      assert (HB : is_type A (set_type B (cell gr (x + dx) (y + dy))) = false).
      { apply bool_decide_eq_false_2. cbn [type set_type]. congruence. }
      rewrite HB. by rewrite andb_false_r.
    + rewrite HA. by rewrite andb_false_r.
  - assert (Hc1 : cell g1 i j = cell gr i j).
    { subst g1.
      destruct (IsValidPosition (x + dx) (y + dy) && is_type A (cell gr (x + dx) (y + dy)));
        [|done]. apply cell_update_ne. lia. }
    rewrite Hc1.
    destruct (decide ((i - x, j - y) ∈ l)) as [Hin|Hin].
    + rewrite (bool_decide_eq_true_2 (_ ∈ l)) by done.
      by rewrite (bool_decide_eq_true_2 (_ ∈ (dx, dy) :: l)) by (apply Hmem; by right).
    + rewrite (bool_decide_eq_false_2 (_ ∈ l)) by done.
      by rewrite (bool_decide_eq_false_2 (_ ∈ (dx, dy) :: l)) by (rewrite Hmem; tauto).
Qed.

Lemma adjacent_decide x y i j :
  bool_decide ((i - x, j - y) ∈ neighborhood) = adjacent x y i j.
Proof.
  destruct (adjacent x y i j) eqn:E.
  - apply bool_decide_eq_true_2. by apply adjacent_spec.
  - apply bool_decide_eq_false_2. intros H. apply adjacent_spec in H. congruence.
Qed.

Lemma water_cells x y gr rs i j :
  well_formed gr = true -> type (cell gr x y) = WATER ->
  snd (HandleParticleInteractions x y (gr, rs)) = rs /\
  well_formed (fst (HandleParticleInteractions x y (gr, rs))) = true /\
  cell (fst (HandleParticleInteractions x y (gr, rs))) i j =
  if adjacent x y i j && is_type FIRE (cell gr i j) then set_type STEAM (cell gr i j)
  else if bool_decide (i = x /\ j = y) && F32.ltb (temperature (cell gr x y)) (F32.of_int 0)
       then set_type ICE (cell gr i j)
       else cell gr i j.
Proof.
  intros Hwf Ht. unfold HandleParticleInteractions. rewrite Ht. cbn [fst snd].
  split; [done|].
  assert (Hxy : IsValidPosition x y = true) by (apply (type_valid gr); by rewrite Ht).
  pose proof (fun i j => convert_fold FIRE STEAM x y neighborhood gr i j ltac:(done) Hwf) as Hf.
  match type of Hf with forall i j, well_formed ?g = true /\ _ => set (g1 := g) in * end.
  assert (Hwf1 : well_formed g1 = true) by apply (Hf 0 0).
  assert (Hc : forall i j, cell g1 i j =
     if adjacent x y i j && is_type FIRE (cell gr i j) then set_type STEAM (cell gr i j)
     else cell gr i j).
  { intros a b. rewrite (proj2 (Hf a b)). rewrite adjacent_decide.
    destruct (IsValidPosition a b) eqn:Hab; [by rewrite andb_true_r|].
    rewrite andb_false_r. cbn [andb]. rewrite (cell_invalid gr a b) by done.
    by rewrite andb_false_r. }
  assert (Hown : cell g1 x y = cell gr x y).
  { rewrite Hc. unfold is_type. rewrite Ht.
    rewrite (bool_decide_eq_false_2 (WATER = FIRE)) by done. by rewrite andb_false_r. }
  rewrite Hown.
  destruct (F32.ltb (temperature (cell gr x y)) (F32.of_int 0)).
  - split; [auto with grid|]. rewrite cell_update by done. rewrite Hxy, !andb_true_r.
    case_bool_decide as Hij.
    + destruct Hij as [-> ->]. rewrite Hown. unfold is_type. rewrite Ht.
      rewrite (bool_decide_eq_false_2 (WATER = FIRE)) by done. by rewrite andb_false_r.
    + by rewrite Hc.
  - split; [done|]. rewrite Hc. rewrite andb_false_r. done.
Qed.

Lemma lava_cells x y gr rs i j :
  well_formed gr = true -> type (cell gr x y) = LAVA ->
  snd (HandleParticleInteractions x y (gr, rs)) = rs /\
  well_formed (fst (HandleParticleInteractions x y (gr, rs))) = true /\
  cell (fst (HandleParticleInteractions x y (gr, rs))) i j =
  if adjacent x y i j && is_type WATER (cell gr i j) then set_type STEAM (cell gr i j)
  else if bool_decide (i = x /\ j = y) && F32.ltb (temperature (cell gr x y)) (F32.of_int 800)
       then set_type METAL (cell gr i j)
       else cell gr i j.
Proof.
  intros Hwf Ht. unfold HandleParticleInteractions. rewrite Ht. cbn [fst snd].
  split; [done|].
  assert (Hxy : IsValidPosition x y = true) by (apply (type_valid gr); by rewrite Ht).
  pose proof (fun i j => convert_fold WATER STEAM x y neighborhood gr i j ltac:(done) Hwf) as Hf.
  match goal with |- context [fold_left ?body neighborhood gr] =>
    rewrite (fold_left_pointwise body
      (fun g '(dx, dy) =>
         if IsValidPosition (x + dx) (y + dy) && is_type WATER (cell g (x + dx) (y + dy))
         then update g (x + dx) (y + dy) (set_type STEAM) else g))
  end.
  2: { intros g [dx dy]. destruct (IsValidPosition (x + dx) (y + dy)); reflexivity. }
  match type of Hf with forall i j, well_formed ?g = true /\ _ => set (g1 := g) in * end.
  assert (Hwf1 : well_formed g1 = true) by apply (Hf 0 0).
  assert (Hc : forall i j, cell g1 i j =
     if adjacent x y i j && is_type WATER (cell gr i j) then set_type STEAM (cell gr i j)
     else cell gr i j).
  { intros a b. rewrite (proj2 (Hf a b)). rewrite adjacent_decide.
    destruct (IsValidPosition a b) eqn:Hab; [by rewrite andb_true_r|].
    rewrite andb_false_r. cbn [andb]. rewrite (cell_invalid gr a b) by done.
    by rewrite andb_false_r. }
  assert (Hown : cell g1 x y = cell gr x y).
  { rewrite Hc. unfold is_type. rewrite Ht.
    rewrite (bool_decide_eq_false_2 (LAVA = WATER)) by done. by rewrite andb_false_r. }
  rewrite Hown.
  destruct (F32.ltb (temperature (cell gr x y)) (F32.of_int 800)).
  - split; [auto with grid|]. rewrite cell_update by done. rewrite Hxy, !andb_true_r.
    case_bool_decide as Hij.
    + destruct Hij as [-> ->]. rewrite Hown. unfold is_type. rewrite Ht.
      rewrite (bool_decide_eq_false_2 (LAVA = WATER)) by done. by rewrite andb_false_r.
    + by rewrite Hc.
  - split; [done|]. rewrite Hc. rewrite andb_false_r. done.
Qed.

Lemma adjacent_offset x y dx dy :
  (dx, dy) ∈ neighborhood -> adjacent x y (x + dx) (y + dy) = true.
Proof.
  intros H. apply adjacent_spec. apply elem_of_neighborhood.
  apply elem_of_neighborhood in H. lia.
Qed.

Lemma fire_cells x y gr rs i j :
  well_formed gr = true -> type (cell gr x y) = FIRE ->
  well_formed (fst (HandleParticleInteractions x y (gr, rs))) = true /\
  (cell (fst (HandleParticleInteractions x y (gr, rs))) i j = cell gr i j \/
   (adjacent x y i j = true /\
    Props.flammable (particleProps (type (cell gr i j))) = true /\
    cell (fst (HandleParticleInteractions x y (gr, rs))) i j = set_type FIRE (cell gr i j)) \/
   (i = x /\ j = y - 1 /\ type (cell gr i j) = EMPTY /\
    cell (fst (HandleParticleInteractions x y (gr, rs))) i j = set_type SMOKE (cell gr i j))).
Proof.
  intros Hwf Ht. unfold HandleParticleInteractions. rewrite Ht.
  set (Inv := fun st : Grid * Rng =>
    well_formed (fst st) = true /\
    forall a b, cell (fst st) a b = cell gr a b \/
      (adjacent x y a b = true /\
       Props.flammable (particleProps (type (cell gr a b))) = true /\
       cell (fst st) a b = set_type FIRE (cell gr a b))).
  match goal with |- context [fold_left ?body ?l ?st] =>
    assert (Inv (fold_left body l st)) as Hg;
    [|destruct (fold_left body l st) as [g1 rs1]] end.
  { apply fold_left_inv.
    { split; [done|]. intros; by left. }
    intros [g r] [dx dy] Hin [Hg Hcells]. cbn [fst] in *.
    destruct (IsValidPosition (x + dx) (y + dy)) eqn:Hv; [|by split].
    destruct (Props.flammable _) eqn:Hfl; [|by split].
    destruct (GetRandomValue 0 100 r) as [v r2].
    destruct (ignites v); [|by split]. split; cbn [fst]; [auto with grid|].
    intros a b. rewrite cell_update by done. rewrite Hv, andb_true_r.
    case_bool_decide as Hab; [|apply Hcells].
    destruct Hab as [-> ->].
    destruct (Hcells (x + dx) (y + dy)) as [Heq|(_ & _ & Heq)].
    - right. rewrite Heq in *. split; [by apply adjacent_offset|]. by split.
    - rewrite Heq in Hfl. cbn in Hfl. discriminate. }
  destruct Hg as [Hwf1 Hcells]. cbn [fst] in *.
  destruct (GetRandomValue 0 100 rs1) as [v rs2].
  assert (Hkeep : cell g1 i j = cell gr i j \/
    (adjacent x y i j = true /\
     Props.flammable (particleProps (type (cell gr i j))) = true /\
     cell g1 i j = set_type FIRE (cell gr i j)) \/
    (i = x /\ j = y - 1 /\ type (cell gr i j) = EMPTY /\
     cell g1 i j = set_type SMOKE (cell gr i j))).
  { destruct (Hcells i j) as [?|?]; [by left|right; by left]. }
  destruct (smokes v); [|by split].
  destruct (IsValidPosition x (y - 1) && is_type EMPTY (cell g1 x (y - 1))) eqn:E;
    [|by split].
  apply andb_true_iff in E as [Hv He]. apply bool_decide_eq_true in He.
  cbn [fst]. split; [auto with grid|].
  rewrite cell_update by done. rewrite Hv, andb_true_r.
  case_bool_decide as Hij; [|done].
  destruct Hij as [-> ->]. right. right.
  destruct (Hcells x (y - 1)) as [Heq|(_ & _ & Heq)].
  - rewrite Heq in *. done.
  - rewrite Heq in He. cbn in He. discriminate.
Qed.

Lemma acid_cells x y gr rs i j :
  well_formed gr = true -> type (cell gr x y) = ACID ->
  well_formed (fst (HandleParticleInteractions x y (gr, rs))) = true /\
  (cell (fst (HandleParticleInteractions x y (gr, rs))) i j = cell gr i j \/
   (adjacent x y i j = true /\
    type (cell gr i j) <> EMPTY /\ type (cell gr i j) <> ACID /\
    type (cell gr i j) <> GLASS /\
    cell (fst (HandleParticleInteractions x y (gr, rs))) i j = set_type EMPTY (cell gr i j))).
Proof.
  intros Hwf Ht. unfold HandleParticleInteractions. rewrite Ht.
  set (Inv := fun st : Grid * Rng =>
    well_formed (fst st) = true /\
    forall a b, cell (fst st) a b = cell gr a b \/
      (adjacent x y a b = true /\
       type (cell gr a b) <> EMPTY /\ type (cell gr a b) <> ACID /\
       type (cell gr a b) <> GLASS /\
       cell (fst st) a b = set_type EMPTY (cell gr a b))).
  cut (Inv (fold_left
    (fun '(gr, rs) '(dx, dy) =>
        if IsValidPosition (x + dx) (y + dy) then
          let nearbyType := type (cell gr (x + dx) (y + dy)) in
          if negb (bool_decide (nearbyType = EMPTY))
             && negb (bool_decide (nearbyType = ACID))
             && negb (bool_decide (nearbyType = GLASS)) then
            let '(v, rs) := GetRandomValue 0 100 rs in
            if dissolves v then (update gr (x + dx) (y + dy) (set_type EMPTY), rs)
            else (gr, rs)
          else (gr, rs)
        else (gr, rs)) neighborhood (gr, rs))).
  { intros [H1 H2]. split; [exact H1|]. apply H2. }
  apply fold_left_inv.
  { split; [done|]. intros; by left. }
  intros [g r] [dx dy] Hin [Hg Hcells]. cbn [fst] in *.
  destruct (IsValidPosition (x + dx) (y + dy)) eqn:Hv; [|by split].
  cbv zeta.
  destruct (negb (bool_decide (type (cell g (x + dx) (y + dy)) = EMPTY))) eqn:E1;
    cbn [andb]; [|by split].
  destruct (negb (bool_decide (type (cell g (x + dx) (y + dy)) = ACID))) eqn:E2;
    cbn [andb]; [|by split].
  destruct (negb (bool_decide (type (cell g (x + dx) (y + dy)) = GLASS))) eqn:E3;
    cbn [andb]; [|by split].
  apply negb_true_iff, bool_decide_eq_false in E1, E2, E3.
  destruct (GetRandomValue 0 100 r) as [v r2].
  destruct (dissolves v); [|by split]. split; cbn [fst]; [auto with grid|].
  intros a b. rewrite cell_update by done. rewrite Hv, andb_true_r.
  case_bool_decide as Hab; [|apply Hcells].
  destruct Hab as [-> ->].
  destruct (Hcells (x + dx) (y + dy)) as [Heq|(_ & _ & _ & _ & Heq)].
  - right. rewrite Heq in *. split; [by apply adjacent_offset|]. done.
  - rewrite Heq in E1. by cbn in E1.
Qed.

Lemma reactions_cells x y gr i j :
  well_formed gr = true ->
  type (cell (ProcessChemicalReactions x y gr) i j) = type (cell gr i j) \/
  (type (cell gr i j) = SALT /\ type (cell (ProcessChemicalReactions x y gr) i j) = EMPTY) \/
  (i = x /\ j = y /\ type (cell gr i j) = SAND /\
   type (cell (ProcessChemicalReactions x y gr) i j) = GLASS).
Proof.
  intros Hwf.
  destruct (decide (type (cell gr x y) = WATER)) as [Hw|Hw].
  { destruct (salt_reaction x y gr Hwf Hw) as (_ & H & _).
    destruct (H i j) as [?|?]; [by left|right; by left]. }
  unfold ProcessChemicalReactions.
  destruct (is_type SAND (cell gr x y) && _) eqn:E.
  - apply andb_true_iff in E as [E _]. apply bool_decide_eq_true in E.
    rewrite cell_update by done.
    destruct (bool_decide (i = x /\ j = y) && IsValidPosition x y) eqn:E2; [|by left].
    apply andb_true_iff in E2 as [E2 _]. apply bool_decide_eq_true in E2 as [-> ->].
    right. right. done.
  - unfold is_type. rewrite (bool_decide_eq_false_2 (type (cell gr x y) = WATER)) by done.
    by left.
Qed.

Lemma immune_kept t x y gr rs i j :
  immune t = true -> well_formed gr = true -> type (cell gr i j) = t ->
  type (cell (fst (HandleParticleInteractions x y (gr, rs))) i j) = t /\
  type (cell (ProcessChemicalReactions x y gr) i j) = t.
Proof.
  intros Him Hwf Ht. split.
  - destruct (type (cell gr x y)) eqn:Hk;
      try (unfold HandleParticleInteractions; rewrite Hk; exact Ht).
    + destruct (water_cells x y gr rs i j Hwf Hk) as (_ & _ & ->).
      unfold is_type. rewrite Ht.
      rewrite (bool_decide_eq_false_2 (t = FIRE)) by (intros ->; done).
      rewrite andb_false_r.
      destruct (bool_decide (i = x /\ j = y)) eqn:E; [|done].
      apply bool_decide_eq_true in E as [-> ->]. rewrite Hk in Ht. destruct t; cbn in Him; congruence.
    + destruct (fire_cells x y gr rs i j Hwf Hk) as (_ & [->|[(_ & Hf & _)|(_ & _ & He & _)]]).
      * done.
      * rewrite Ht in Hf. destruct t; cbn in Him, Hf; congruence.
      * rewrite Ht in He. destruct t; cbn in Him; congruence.
    + destruct (lava_cells x y gr rs i j Hwf Hk) as (_ & _ & ->).
      unfold is_type. rewrite Ht.
      rewrite (bool_decide_eq_false_2 (t = WATER)) by (intros ->; done).
      rewrite andb_false_r.
      destruct (bool_decide (i = x /\ j = y)) eqn:E; [|done].
      apply bool_decide_eq_true in E as [-> ->]. rewrite Hk in Ht. destruct t; cbn in Him; congruence.
    + destruct (acid_cells x y gr rs i j Hwf Hk) as (_ & [->|(_ & H1 & H2 & H3 & _)]).
      * done.
      * rewrite Ht in H1, H2, H3. destruct t; cbn in Him; congruence.
  - destruct (reactions_cells x y gr i j Hwf) as [->|[[Hs _]|(_ & _ & Hs & _)]].
    + done.
    + rewrite Ht in Hs. destruct t; cbn in Him; congruence.
    + rewrite Ht in Hs. destruct t; cbn in Him; congruence.
Qed.

(** X8: around a Water cell every Fire cell of the neighbourhood becomes
    Steam; the Water itself becomes Ice when its temperature is below
    zero; no other cell changes its kind and no random value is drawn. *)
Theorem water_puts_out_adjacent_fire x y gr rs i j :
  well_formed gr = true -> type (cell gr x y) = WATER ->
  snd (HandleParticleInteractions x y (gr, rs)) = rs /\
  type (cell (fst (HandleParticleInteractions x y (gr, rs))) i j) =
  if adjacent x y i j && is_type FIRE (cell gr i j) then STEAM
  else if bool_decide (i = x /\ j = y) && F32.ltb (temperature (cell gr x y)) (F32.of_int 0)
       then ICE
       else type (cell gr i j).
Proof.
  intros Hwf Ht. destruct (water_cells x y gr rs i j Hwf Ht) as (Hrs & _ & ->).
  split; [done|].
  destruct (_ && _); [done|]. by destruct (_ && _).
Qed.

(** X9: around a Lava cell every Water cell of the neighbourhood becomes
    Steam; the Lava itself becomes Metal when its temperature is below 800
    degrees; no other cell changes its kind and no random value is
    drawn. *)
Theorem lava_boils_adjacent_water x y gr rs i j :
  well_formed gr = true -> type (cell gr x y) = LAVA ->
  snd (HandleParticleInteractions x y (gr, rs)) = rs /\
  type (cell (fst (HandleParticleInteractions x y (gr, rs))) i j) =
  if adjacent x y i j && is_type WATER (cell gr i j) then STEAM
  else if bool_decide (i = x /\ j = y) && F32.ltb (temperature (cell gr x y)) (F32.of_int 800)
       then METAL
       else type (cell gr i j).
Proof.
  intros Hwf Ht. destruct (lava_cells x y gr rs i j Hwf Ht) as (Hrs & _ & ->).
  split; [done|].
  destruct (_ && _); [done|]. by destruct (_ && _).
Qed.

(** X10: around a Fire cell a cell changes its kind in two ways only: a
    flammable cell of the neighbourhood (Oil, Wood, Plant) may become
    Fire, and the cell directly above, when it is Empty, may become
    Smoke. *)
Theorem fire_spreads_to_flammable_cells_only x y gr rs i j :
  well_formed gr = true -> type (cell gr x y) = FIRE ->
  let after := type (cell (fst (HandleParticleInteractions x y (gr, rs))) i j) in
  after = type (cell gr i j) \/
  (adjacent x y i j = true /\
   (type (cell gr i j) = OIL \/ type (cell gr i j) = WOOD \/ type (cell gr i j) = PLANT) /\
   after = FIRE) \/
  (i = x /\ j = y - 1 /\ type (cell gr i j) = EMPTY /\ after = SMOKE).
Proof.
  intros Hwf Ht after. subst after.
  destruct (fire_cells x y gr rs i j Hwf Ht) as (_ & [->|[(Ha & Hf & ->)|(-> & -> & He & ->)]]).
  - by left.
  - right. left. split; [done|]. split; [|done].
    destruct (type (cell gr i j)); try discriminate; tauto.
  - right. right. done.
Qed.

(** X11: around an Acid cell a cell changes its kind in one way only: a
    cell of the neighbourhood that is not Empty, Acid or Glass may become
    Empty.  The Acid itself is not used up. *)
Theorem acid_dissolves_to_empty_only x y gr rs i j :
  well_formed gr = true -> type (cell gr x y) = ACID ->
  let after := type (cell (fst (HandleParticleInteractions x y (gr, rs))) i j) in
  after = type (cell gr i j) \/
  (adjacent x y i j = true /\
   type (cell gr i j) <> EMPTY /\ type (cell gr i j) <> ACID /\
   type (cell gr i j) <> GLASS /\ after = EMPTY).
Proof.
  intros Hwf Ht after. subst after.
  destruct (acid_cells x y gr rs i j Hwf Ht) as (_ & [->|(Ha & H1 & H2 & H3 & ->)]).
  - by left.
  - right. done.
Qed.

(** X12: no interaction and no reaction, whichever cell it runs on,
    changes the kind of an Acid or a Glass cell. *)
Theorem acid_and_glass_are_never_converted x y gr rs i j :
  well_formed gr = true ->
  type (cell gr i j) = ACID \/ type (cell gr i j) = GLASS ->
  type (cell (fst (HandleParticleInteractions x y (gr, rs))) i j) = type (cell gr i j) /\
  type (cell (ProcessChemicalReactions x y gr) i j) = type (cell gr i j).
Proof.
  intros Hwf Ht. apply immune_kept; [|done|done]. by destruct Ht as [-> | ->].
Qed.

(** *** Glass *)

Lemma glass_pipeline x y gr rs i j :
  well_formed gr = true -> IsValidPosition x y = true ->
  type (cell gr i j) = GLASS ->
  well_formed (fst (pipeline x y (gr, rs))) = true /\
  type (cell (fst (pipeline x y (gr, rs))) i j) = GLASS /\
  lifetime (cell (fst (pipeline x y (gr, rs))) i j) = lifetime (cell gr i j).
Proof.
  intros Hwf Hv Ht. unfold pipeline.
  assert (Hrest : forall g2 rs2, well_formed g2 = true -> cell g2 i j = cell gr i j ->
    well_formed (ProcessChemicalReactions x y
      (fst (HandleParticleInteractions x y (UpdateTemperature x y g2, rs2)))) = true /\
    type (cell (ProcessChemicalReactions x y
      (fst (HandleParticleInteractions x y (UpdateTemperature x y g2, rs2)))) i j) = GLASS /\
    lifetime (cell (ProcessChemicalReactions x y
      (fst (HandleParticleInteractions x y (UpdateTemperature x y g2, rs2)))) i j) =
    lifetime (cell gr i j)).
  { intros g2 rs2 Hwf2 Hc2.
    set (g3 := UpdateTemperature x y g2).
    assert (Hwf3 : well_formed g3 = true) by (subst g3; auto with grid).
    assert (Hc3 : type (cell g3 i j) = GLASS /\ lifetime (cell g3 i j) = lifetime (cell gr i j)).
    { subst g3. rewrite cell_UpdateTemperature by done.
      destruct (bool_decide (i = x /\ j = y) && IsValidPosition x y) eqn:E.
      - apply andb_true_iff in E as [E _]. apply bool_decide_eq_true in E as [-> ->].
        cbn [type lifetime set_temperature]. by rewrite Hc2.
      - by rewrite Hc2. }
    destruct Hc3 as [Ht3 Hl3].
    pose proof (interactions_kind_only x y g3 rs2 Hwf3) as [Hwf4 Hk4].
    set (g4 := fst (HandleParticleInteractions x y (g3, rs2))) in *.
    assert (Ht4 : type (cell g4 i j) = GLASS).
    { subst g4. by apply (immune_kept GLASS x y g3 rs2 i j). }
    assert (Hl4 : lifetime (cell g4 i j) = lifetime (cell gr i j)).
    { rewrite <- Hl3. by apply (fields_kept_kind_only _ _ (Hk4 i j)). }
    pose proof (reactions_kind_color_only x y g4 Hwf4) as [Hwf5 Hk5].
    split; [done|]. split.
    - by apply (immune_kept GLASS x y g4 rs2 i j).
    - rewrite <- Hl4. by apply (fields_kept_kind_color_only _ _ (Hk5 i j)). }
  destruct (physics_cases x y gr rs Hv) as [Heq|(tx & ty & Hvt & Hne & He & Hm & Heq)].
  - destruct (UpdatePhysics x y (gr, rs)) as [g2 rs2]. cbn [fst snd] in *. subst g2.
    by apply Hrest.
  - destruct (UpdatePhysics x y (gr, rs)) as [g2 rs2]. cbn [fst snd] in *. subst g2.
    apply Hrest; [auto with grid|].
    assert (Hxy : ~ (i = x /\ j = y)).
    { intros [-> ->]. rewrite Ht in Hm. discriminate. }
    assert (Htxy : ~ (i = tx /\ j = ty)).
    { intros [-> ->]. rewrite Ht in He. discriminate. }
    rewrite cell_reset_velocity by auto with grid.
    rewrite (bool_decide_eq_false_2 (i = x /\ j = y)) by done. cbn [andb].
    rewrite cell_swap by done.
    rewrite (bool_decide_eq_false_2 (i = tx /\ j = ty)) by done.
    by rewrite (bool_decide_eq_false_2 (i = x /\ j = y)) by done.
Qed.

Lemma glass_step x y gr rs i j :
  well_formed gr = true ->
  type (cell gr i j) = GLASS -> lifetime (cell gr i j) <= 0 ->
  well_formed (fst (UpdateParticle x y (gr, rs))) = true /\
  type (cell (fst (UpdateParticle x y (gr, rs))) i j) = GLASS /\
  lifetime (cell (fst (UpdateParticle x y (gr, rs))) i j) <= 0.
Proof.
  intros Hwf Ht Hl. destruct (enters x y gr) eqn:He.
  2: { rewrite UpdateParticle_skip by (by apply enters_false). done. }
  apply andb_true_iff in He as [Hv Hu]. apply negb_true_iff in Hu.
  unfold UpdateParticle. rewrite Hv, Hu. cbn [negb orb].
  set (g1 := update gr x y (set_updated true)).
  assert (Hwf1 : well_formed g1 = true) by (subst g1; auto with grid).
  assert (Hc1 : type (cell g1 i j) = GLASS /\ lifetime (cell g1 i j) = lifetime (cell gr i j)).
  { subst g1. rewrite cell_update by done.
    destruct (bool_decide (i = x /\ j = y) && IsValidPosition x y) eqn:E; [|done].
    apply andb_true_iff in E as [E _]. by apply bool_decide_eq_true in E as [-> ->]. }
  destruct Hc1 as [Ht1 Hl1].
  assert (Hpipe : forall g, well_formed g = true -> cell g i j = cell g1 i j ->
    well_formed (fst (pipeline x y (g, rs))) = true /\
    type (cell (fst (pipeline x y (g, rs))) i j) = GLASS /\
    lifetime (cell (fst (pipeline x y (g, rs))) i j) <= 0).
  { intros g Hg Hc.
    destruct (glass_pipeline x y g rs i j Hg Hv) as (? & ? & Hl').
    { by rewrite Hc. }
    split; [done|]. split; [done|]. rewrite Hl', Hc. lia. }
  destruct (0 <? lifetime (cell g1 x y)) eqn:HL; [|by apply Hpipe].
  apply Z.ltb_lt in HL.
  assert (Hne : i <> x \/ j <> y).
  { destruct (decide (i = x)) as [->|]; [|by left].
    destruct (decide (j = y)) as [->|]; [|by right]. lia. }
  set (g2 := update g1 x y _).
  assert (Hwf2 : well_formed g2 = true) by (subst g2; auto with grid).
  assert (Hc2 : cell g2 i j = cell g1 i j) by (subst g2; by apply cell_update_ne).
  destruct (lifetime (cell g2 x y) <=? 0); [|by apply Hpipe].
  cbn [fst]. split; [auto with grid|].
  rewrite cell_update_ne by done. rewrite Hc2. split; [done|lia].
Qed.

(** X13: Glass that has no lifetime to run out is permanent: however many
    ticks run and whatever the random source yields, a Glass cell stays
    Glass and stays where it is.  No rule moves it, converts it or
    removes it. *)
Theorem glass_is_permanent k gr rs i j :
  well_formed gr = true ->
  type (cell gr i j) = GLASS -> lifetime (cell gr i j) <= 0 ->
  type (cell (fst (ticks k (gr, rs))) i j) = GLASS.
Proof.
  intros Hwf Ht Hl.
  cut (well_formed (fst (ticks k (gr, rs))) = true /\
       type (cell (fst (ticks k (gr, rs))) i j) = GLASS /\
       lifetime (cell (fst (ticks k (gr, rs))) i j) <= 0).
  { intros (_ & ? & _). done. }
  induction k as [|k IH]; [done|].
  rewrite ticks_S. destruct (ticks k (gr, rs)) as [g r]. cbn [fst] in IH.
  destruct IH as (Hg & Htg & Hlg).
  rewrite UpdateParticles_sweep. cbn [fst snd].
  apply (sweep_inv (fun st => well_formed (fst st) = true /\
           type (cell (fst st) i j) = GLASS /\ lifetime (cell (fst st) i j) <= 0)).
  - cbn [fst]. split; [auto with grid|]. rewrite cell_reset_updated by done.
    by destruct (cell g i j).
  - intros x y [g' r'] _ (? & ? & ?). cbn [fst] in *. by apply glass_step.
Qed.

(** *** Files *)

Lemma NoDup_x_major xs ys : NoDup xs -> NoDup ys -> NoDup (x_major xs ys).
Proof.
  intros Hxs Hys. induction Hxs as [|x xs Hx Hxs IH]; [constructor|].
  unfold x_major. cbn [flat_map]. apply NoDup_app. split; [|split; [|done]].
  - apply NoDup_fmap_2_strong; [|exact Hys]. by intros ? ? _ _ [= ->].
  - intros [a b] Hin Hin'.
    apply list_elem_of_fmap in Hin as (y' & [= -> ->] & _).
    apply (elem_of_x_major xs ys) in Hin' as [? _]. done.
Qed.

Lemma NoDup_storage_order : NoDup storage_order.
Proof. apply NoDup_x_major; apply NoDup_seqZ. Qed.

Lemma sweep_fread_end ps gr : sweep ps fread (gr, []) = (gr, []).
Proof. induction ps as [|[x y] ps IH]; [done|]. cbn [sweep fold_left]. exact IH. Qed.

Lemma sweep_fread_other ps gr recs i j :
  (i, j) ∉ ps ->
  cell (fst (sweep ps fread (gr, recs))) i j = cell gr i j.
Proof.
  revert gr recs. induction ps as [|[x y] ps IH]; intros gr recs Hin; [done|].
  cbn [sweep fold_left]. fold (sweep ps fread (fread x y (gr, recs))).
  apply not_elem_of_cons in Hin as [Hne Hin].
  destruct recs as [|p recs]; unfold fread at 2; cbn [fst snd].
  - by rewrite sweep_fread_end.
  - rewrite IH by done. apply cell_set_cell_ne.
    destruct (decide (i = x)) as [->|]; [|by left].
    destruct (decide (j = y)) as [->|]; [|by right]. done.
Qed.

Lemma wf_sweep_fread ps gr recs :
  well_formed gr = true -> well_formed (fst (sweep ps fread (gr, recs))) = true.
Proof.
  intros Hwf. apply (sweep_inv (fun st => well_formed (fst st) = true)); [done|].
  intros x y [g [|p r]] _ Hg; unfold fread; cbn [fst snd] in *; auto with grid.
Qed.

Lemma sweep_fread_prefix ps gr recs n i j :
  well_formed gr = true -> NoDup ps ->
  (forall x y, (x, y) ∈ ps -> IsValidPosition x y = true) ->
  ps !! n = Some (i, j) ->
  cell (fst (sweep ps fread (gr, recs))) i j = default (cell gr i j) (recs !! n).
Proof.
  revert gr recs n. induction ps as [|[x y] ps IH]; intros gr recs n Hwf Hnd Hval Hn; [done|].
  apply NoDup_cons in Hnd as [Hxy Hnd].
  cbn [sweep fold_left]. fold (sweep ps fread (fread x y (gr, recs))).
  destruct recs as [|p recs]; unfold fread at 2; cbn [fst snd].
  { rewrite sweep_fread_end. cbn [fst]. by rewrite lookup_nil. }
  destruct n as [|n]; cbn in Hn.
  - injection Hn as -> ->. rewrite sweep_fread_other by done. cbn.
    apply cell_set_cell_eq; [done|]. apply Hval. left.
  - rewrite (IH _ recs n); [| auto with grid | done | | done].
    2: { intros. apply Hval. by right. }
    cbn [lookup list_lookup]. f_equal. apply cell_set_cell_ne.
    assert ((i, j) ∈ ps) by (by eapply list_elem_of_lookup_2).
    destruct (decide (i = x)) as [->|]; [|by left].
    destruct (decide (j = y)) as [->|]; [|by right]. done.
Qed.

(** X14: [LoadFromFile] on a file that consists of whole records takes
    them in the order of the storage: the cell at place [n] of that order
    is overwritten by record [n] when the file has that many records, and
    keeps its state when it has fewer.  A file of [k] whole records
    overwrites the first [k] cells, an empty file none, and records
    beyond the last cell are not read.  A file that ends inside a record
    is not covered: files are sequences of whole records here. *)
Theorem load_overwrites_a_prefix filename gr fs recs n i j :
  well_formed gr = true -> can_open fs filename = true ->
  files fs !! filename = Some recs ->
  storage_order !! n = Some (i, j) ->
  well_formed (LoadFromFile filename gr fs) = true /\
  cell (LoadFromFile filename gr fs) i j = default (cell gr i j) (recs !! n).
Proof.
  intros Hwf Hopen Hfile Hn. unfold LoadFromFile, fopen_rb. rewrite Hopen, Hfile.
  rewrite (for_each_x_major _ _ fread). fold storage_order.
  split; [by apply wf_sweep_fread|].
  apply sweep_fread_prefix; [done|apply NoDup_storage_order| |done].
  intros x y. apply elem_of_storage_order.
Qed.

(** X15: saving replaces what the file held: after two saves the file
    holds the records of the grid saved last, one per cell in the order of
    the storage, whatever the first save wrote, and no other file of the
    host is touched. *)
Theorem last_save_wins filename gr1 gr2 fs other :
  can_open fs filename = true -> other <> filename ->
  files (SaveToFile filename gr2 (SaveToFile filename gr1 fs)) !! filename =
    Some (map (fun '(x, y) => cell gr2 x y) storage_order) /\
  files (SaveToFile filename gr2 (SaveToFile filename gr1 fs)) !! other =
    files fs !! other.
Proof.
  intros Hopen Hne.
  destruct (SaveToFile_opened filename gr1 fs Hopen) as (_ & Hcan & Hother).
  destruct (SaveToFile_opened filename gr2 (SaveToFile filename gr1 fs)) as (H1 & _ & H3).
  { by rewrite Hcan. }
  split; [exact H1|]. rewrite H3 by done. by apply Hother.
Qed.

(** *** The controls *)

Lemma when_inv {S} (P : S -> Prop) (c : bool) (f : S -> S) (s : S) :
  P s -> (forall s', P s' -> P (f s')) -> P (when c f s).
Proof. intros Hs Hf. unfold when. destruct c; auto. Qed.

Lemma HandleInput_inv (P : World -> Prop) inp w :
  (forall w t, t ∈ selectable -> P w -> P (set_currentType t w)) ->
  (forall w, P w -> P (set_brushSize (Z.max 1 (brushSize w - 1)) w)) ->
  (forall w, P w -> P (set_brushSize (Z.min 20 (brushSize w + 1)) w)) ->
  (forall w b, P w -> P (set_paused b w)) ->
  (forall w b, P w -> P (set_showDebug b w)) ->
  (forall w b, P w -> P (set_symmetryMode b w)) ->
  (forall w dx dy, P w -> P (set_camera (pan dx dy (camera w)) w)) ->
  (forall w wh, P w -> P (set_camera (zoom_by wh (camera w)) w)) ->
  (forall w vx vy, P w -> P (set_wind vx vy w)) ->
  (forall w, P w -> P (set_grid (InitializeGrid (grid w)) w)) ->
  (forall w, P w -> P (set_disk (SaveToFile save_name (grid w) (disk w)) w)) ->
  (forall w, P w -> P (set_grid (LoadFromFile save_name (grid w) (disk w)) w)) ->
  (forall w x y t, P w -> P (set_grid (PlaceParticles (brushSize w) x y t (grid w)) w)) ->
  P w -> P (HandleInput inp w).
Proof.
  intros Ht Hb1 Hb2 Hp Hd Hs Hpan Hzoom Hwind Hr Hsave Hload Hpaint Hw.
  assert (Hpaint' : forall w x y t, P w -> P (paint x y t w)).
  { intros w0 x y t H0. unfold paint. apply when_inv; auto. }
  unfold HandleInput. cbv zeta. apply Hwind.
  repeat (apply when_inv; [|intros w' Hw'; auto; try (apply Ht; [|done]; set_solver)]).
  - exact Hw.
  - apply when_inv; [|auto]. apply when_inv; auto.
Qed.

Lemma frame_inv (P : World -> Prop) inp st :
  (forall w, P w -> P (HandleInput inp w)) ->
  (forall w rs, P w -> P (set_grid (fst (UpdateParticles (grid w, rs))) w)) ->
  P (fst st) -> P (fst (frame inp st)).
Proof.
  intros Hh Hu Hst. unfold frame.
  destruct (paused (HandleInput inp (fst st))); [by apply Hh|].
  specialize (Hu (HandleInput inp (fst st)) (snd st) (Hh _ Hst)).
  by destruct (UpdateParticles _).
Qed.

Lemma run_inv (P : World -> Prop) inputs st :
  (forall inp st, P (fst st) -> P (fst (frame inp st))) ->
  P (fst st) -> P (fst (run inputs st)).
Proof.
  intros Hf. unfold run. revert st.
  induction inputs as [|inp inputs IH]; intros st Hst; [done|].
  cbn [fold_left]. apply IH. by apply Hf.
Qed.

(** X16: whatever the keys and the mouse do, frame after frame, the brush
    size stays between 1 and 20 and the kind under the brush is one of
    the nine kinds that a number key selects.  Smoke, Steam, Plant, Salt,
    Glass and Metal are never painted by the left button. *)
Theorem controls_stay_in_range inputs fs rs :
  1 <= brushSize (fst (run inputs (initial_world fs, rs))) <= 20 /\
  currentType (fst (run inputs (initial_world fs, rs))) ∈ selectable.
Proof.
  set (P := fun w : World => 1 <= brushSize w <= 20 /\ currentType w ∈ selectable).
  apply (run_inv P).
  - intros inp st. apply (frame_inv P).
    + intros w Hw. apply (HandleInput_inv P); try done.
      * intros w0 t Hin [? ?]. by split.
      * intros w0 [? ?]. split; [|done]. cbn [brushSize set_brushSize]. lia.
      * intros w0 [? ?]. split; [|done]. cbn [brushSize set_brushSize]. lia.
    + done.
  - split; [cbn [brushSize initial_world fst]; lia|].
    cbn [currentType initial_world fst]. set_solver.
Qed.

Lemma wf_InitializeGrid gr :
  well_formed gr = true -> well_formed (InitializeGrid gr) = true.
Proof.
  intros Hwf. unfold InitializeGrid.
  match goal with |- context [for_each _ (fun x gr => for_each _ (fun y gr0 => @?f x y gr0) gr) _] =>
    rewrite (for_each_x_major _ _ f) end.
  apply (sweep_inv (fun gr => well_formed gr = true)); [done|].
  intros x y g _ Hg. cbv beta zeta.
  destruct (y =? GRID_HEIGHT - 1); destruct ((x =? 0) || (x =? GRID_WIDTH - 1));
    auto 20 with grid.
Qed.

Lemma wf_LoadFromFile filename gr fs :
  well_formed gr = true -> well_formed (LoadFromFile filename gr fs) = true.
Proof.
  intros Hwf. unfold LoadFromFile. destruct (fopen_rb filename fs); [|done].
  rewrite (for_each_x_major _ _ fread). by apply wf_sweep_fread.
Qed.

(** X17: a grid that has its dimensions keeps them through every frame,
    whatever the input: resetting, loading any file, painting, erasing and
    ticking all leave a grid of [GRID_WIDTH] columns of [GRID_HEIGHT]
    cells, so that the guard [IsValidPosition] keeps every access in
    range. *)
Theorem frames_keep_the_dimensions inputs w rs :
  well_formed (grid w) = true ->
  well_formed (grid (fst (run inputs (w, rs)))) = true.
Proof.
  intros Hwf. set (P := fun w : World => well_formed (grid w) = true).
  apply (run_inv P); [|done].
  intros inp st. apply (frame_inv P).
  - intros w0 Hw0. apply (HandleInput_inv P); try done.
    + intros w1 Hw1. by apply wf_InitializeGrid.
    + intros w1 Hw1. by apply wf_LoadFromFile.
    + intros w1 x y t Hw1. by apply wf_PlaceParticles.
  - intros w0 rs0 Hw0. by apply wf_UpdateParticles.
Qed.

(** X26: the zoom of the camera, which starts at 1, never compares below
    0.1 or above 3, whatever the wheel reports, frame after frame: each
    change of the zoom is followed by the two tests that clamp it. *)
Theorem zoom_stays_clamped inputs fs rs :
  F32.ltb (zoom (camera (fst (run inputs (initial_world fs, rs))))) (F32.lit 1 10) = false /\
  F32.gtb (zoom (camera (fst (run inputs (initial_world fs, rs))))) (F32.of_int 3) = false.
Proof.
  set (P := fun w : World =>
    F32.ltb (zoom (camera w)) (F32.lit 1 10) = false /\
    F32.gtb (zoom (camera w)) (F32.of_int 3) = false).
  apply (run_inv P).
  - intros inp st. apply (frame_inv P).
    + intros w Hw. apply (HandleInput_inv P); try done.
      intros w0 wh _. unfold P, zoom_by. cbn [camera set_camera zoom].
      set (z := F32.add (zoom (camera w0)) (F32.mul wh (F32.lit 5 100))).
      destruct (F32.ltb z (F32.lit 1 10)) eqn:E1.
      * assert (E2 : F32.gtb (F32.lit 1 10) (F32.of_int 3) = false)
          by (vm_compute; reflexivity).
        rewrite E2. split; [vm_compute; reflexivity|exact E2].
      * destruct (F32.gtb z (F32.of_int 3)) eqn:E2; [|by split].
        split; vm_compute; reflexivity.
    + done.
  - split; vm_compute; reflexivity.
Qed.

(** X18: with the symmetry mode on, a held button stamps two discs: the
    disc around the cell under the mouse and the disc around its mirror
    image in the vertical axis of the grid, [(GRID_WIDTH - 1 - x, y)].
    Every cell of the grid within the brush size of either centre is
    overwritten, and no other cell changes. *)
Theorem symmetry_stamps_the_mirror_disc x y t w i j :
  well_formed (grid w) = true -> 0 <= brushSize w <= 20 ->
  IsValidPosition x y = true -> symmetryMode w = true ->
  cell (grid (paint x y t w)) i j =
  if IsValidPosition i j &&
     (in_disc x y (brushSize w) i j || in_disc (GRID_WIDTH - 1 - x) y (brushSize w) i j)
  then place t (cell (grid w) i j)
  else cell (grid w) i j.
Proof.
  intros Hwf Hb Hv Hs. unfold paint, when. cbn [symmetryMode set_grid]. rewrite Hs.
  cbn [grid set_grid brushSize].
  assert (Hv' : IsValidPosition (GRID_WIDTH - 1 - x) y = true).
  { apply valid_spec in Hv. apply valid_spec. lia. }
  rewrite cell_PlaceParticles by (done || by apply wf_PlaceParticles).
  rewrite cell_PlaceParticles by done.
  destruct (IsValidPosition i j); cbn [andb]; [|done].
  destruct (in_disc x y (brushSize w) i j), (in_disc (GRID_WIDTH - 1 - x) y (brushSize w) i j);
    cbn [orb]; first [done | apply place_idem].
Qed.

(** *** Drawing *)

Lemma sweep_emits {A} ps (f : Z -> Z -> list A -> list A) (emit : Z -> Z -> list A) out :
  (forall x y out, f x y out = out ++ emit x y) ->
  sweep ps f out = out ++ flat_map (fun '(x, y) => emit x y) ps.
Proof.
  intros Hf. revert out. induction ps as [|[x y] ps IH]; intros out.
  { cbn. by rewrite app_nil_r. }
  cbn [sweep fold_left flat_map]. fold (sweep ps f (f x y out)).
  rewrite IH, Hf. by rewrite <- app_assoc.
Qed.

(** [DrawGrid] draws the cells of the visible range one after the other. *)
Lemma DrawGrid_cells w :
  exists startX startY endX endY,
    startX = Z.max 0 (float_to_int (F32.div (SFopp (target_x (camera w)))
                                            (F32.of_int CELL_SIZE))) /\
    startY = Z.max 0 (float_to_int (F32.div (SFopp (target_y (camera w)))
                                            (F32.of_int CELL_SIZE))) /\
    endX = Z.min GRID_WIDTH
             (float_to_int
                (F32.add (F32.div (F32.sub (F32.of_int SCREEN_WIDTH) (target_x (camera w)))
                                  (F32.of_int CELL_SIZE)) (F32.of_int 1))) /\
    endY = Z.min GRID_HEIGHT
             (float_to_int
                (F32.add (F32.div (F32.sub (F32.of_int SCREEN_HEIGHT) (target_y (camera w)))
                                  (F32.of_int CELL_SIZE)) (F32.of_int 1))) /\
    DrawGrid w =
    flat_map (fun '(x, y) =>
      if negb (is_type EMPTY (cell (grid w) x y))
      then draw_cell (showDebug w) x y (cell (grid w) x y) else [])
      (x_major (upto startX endX) (upto startY endY)).
Proof.
  eexists _, _, _, _. repeat (split; [reflexivity|]).
  unfold DrawGrid. cbv zeta.
  match goal with |- context [for_each _ (fun x out => for_each _ (fun y out0 => @?f x y out0) out) _] =>
    rewrite (for_each_x_major _ _ f) end.
  rewrite (sweep_emits _ _ (fun x y =>
    if negb (is_type EMPTY (cell (grid w) x y))
    then draw_cell (showDebug w) x y (cell (grid w) x y) else [])); [done|].
  intros x y out. destruct (negb _); [done|by rewrite app_nil_r].
Qed.

(** X19: wherever the camera is, everything that [DrawGrid] draws is drawn
    for a cell of the grid that is not Empty: the indices of the two
    loops stay in range, an Empty cell is skipped, and the square of a
    cell has the colour of its kind in the table, tinted by its
    temperature. *)
Theorem only_cells_of_the_grid_are_drawn w d :
  d ∈ DrawGrid w ->
  exists i j,
    IsValidPosition i j = true /\ type (cell (grid w) i j) <> EMPTY /\
    d ∈ draw_cell (showDebug w) i j (cell (grid w) i j).
Proof.
  destruct (DrawGrid_cells w) as (sx & sy & ex & ey & Hsx & Hsy & Hex & Hey & ->).
  intros Hd. apply list_elem_of_In, in_flat_map in Hd as ([i j] & Hin & Hd).
  apply list_elem_of_In, elem_of_x_major in Hin as [Hi Hj].
  apply elem_of_upto in Hi, Hj.
  exists i, j. split; [apply valid_spec; lia|].
  destruct (is_type EMPTY (cell (grid w) i j)) eqn:E; cbn [negb] in Hd; [done|].
  apply bool_decide_eq_false in E. split; [done|]. by apply list_elem_of_In.
Qed.

Lemma draw_cell_look_alike debug x y p q :
  look_alike p q -> draw_cell debug x y p = draw_cell debug x y q.
Proof. intros (Ht & Htemp & Hvx & Hvy). unfold draw_cell. by rewrite Ht, Htemp, Hvx, Hvy. Qed.

(** X20: [DrawGrid] never reads the colour that a cell stores, nor its
    lifetime or its processed flag: under the same camera and debug mode,
    two grids whose cells agree on the kind, the temperature and the
    velocity are drawn alike.  The colour that [PlaceParticles] and the
    salt reaction write is never shown. *)
Theorem stored_colour_is_never_drawn w w' :
  showDebug w = showDebug w' -> camera w = camera w' ->
  (forall i j, look_alike (cell (grid w) i j) (cell (grid w') i j)) ->
  DrawGrid w = DrawGrid w'.
Proof.
  intros Hdebug Hcam Hlike.
  destruct (DrawGrid_cells w) as (sx & sy & ex & ey & Hsx & Hsy & Hex & Hey & ->).
  destruct (DrawGrid_cells w') as (sx' & sy' & ex' & ey' & Hsx' & Hsy' & Hex' & Hey' & ->).
  rewrite <- Hcam in *. subst. apply flat_map_ext. intros [i j].
  rewrite Hdebug. rewrite (draw_cell_look_alike _ _ _ _ _ (Hlike i j)).
  unfold is_type. by rewrite (proj1 (Hlike i j)).
Qed.

(** X21: with the camera target where [main] puts it, at the origin, and a
    grid no larger than the window, every cell that is not Empty is drawn
    as a square of [CELL_SIZE] pixels at [CELL_SIZE] times its
    position. *)
Theorem camera_at_origin_draws_every_cell w i j :
  GRID_WIDTH <= 161 -> GRID_HEIGHT <= 91 ->
  target_x (camera w) = F32.of_int 0 -> target_y (camera w) = F32.of_int 0 ->
  IsValidPosition i j = true -> type (cell (grid w) i j) <> EMPTY ->
  DrawRectangle (i * CELL_SIZE) (j * CELL_SIZE) CELL_SIZE CELL_SIZE
    (GetTemperatureColor (Props.color (particleProps (type (cell (grid w) i j))))
                         (temperature (cell (grid w) i j)))
  ∈ DrawGrid w.
Proof.
  intros HW HH Hx Hy Hv Ht.
  destruct (DrawGrid_cells w) as (sx & sy & ex & ey & Hsx & Hsy & Hex & Hey & ->).
  rewrite Hx in Hsx, Hex. rewrite Hy in Hsy, Hey.
  assert (H0 : float_to_int (F32.div (SFopp (F32.of_int 0)) (F32.of_int CELL_SIZE)) = 0)
    by (vm_compute; reflexivity).
  assert (H1 : float_to_int (F32.add (F32.div (F32.sub (F32.of_int SCREEN_WIDTH) (F32.of_int 0))
                 (F32.of_int CELL_SIZE)) (F32.of_int 1)) = 161) by (vm_compute; reflexivity).
  assert (H2 : float_to_int (F32.add (F32.div (F32.sub (F32.of_int SCREEN_HEIGHT) (F32.of_int 0))
                 (F32.of_int CELL_SIZE)) (F32.of_int 1)) = 91) by (vm_compute; reflexivity).
  rewrite H0 in Hsx, Hsy. rewrite H1 in Hex. rewrite H2 in Hey.
  apply valid_spec in Hv.
  apply list_elem_of_In, in_flat_map. exists (i, j). split.
  - apply list_elem_of_In, elem_of_x_major. rewrite !elem_of_upto. lia.
  - unfold is_type.
    rewrite (bool_decide_eq_false_2 (type (cell (grid w) i j) = EMPTY)) by done.
    cbn [negb]. unfold draw_cell. left. reflexivity.
Qed.

(** X22: the user interface names the sixteen kinds by sixteen different
    labels. *)
Theorem kinds_have_distinct_names t t' :
  GetParticleTypeName t = GetParticleTypeName t' -> t = t'.
Proof. destruct t, t'; first [reflexivity | discriminate]. Qed.

(** *** When a particle moves *)

Lemma swap_leaves_empty gr x y tx ty :
  well_formed gr = true -> IsValidPosition x y = true ->
  is_free gr (tx, ty) = true ->
  type (cell (reset_velocity (swap gr x y tx ty) x y) x y) = EMPTY.
Proof.
  intros Hwf Hv Hf. apply andb_true_iff in Hf as [Hvt He]. cbn [fst snd] in *.
  apply bool_decide_eq_true in He.
  rewrite cell_reset_velocity by auto with grid.
  rewrite (bool_decide_eq_true_2 (x = x /\ y = y)) by done. rewrite Hv. cbn [andb].
  cbn [type set_velocity_y set_velocity_x].
  rewrite cell_swap by done.
  case_bool_decide as E; [by destruct E as [-> ->]|].
  by rewrite (bool_decide_eq_true_2 (x = x /\ y = y)) by done.
Qed.

Lemma try_sides_type gr x y ty dir :
  well_formed gr = true -> IsValidPosition x y = true ->
  dir = -1 \/ dir = 1 ->
  type (cell (try_sides x y ty dir gr) x y) =
  if is_free gr (x - 1, ty) || is_free gr (x + 1, ty) then EMPTY else type (cell gr x y).
Proof.
  intros Hwf Hv Hdir. unfold try_sides.
  change (IsValidPosition (x + dir) ty && is_type EMPTY (cell gr (x + dir) ty))
    with (is_free gr (x + dir, ty)).
  change (IsValidPosition (x - dir) ty && is_type EMPTY (cell gr (x - dir) ty))
    with (is_free gr (x - dir, ty)).
  destruct Hdir as [-> | ->].
  - replace (x + -1) with (x - 1) by lia. replace (x - -1) with (x + 1) by lia.
    destruct (is_free gr (x - 1, ty)) eqn:E1; cbn [orb].
    { by apply swap_leaves_empty. }
    destruct (is_free gr (x + 1, ty)) eqn:E2; [|done]. by apply swap_leaves_empty.
  - destruct (is_free gr (x + 1, ty)) eqn:E1.
    { rewrite orb_true_r. by apply swap_leaves_empty. }
    rewrite orb_false_r.
    destruct (is_free gr (x - 1, ty)) eqn:E2; [|done]. by apply swap_leaves_empty.
Qed.

Lemma direction_drawn rs :
  fst (GetRandomValue 0 1 rs) * 2 - 1 = -1 \/ fst (GetRandomValue 0 1 rs) * 2 - 1 = 1.
Proof.
  destruct rs as [|v0 rs0]; cbn [GetRandomValue fst]; [lia|].
  pose proof (Z.mod_pos_bound v0 (1 - 0 + 1) ltac:(lia)). lia.
Qed.

(** X23: the movement stage moves a particle whenever one of the cells it
    can move to is free, and only then: the cell below for every movable
    kind, also the cells beside it for Water and Oil, also the cells
    diagonally below for Sand.  After the stage the visited cell is Empty
    when a target was free, and holds the particle as before when none
    was; the random draw only chooses between two free sides. *)
Theorem a_particle_moves_whenever_a_target_is_free x y gr rs :
  well_formed gr = true -> IsValidPosition x y = true ->
  type (cell (fst (UpdatePhysics x y (gr, rs))) x y) =
  if has_free_target gr x y then EMPTY else type (cell gr x y).
Proof.
  intros Hwf Hv. unfold has_free_target, targets, UpdatePhysics.
  destruct (Props.movable (particleProps (type (cell gr x y)))) eqn:Hm; cbn [negb]; [|done].
  cbn [existsb].
  assert (Hbelow : (y <? GRID_HEIGHT - 1) && is_type EMPTY (cell gr x (y + 1)) =
                   is_free gr (x, y + 1)).
  { unfold is_free. cbn [fst snd]. f_equal. apply valid_spec in Hv.
    destruct (y <? GRID_HEIGHT - 1) eqn:E.
    - symmetry. apply valid_spec. apply Z.ltb_lt in E. lia.
    - symmetry. apply not_true_is_false. intros H%valid_spec. apply Z.ltb_ge in E. lia. }
  rewrite Hbelow.
  destruct (is_free gr (x, y + 1)) eqn:Ef; cbn [orb fst].
  { by apply swap_leaves_empty. }
  pose proof (direction_drawn rs) as Hdir.
  unfold is_type at 1 2 3.
  destruct (type (cell gr x y)) eqn:Ht; try discriminate Hm;
    repeat case_bool_decide; try done; cbn [orb existsb fst].
  all: destruct (GetRandomValue 0 1 rs) as [v rs1]; cbn [fst] in *;
       rewrite try_sides_type by done; rewrite Ht; by rewrite orb_false_r.
Qed.

(** *** Cells that only take part in the diffusion *)

Lemma new_temperature_ext x y gr gr' :
  (forall i j, temperature (cell gr i j) = temperature (cell gr' i j)) ->
  new_temperature x y gr = new_temperature x y gr'.
Proof.
  intros H. unfold new_temperature. rewrite (H x y). f_equal.
  erewrite fold_left_pointwise; [reflexivity|].
  intros [a c] [dx dy]. cbn beta iota. by rewrite H.
Qed.

(** X24: a cell of a kind that neither moves nor interacts (Empty, Wall,
    Ice, Wood, Plant, Glass, Metal) and does not expire is updated by
    the diffusion alone: its flag is set, its temperature becomes the one
    that [UpdateTemperature] computes from the grid, no other cell
    changes and no random value is drawn.  Empty cells conduct heat like
    any other cell. *)
Theorem still_cells_only_exchange_heat x y gr rs i j :
  well_formed gr = true -> enters x y gr = true ->
  inert (type (cell gr x y)) = true -> lifetime (cell gr x y) <= 0 ->
  snd (UpdateParticle x y (gr, rs)) = rs /\
  cell (fst (UpdateParticle x y (gr, rs))) i j =
  if bool_decide (i = x /\ j = y)
  then set_temperature (new_temperature x y gr) (set_updated true (cell gr x y))
  else cell gr i j.
Proof.
  intros Hwf He Hin HL. apply andb_true_iff in He as [Hv Hu]. apply negb_true_iff in Hu.
  unfold UpdateParticle. rewrite Hv, Hu. cbn [negb orb].
  set (g1 := update gr x y (set_updated true)).
  assert (Hwf1 : well_formed g1 = true) by (subst g1; auto with grid).
  assert (Hc1 : cell g1 x y = set_updated true (cell gr x y)).
  { subst g1. by rewrite cell_update_eq. }
  rewrite Hc1. cbn [lifetime set_updated].
  rewrite (proj2 (Z.ltb_ge 0 (lifetime (cell gr x y)))) by lia.
  rewrite pipeline_inert; [|done|by rewrite Hc1].
  cbn [fst snd]. split; [done|].
  rewrite cell_UpdateTemperature by done. rewrite Hv, andb_true_r.
  rewrite (new_temperature_ext x y g1 gr).
  2: { intros a b. subst g1. rewrite cell_update by done.
       destruct (bool_decide (a = x /\ b = y) && IsValidPosition x y) eqn:E; [|done].
       apply andb_true_iff in E as [E _]. by apply bool_decide_eq_true in E as [-> ->]. }
  case_bool_decide as Hij; [by rewrite Hc1|].
  subst g1. apply cell_update_ne.
  destruct (decide (i = x)) as [->|]; [|by left].
  destruct (decide (j = y)) as [->|]; [|by right]. tauto.
Qed.

(** *** The processed flags *)

(** X25: a tick does not depend on the processed flags that the grid
    holds when the tick starts, for instance those of a loaded file: two
    grids that differ in their flags only give the same grid and leave the
    same random values. *)
Theorem tick_ignores_stale_flags gr gr' rs :
  well_formed gr = true -> well_formed gr' = true ->
  (forall i j, set_updated false (cell gr i j) = set_updated false (cell gr' i j)) ->
  UpdateParticles (gr, rs) = UpdateParticles (gr', rs).
Proof.
  intros Hwf Hwf' Hsame. rewrite !UpdateParticles_sweep. cbn [fst snd].
  f_equal. f_equal. apply grid_ext; auto with grid.
  intros i j _. by rewrite !cell_reset_updated.
Qed.

(** *** Grids that differ in one field of one cell *)

Lemma recoloured_looks_alike gr x y c i j :
  well_formed gr = true ->
  look_alike (cell gr i j) (cell (update gr x y (set_color c)) i j).
Proof.
  intros Hwf. rewrite cell_update by done.
  destruct (bool_decide (i = x /\ j = y) && IsValidPosition x y) eqn:E; [|done].
  apply andb_true_iff in E as [E _]. by apply bool_decide_eq_true in E as [-> ->].
Qed.

Lemma flagged_differs_in_flag gr x y v i j :
  well_formed gr = true ->
  set_updated false (cell gr i j) =
  set_updated false (cell (update gr x y (set_updated v)) i j).
Proof.
  intros Hwf. rewrite cell_update by done.
  destruct (bool_decide (i = x /\ j = y) && IsValidPosition x y) eqn:E; [|done].
  apply andb_true_iff in E as [E _]. by apply bool_decide_eq_true in E as [-> ->].
Qed.

(** *** Erasing *)

(** X27: the table of the kinds has no entry for Empty, so the record that
    its lookup yields is the zero record: a cell erased with the right
    mouse button is an Empty cell at 0 degrees with lifetime 0 and the
    colour (0, 0, 0, 0), not the ambient Empty cell at 20 degrees with
    lifetime -1 that [InitializeGrid] leaves. *)
Theorem erasing_leaves_cells_at_zero_degrees brushSize x y gr i j :
  well_formed gr = true -> 0 <= brushSize <= 20 -> IsValidPosition x y = true ->
  IsValidPosition i j = true -> in_disc x y brushSize i j = true ->
  cell (PlaceParticles brushSize x y EMPTY gr) i j =
    mkParticle EMPTY (mkColor 0 0 0 0) false (F32.of_int 0) (F32.of_int 0) (F32.of_int 0) 0
               (ghost_id (cell gr i j)) /\
  temperature (initial_particle i j (ghost_id (cell gr i j))) = F32.of_int 20 /\
  lifetime (initial_particle i j (ghost_id (cell gr i j))) = -1.
Proof.
  intros Hwf Hb Hv Hij Hd. split.
  - rewrite cell_PlaceParticles by done. rewrite Hij, Hd. cbn [andb].
    by destruct (cell gr i j).
  - unfold initial_particle. by destruct (on_border i j).
Qed.

End Theory.

Section Program.
#[local] Existing Instance screen.

(** ** The program's grid: evaluations, witnesses and counterexamples *)

(** C1: at an interior cell at 30 degrees among cells at 20 degrees the
    code averages ten terms, the cell's own temperature twice, and stores
    28.35; the mean of the specification, with the own temperature once,
    gives 28.17. *)
Theorem diffusion_counts_own_temperature_twice :
  terms_averaged 80 45 = 10 /\
  new_temperature 80 45 warm_cell = S754_finite false 14863565 (-19) /\
  spec_new_temperature 80 45 warm_cell = S754_finite false 14770358 (-19).
Proof. vm_compute. repeat split; reflexivity. Qed.

(** C2, the claim as stated fails: a Sand particle at 1701 degrees above
    an Empty cell is moved one row down by the tick and is still Sand at
    1701 degrees, the cell it left being Empty; and a Sand particle at
    1701 degrees that cannot move (in the bottom-left corner) is still
    Sand after the tick, the diffusion stage having cooled it before the
    reaction pass. *)
Lemma hot_sand_stays_sand :
  type (cell (fst (UpdateParticles (falling_hot_sand, []))) 80 (10 + 1)) = SAND /\
  temperature (cell (fst (UpdateParticles (falling_hot_sand, []))) 80 (10 + 1)) =
    F32.of_int 1701 /\
  type (cell (fst (UpdateParticles (falling_hot_sand, []))) 80 10) = EMPTY /\
  type (cell (fst (UpdateParticles (corner_hot_sand, []))) 0 89) = SAND.
Proof.
  assert (H1 : lone_sand falling_hot_sand 80 10 = true) by (vm_compute; reflexivity).
  assert (H2 : clear_below falling_hot_sand 80 10 1 = true) by (vm_compute; reflexivity).
  destruct (lone_sand_tick falling_hot_sand [] 80 10 1 H1 ltac:(lia) H2)
    as (_ & _ & _ & He & Hc).
  split; [rewrite Hc; vm_compute; reflexivity|].
  split; [rewrite Hc; vm_compute; reflexivity|].
  split; [exact He|].
  assert (H3 : head scan_order = Some (0, 89)) by (vm_compute; reflexivity).
  assert (H4 : well_formed corner_hot_sand = true) by (vm_compute; reflexivity).
  assert (H5 : forallb (fun '(i, j) => negb (updated (cell corner_hot_sand i j)))
                       storage_order = true) by (vm_compute; reflexivity).
  assert (H6 : settledb (fst (UpdateParticle 0 89 (corner_hot_sand, []))) 0 89 = true)
    by (vm_compute; reflexivity).
  assert (H7 : type (cell (fst (UpdateParticle 0 89 (corner_hot_sand, []))) 0 89) = SAND)
    by (vm_compute; reflexivity).
  exact (eq_trans (f_equal type (first_visited_settles corner_hot_sand [] 0 89 H3 H4 H5 H6)) H7).
Qed.

Lemma resting_hot_sand_becomes_glass_witness :
  well_formed resting_hot_sand = true /\ IsValidPosition 80 88 = true /\
  type (cell resting_hot_sand 80 88) = SAND /\
  updated (cell resting_hot_sand 80 88) = false /\
  lifetime (cell resting_hot_sand 80 88) <= 0 /\
  sand_blocked resting_hot_sand 80 88 = true /\
  F32.gtb (new_temperature 80 88 (update resting_hot_sand 80 88 (set_updated true)))
          (F32.of_int 1700) = true /\
  type (cell (fst (UpdateParticle 80 88 (resting_hot_sand, []))) 80 88) = GLASS.
Proof.
  assert (H1 : well_formed resting_hot_sand = true) by (vm_compute; reflexivity).
  assert (H2 : IsValidPosition 80 88 = true) by (vm_compute; reflexivity).
  assert (H3 : type (cell resting_hot_sand 80 88) = SAND) by (vm_compute; reflexivity).
  assert (H4 : updated (cell resting_hot_sand 80 88) = false) by (vm_compute; reflexivity).
  assert (H5 : lifetime (cell resting_hot_sand 80 88) <= 0) by (vm_compute; discriminate).
  assert (H6 : sand_blocked resting_hot_sand 80 88 = true) by (vm_compute; reflexivity).
  assert (H7 : F32.gtb (new_temperature 80 88 (update resting_hot_sand 80 88 (set_updated true)))
                       (F32.of_int 1700) = true) by (vm_compute; reflexivity).
  repeat (split; [assumption|]).
  exact (proj1 (resting_hot_sand_becomes_glass 80 88 resting_hot_sand [] H1 H2 H3 H4 H5 H6 H7)).
Defined.

Lemma sand_falls_one_row_per_tick_witness :
  lone_sand falling_sand 80 10 = true /\ clear_below falling_sand 80 10 78 = true /\
  0 <= 78 <= 78 /\
  type (cell (fst (ticks (Z.to_nat 78) (falling_sand, []))) 80 (10 + 78)) = SAND.
Proof.
  assert (H1 : lone_sand falling_sand 80 10 = true) by (vm_compute; reflexivity).
  assert (H2 : clear_below falling_sand 80 10 78 = true) by (vm_compute; reflexivity).
  assert (H3 : 0 <= 78 <= 78) by lia.
  split; [exact H1|]. split; [exact H2|]. split; [exact H3|].
  exact (proj1 (sand_falls_one_row_per_tick falling_sand [] 80 10 78 78 H1 H2 H3)).
Defined.

(** C4: in the initial box with one Sand particle at (80, 10), every cell
    labelled, one tick runs the diffusion, interaction and reaction stages
    twice on the Empty occupant that starts below the Sand (label 7211)
    and never on the Sand (label 7210).  Row 11 is visited first and the
    Empty occupant goes through the stages there; when the Sand is
    visited it is exchanged with that occupant, and the stages of the
    Sand's update then run at (80, 10), on the occupant that the exchange
    put there.  The guard lets each of the two through once. *)
Theorem moved_sand_leaves_its_stages_to_the_cell_below :
  labelled labelled_falling_sand = true /\
  (ghost_id (cell labelled_falling_sand 80 10), type (cell labelled_falling_sand 80 10)) =
    (7210, SAND) /\
  (ghost_id (cell labelled_falling_sand 80 11), type (cell labelled_falling_sand 80 11)) =
    (7211, EMPTY) /\
  map (count_occ Z.eq_dec (staged scan_order (reset_updated labelled_falling_sand, [])))
      [7211; 7210] = [2; 0]%nat.
Proof.
  split; [vm_compute; reflexivity|]. split; [vm_compute; reflexivity|].
  split; vm_compute; reflexivity.
Qed.

Lemma tick_processes_each_occupant_at_most_once_witness :
  well_formed labelled_box = true /\ distinct_labels labelled_box /\
  NoDup (entered scan_order (reset_updated labelled_box, [])).
Proof.
  assert (H1 : well_formed labelled_box = true) by (vm_compute; reflexivity).
  assert (H2 : distinct_labels labelled_box).
  { apply labelled_distinct. vm_compute. reflexivity. }
  split; [exact H1|]. split; [exact H2|].
  exact (proj2 (proj2 (proj2 (proj2
    (tick_processes_each_occupant_at_most_once labelled_box [] H1 H2))))).
Defined.

Lemma save_then_load_round_trip_witness :
  well_formed (InitializeGrid default_grid) = true /\
  can_open empty_host "sandbox_save.dat" = true /\
  cell (LoadFromFile "sandbox_save.dat" (InitializeGrid default_grid)
          (SaveToFile "sandbox_save.dat" salty_water empty_host)) 81 45 =
  cell salty_water 81 45.
Proof.
  assert (H1 : well_formed (InitializeGrid default_grid) = true) by (vm_compute; reflexivity).
  assert (H2 : can_open empty_host "sandbox_save.dat" = true) by reflexivity.
  split; [exact H1|]. split; [exact H2|].
  apply (proj2 (save_then_load_round_trip "sandbox_save.dat" salty_water
                  (InitializeGrid default_grid) empty_host H1 H2)).
  vm_compute. reflexivity.
Defined.

Lemma paint_stamps_a_disc_witness :
  well_formed box = true /\ 0 <= 3 <= 20 /\ IsValidPosition 80 45 = true /\
  cell (PlaceParticles 3 80 45 LAVA box) 82 47 =
  (if IsValidPosition 82 47 && in_disc 80 45 3 82 47
   then fresh LAVA (ghost_id (cell box 82 47)) else cell box 82 47).
Proof.
  assert (H1 : well_formed box = true) by (vm_compute; reflexivity).
  assert (H2 : 0 <= 3 <= 20) by lia.
  assert (H3 : IsValidPosition 80 45 = true) by (vm_compute; reflexivity).
  split; [exact H1|]. split; [exact H2|]. split; [exact H3|].
  exact (proj1 (paint_stamps_a_disc 3 80 45 LAVA box H1 H2) H3 82 47).
Defined.

(** C8, the claim as stated fails: in the corner scene the reaction pass
    of the tick runs on the Water cell at (1, 88) while its neighbour
    (2, 88) is Salt, and sets the tint; the tick goes on, the Lava above
    the Water turns it into Steam and the Sand above the dissolved Salt
    falls into its place, so that after the tick the Water cell is not
    Water and the place of the Salt is not Empty.  The positions visited
    before (1, 88) are the first 161 of the scan. *)
Lemma salt_place_is_refilled_and_water_boiled :
  scan_order !! 161%nat = Some (1, 88) /\
  option_map (fun g => (type (cell g 1 88), type (cell g 2 88)))
    (reaction_input 1 88
       (sweep (take 161 scan_order) UpdateParticle (reset_updated crowded_corner, []))) =
    Some (WATER, SALT) /\
  (let after := fst (UpdateParticles (crowded_corner, [])) in
   (type (cell after 1 88), color (cell after 1 88), type (cell after 2 88))) =
    (STEAM, SKYBLUE, SAND).
Proof.
  split; [vm_compute; reflexivity|]. split; vm_compute; reflexivity.
Qed.

Lemma water_dissolves_adjacent_salt_witness :
  well_formed salty_water = true /\ type (cell salty_water 80 45) = WATER /\
  (1, 0) ∈ neighborhood /\ type (cell salty_water (80 + 1) (45 + 0)) = SALT /\
  type (cell (ProcessChemicalReactions 80 45 salty_water) (80 + 1) (45 + 0)) = EMPTY /\
  color (cell (ProcessChemicalReactions 80 45 salty_water) 80 45) = SKYBLUE /\
  type (cell (ProcessChemicalReactions 80 45 salty_water) 80 45) = WATER.
Proof.
  assert (H1 : well_formed salty_water = true) by (vm_compute; reflexivity).
  assert (H2 : type (cell salty_water 80 45) = WATER) by (vm_compute; reflexivity).
  assert (H3 : (1, 0) ∈ neighborhood) by (unfold neighborhood; repeat constructor).
  assert (H4 : type (cell salty_water (80 + 1) (45 + 0)) = SALT) by (vm_compute; reflexivity).
  split; [exact H1|]. split; [exact H2|]. split; [exact H3|]. split; [exact H4|].
  exact (water_dissolves_adjacent_salt 80 45 salty_water 1 0 H1 H2 H3 H4).
Defined.

Lemma interactions_and_reactions_write_the_kind_only_witness :
  well_formed burning = true /\
  fields_kept (cell burning 80 44)
              (cell (fst (HandleParticleInteractions 80 45 (burning, [0; 0]))) 80 44).
Proof.
  assert (H1 : well_formed burning = true) by (vm_compute; reflexivity).
  split; [exact H1|].
  exact (proj1 (proj1
    (interactions_and_reactions_write_the_kind_only 80 45 burning [0; 0] 80 44 H1))).
Defined.

Lemma unopenable_file_is_skipped_witness :
  can_open closed_host "sandbox_save.dat" = false /\
  files empty_host !! "sandbox_save.dat" = None /\
  (fopen_wb "sandbox_save.dat" closed_host = None /\
   fopen_rb "sandbox_save.dat" closed_host = None) /\
  fopen_rb "sandbox_save.dat" empty_host = None /\
  SaveToFile "sandbox_save.dat" salty_water closed_host = closed_host /\
  LoadFromFile "sandbox_save.dat" salty_water closed_host = salty_water /\
  LoadFromFile "sandbox_save.dat" salty_water empty_host = salty_water.
Proof.
  assert (H1 : can_open closed_host "sandbox_save.dat" = false) by reflexivity.
  assert (H2 : files empty_host !! "sandbox_save.dat" = None) by apply lookup_empty.
  destruct (unopenable_file_is_skipped "sandbox_save.dat" salty_water closed_host)
    as (Hc & _ & Hs & Hl).
  destruct (unopenable_file_is_skipped "sandbox_save.dat" salty_water empty_host)
    as (_ & Hm & _ & Hl').
  split; [exact H1|]. split; [exact H2|]. split; [exact (Hc H1)|].
  split; [exact (Hm H2)|].
  split; [exact (Hs (proj1 (Hc H1)))|].
  split; [exact (Hl (proj2 (Hc H1)))|].
  exact (Hl' (Hm H2)).
Defined.



(** ** Further properties, on the grid of the program *)

Lemma reset_rebuilds_the_box_witness :
  well_formed salty_water = true /\ IsValidPosition 80 45 = true /\
  well_formed (InitializeGrid salty_water) = true /\
  cell (InitializeGrid salty_water) 80 45 =
    initial_particle 80 45 (ghost_id (cell salty_water 80 45)).
Proof.
  assert (H1 : well_formed salty_water = true) by (vm_compute; reflexivity).
  assert (H2 : IsValidPosition 80 45 = true) by (vm_compute; reflexivity).
  split; [exact H1|]. split; [exact H2|].
  exact (reset_rebuilds_the_box salty_water 80 45 H1 H2).
Defined.

Lemma tick_permutes_the_occupants_witness :
  well_formed labelled_box = true /\ distinct_labels labelled_box /\
  IsValidPosition 80 45 = true /\
  distinct_labels (fst (UpdateParticles (labelled_box, []))) /\
  exists i' j', IsValidPosition i' j' = true /\
    ghost_id (cell (fst (UpdateParticles (labelled_box, []))) i' j') =
    ghost_id (cell labelled_box 80 45).
Proof.
  assert (H1 : well_formed labelled_box = true) by (vm_compute; reflexivity).
  assert (H2 : distinct_labels labelled_box).
  { apply labelled_distinct. vm_compute. reflexivity. }
  assert (H3 : IsValidPosition 80 45 = true) by (vm_compute; reflexivity).
  split; [exact H1|]. split; [exact H2|]. split; [exact H3|].
  exact (tick_permutes_the_occupants labelled_box [] 80 45 H1 H2 H3).
Defined.

Lemma update_counts_the_lifetime_down_witness :
  well_formed burning = true /\ enters 80 45 burning = true /\
  exists tx ty,
    IsValidPosition tx ty = true /\
    ghost_id (cell (fst (UpdateParticle 80 45 (burning, [50; 50]))) tx ty) =
      ghost_id (cell burning 80 45) /\
    updated (cell (fst (UpdateParticle 80 45 (burning, [50; 50]))) tx ty) = true /\
    lifetime (cell (fst (UpdateParticle 80 45 (burning, [50; 50]))) tx ty) =
      if 0 <? lifetime (cell burning 80 45) then lifetime (cell burning 80 45) - 1
      else lifetime (cell burning 80 45).
Proof.
  assert (H1 : well_formed burning = true) by (vm_compute; reflexivity).
  assert (H2 : enters 80 45 burning = true) by (vm_compute; reflexivity).
  split; [exact H1|]. split; [exact H2|].
  exact (update_counts_the_lifetime_down 80 45 burning [50; 50] H1 H2).
Defined.

Lemma last_unit_of_lifetime_empties_the_cell_witness :
  well_formed dying_fire = true /\ enters 80 45 dying_fire = true /\
  lifetime (cell dying_fire 80 45) = 1 /\
  snd (UpdateParticle 80 45 (dying_fire, [3])) = [3] /\
  cell (fst (UpdateParticle 80 45 (dying_fire, [3]))) 80 45 =
  if bool_decide (80 = 80 /\ 45 = 45)
  then set_type EMPTY (set_lifetime 0 (set_updated true (cell dying_fire 80 45)))
  else cell dying_fire 80 45.
Proof.
  assert (H1 : well_formed dying_fire = true) by (vm_compute; reflexivity).
  assert (H2 : enters 80 45 dying_fire = true) by (vm_compute; reflexivity).
  assert (H3 : lifetime (cell dying_fire 80 45) = 1) by (vm_compute; reflexivity).
  split; [exact H1|]. split; [exact H2|]. split; [exact H3|].
  exact (last_unit_of_lifetime_empties_the_cell 80 45 dying_fire [3] 80 45 H1 H2 H3).
Defined.

Lemma particles_move_down_or_sideways_witness :
  IsValidPosition 80 10 = true /\
  (fst (UpdatePhysics 80 10 (falling_sand, [])) = falling_sand \/
   exists tx ty,
     IsValidPosition tx ty = true /\
     type (cell falling_sand tx ty) = EMPTY /\
     Props.movable (particleProps (type (cell falling_sand 80 10))) = true /\
     fst (UpdatePhysics 80 10 (falling_sand, [])) =
       reset_velocity (swap falling_sand 80 10 tx ty) 80 10 /\
     (tx = 80 /\ ty = 10 + 1 \/
      (tx = 80 - 1 \/ tx = 80 + 1) /\
      (ty = 10 /\ (type (cell falling_sand 80 10) = WATER \/
                   type (cell falling_sand 80 10) = OIL) \/
       ty = 10 + 1 /\ type (cell falling_sand 80 10) = SAND))).
Proof.
  assert (H1 : IsValidPosition 80 10 = true) by (vm_compute; reflexivity).
  split; [exact H1|].
  exact (particles_move_down_or_sideways 80 10 falling_sand [] H1).
Defined.

Lemma ambient_cells_stay_ambient_witness :
  well_formed box = true /\ IsValidPosition 0 0 = true /\
  (forall dx dy, (dx, dy) ∈ neighborhood -> IsValidPosition (0 + dx) (0 + dy) = true ->
     temperature (cell box (0 + dx) (0 + dy)) = F32.of_int 20) /\
  temperature (cell (UpdateTemperature 0 0 box) 0 0) = F32.of_int 20.
Proof.
  assert (H1 : well_formed box = true) by (vm_compute; reflexivity).
  assert (H2 : IsValidPosition 0 0 = true) by (vm_compute; reflexivity).
  assert (H3 : forall dx dy, (dx, dy) ∈ neighborhood ->
            IsValidPosition (0 + dx) (0 + dy) = true ->
            temperature (cell box (0 + dx) (0 + dy)) = F32.of_int 20).
  { intros dx dy Hin _. apply elem_of_neighborhood in Hin.
    assert (Hx : dx = -1 \/ dx = 0 \/ dx = 1) by lia.
    assert (Hy : dy = -1 \/ dy = 0 \/ dy = 1) by lia.
    destruct Hx as [->|[->| ->]], Hy as [->|[->| ->]]; vm_compute; reflexivity. }
  split; [exact H1|]. split; [exact H2|]. split; [exact H3|].
  exact (ambient_cells_stay_ambient 0 0 box H1 H2 H3).
Defined.

Lemma interior_mean_has_ten_terms_witness :
  1 <= 80 < GRID_WIDTH - 1 /\ 1 <= 45 < GRID_HEIGHT - 1 /\
  new_temperature 80 45 warm_cell =
  let own := temperature (cell warm_cell 80 45) in
  let near dx dy := temperature (cell warm_cell (80 + dx) (45 + dy)) in
  let sum :=
    fold_left F32.add
      [near (-1) (-1); near (-1) 0; near (-1) 1;
       near 0 (-1); near 0 0; near 0 1;
       near 1 (-1); near 1 0; near 1 1] own in
  let mean := F32.div sum (F32.of_int 10) in
  let t := F32.add (F32.mul mean TEMPERATURE_SPREAD)
                   (F32.mul own (F32.sub (F32.of_int 1) TEMPERATURE_SPREAD)) in
  if F32.gtb t (F32.of_int 20) then F32.sub t COOLING_RATE
  else if F32.ltb t (F32.of_int 20) then F32.add t COOLING_RATE
  else t.
Proof.
  assert (H1 : 1 <= 80 < GRID_WIDTH - 1) by (cbv [GRID_WIDTH screen]; lia).
  assert (H2 : 1 <= 45 < GRID_HEIGHT - 1) by (cbv [GRID_HEIGHT screen]; lia).
  split; [exact H1|]. split; [exact H2|].
  exact (interior_mean_has_ten_terms 80 45 warm_cell H1 H2).
Defined.

Lemma water_puts_out_adjacent_fire_witness :
  well_formed quenching = true /\ type (cell quenching 80 45) = WATER /\
  snd (HandleParticleInteractions 80 45 (quenching, [7])) = [7] /\
  type (cell (fst (HandleParticleInteractions 80 45 (quenching, [7]))) 81 45) =
  if adjacent 80 45 81 45 && is_type FIRE (cell quenching 81 45) then STEAM
  else if bool_decide (81 = 80 /\ 45 = 45) &&
          F32.ltb (temperature (cell quenching 80 45)) (F32.of_int 0)
       then ICE
       else type (cell quenching 81 45).
Proof.
  assert (H1 : well_formed quenching = true) by (vm_compute; reflexivity).
  assert (H2 : type (cell quenching 80 45) = WATER) by (vm_compute; reflexivity).
  split; [exact H1|]. split; [exact H2|].
  exact (water_puts_out_adjacent_fire 80 45 quenching [7] 81 45 H1 H2).
Defined.

Lemma lava_boils_adjacent_water_witness :
  well_formed boiling = true /\ type (cell boiling 80 45) = LAVA /\
  snd (HandleParticleInteractions 80 45 (boiling, [7])) = [7] /\
  type (cell (fst (HandleParticleInteractions 80 45 (boiling, [7]))) 81 45) =
  if adjacent 80 45 81 45 && is_type WATER (cell boiling 81 45) then STEAM
  else if bool_decide (81 = 80 /\ 45 = 45) &&
          F32.ltb (temperature (cell boiling 80 45)) (F32.of_int 800)
       then METAL
       else type (cell boiling 81 45).
Proof.
  assert (H1 : well_formed boiling = true) by (vm_compute; reflexivity).
  assert (H2 : type (cell boiling 80 45) = LAVA) by (vm_compute; reflexivity).
  split; [exact H1|]. split; [exact H2|].
  exact (lava_boils_adjacent_water 80 45 boiling [7] 81 45 H1 H2).
Defined.

Lemma fire_spreads_to_flammable_cells_only_witness :
  well_formed burning = true /\ type (cell burning 80 45) = FIRE /\
  (type (cell (fst (HandleParticleInteractions 80 45 (burning, [0; 0]))) 80 44) =
     type (cell burning 80 44) \/
   (adjacent 80 45 80 44 = true /\
    (type (cell burning 80 44) = OIL \/ type (cell burning 80 44) = WOOD \/
     type (cell burning 80 44) = PLANT) /\
    type (cell (fst (HandleParticleInteractions 80 45 (burning, [0; 0]))) 80 44) = FIRE) \/
   (80 = 80 /\ 44 = 45 - 1 /\ type (cell burning 80 44) = EMPTY /\
    type (cell (fst (HandleParticleInteractions 80 45 (burning, [0; 0]))) 80 44) = SMOKE)).
Proof.
  assert (H1 : well_formed burning = true) by (vm_compute; reflexivity).
  assert (H2 : type (cell burning 80 45) = FIRE) by (vm_compute; reflexivity).
  split; [exact H1|]. split; [exact H2|].
  exact (fire_spreads_to_flammable_cells_only 80 45 burning [0; 0] 80 44 H1 H2).
Defined.

Lemma acid_dissolves_to_empty_only_witness :
  well_formed corroding = true /\ type (cell corroding 80 45) = ACID /\
  (type (cell (fst (HandleParticleInteractions 80 45 (corroding, [0; 0; 0]))) 80 46) =
     type (cell corroding 80 46) \/
   (adjacent 80 45 80 46 = true /\
    type (cell corroding 80 46) <> EMPTY /\ type (cell corroding 80 46) <> ACID /\
    type (cell corroding 80 46) <> GLASS /\
    type (cell (fst (HandleParticleInteractions 80 45 (corroding, [0; 0; 0]))) 80 46) = EMPTY)).
Proof.
  assert (H1 : well_formed corroding = true) by (vm_compute; reflexivity).
  assert (H2 : type (cell corroding 80 45) = ACID) by (vm_compute; reflexivity).
  split; [exact H1|]. split; [exact H2|].
  exact (acid_dissolves_to_empty_only 80 45 corroding [0; 0; 0] 80 46 H1 H2).
Defined.

Lemma acid_and_glass_are_never_converted_witness :
  well_formed corroding = true /\
  (type (cell corroding 80 45) = ACID \/ type (cell corroding 80 45) = GLASS) /\
  type (cell (fst (HandleParticleInteractions 80 45 (corroding, [0; 0; 0]))) 80 45) =
    type (cell corroding 80 45) /\
  type (cell (ProcessChemicalReactions 80 45 corroding) 80 45) =
    type (cell corroding 80 45).
Proof.
  assert (H1 : well_formed corroding = true) by (vm_compute; reflexivity).
  assert (H2 : type (cell corroding 80 45) = ACID \/ type (cell corroding 80 45) = GLASS).
  { left. vm_compute. reflexivity. }
  split; [exact H1|]. split; [exact H2|].
  exact (acid_and_glass_are_never_converted 80 45 corroding [0; 0; 0] 80 45 H1 H2).
Defined.

Lemma glass_is_permanent_witness :
  well_formed glazed = true /\ type (cell glazed 80 45) = GLASS /\
  lifetime (cell glazed 80 45) <= 0 /\
  type (cell (fst (ticks 3 (glazed, [1; 2; 3]))) 80 45) = GLASS.
Proof.
  assert (H1 : well_formed glazed = true) by (vm_compute; reflexivity).
  assert (H2 : type (cell glazed 80 45) = GLASS) by (vm_compute; reflexivity).
  assert (H3 : lifetime (cell glazed 80 45) <= 0) by (vm_compute; discriminate).
  split; [exact H1|]. split; [exact H2|]. split; [exact H3|].
  exact (glass_is_permanent 3 glazed [1; 2; 3] 80 45 H1 H2 H3).
Defined.

Lemma load_overwrites_a_prefix_witness :
  well_formed box = true /\ can_open short_file_host "sandbox_save.dat" = true /\
  files short_file_host !! "sandbox_save.dat" = Some [fresh LAVA 7] /\
  storage_order !! 1%nat = Some (0, 1) /\
  well_formed (LoadFromFile "sandbox_save.dat" box short_file_host) = true /\
  cell (LoadFromFile "sandbox_save.dat" box short_file_host) 0 1 =
    default (cell box 0 1) ([fresh LAVA 7] !! 1%nat).
Proof.
  assert (H1 : well_formed box = true) by (vm_compute; reflexivity).
  assert (H2 : can_open short_file_host "sandbox_save.dat" = true) by reflexivity.
  assert (H3 : files short_file_host !! "sandbox_save.dat" = Some [fresh LAVA 7])
    by (vm_compute; reflexivity).
  assert (H4 : storage_order !! 1%nat = Some (0, 1)) by (vm_compute; reflexivity).
  split; [exact H1|]. split; [exact H2|]. split; [exact H3|]. split; [exact H4|].
  exact (load_overwrites_a_prefix "sandbox_save.dat" box short_file_host
           [fresh LAVA 7] 1 0 1 H1 H2 H3 H4).
Defined.

Lemma last_save_wins_witness :
  can_open empty_host "sandbox_save.dat" = true /\ "other.dat" <> "sandbox_save.dat" /\
  files (SaveToFile "sandbox_save.dat" salty_water
           (SaveToFile "sandbox_save.dat" burning empty_host)) !! "sandbox_save.dat" =
    Some (map (fun '(x, y) => cell salty_water x y) storage_order) /\
  files (SaveToFile "sandbox_save.dat" salty_water
           (SaveToFile "sandbox_save.dat" burning empty_host)) !! "other.dat" =
    files empty_host !! "other.dat".
Proof.
  assert (H1 : can_open empty_host "sandbox_save.dat" = true) by reflexivity.
  assert (H2 : "other.dat" <> "sandbox_save.dat") by discriminate.
  split; [exact H1|]. split; [exact H2|].
  exact (last_save_wins "sandbox_save.dat" burning salty_water empty_host "other.dat" H1 H2).
Defined.

Lemma frames_keep_the_dimensions_witness :
  well_formed (grid studio) = true /\
  well_formed (grid (fst (run [busy_frame; busy_frame] (studio, [4; 5; 6])))) = true.
Proof.
  assert (H1 : well_formed (grid studio) = true) by (vm_compute; reflexivity).
  split; [exact H1|].
  exact (frames_keep_the_dimensions [busy_frame; busy_frame] studio [4; 5; 6] H1).
Defined.

Lemma symmetry_stamps_the_mirror_disc_witness :
  well_formed (grid studio) = true /\ 0 <= brushSize studio <= 20 /\
  IsValidPosition 20 45 = true /\ symmetryMode studio = true /\
  cell (grid (paint 20 45 WATER studio)) 139 45 =
  if IsValidPosition 139 45 &&
     (in_disc 20 45 (brushSize studio) 139 45 ||
      in_disc (GRID_WIDTH - 1 - 20) 45 (brushSize studio) 139 45)
  then place WATER (cell (grid studio) 139 45)
  else cell (grid studio) 139 45.
Proof.
  assert (H1 : well_formed (grid studio) = true) by (vm_compute; reflexivity).
  assert (H2 : 0 <= brushSize studio <= 20) by (cbv [brushSize studio]; lia).
  assert (H3 : IsValidPosition 20 45 = true) by (vm_compute; reflexivity).
  assert (H4 : symmetryMode studio = true) by reflexivity.
  split; [exact H1|]. split; [exact H2|]. split; [exact H3|]. split; [exact H4|].
  exact (symmetry_stamps_the_mirror_disc 20 45 WATER studio 139 45 H1 H2 H3 H4).
Defined.

Lemma only_cells_of_the_grid_are_drawn_witness :
  DrawRectangle 0 0 8 8 DARKGRAY ∈ DrawGrid studio /\
  exists i j,
    IsValidPosition i j = true /\ type (cell (grid studio) i j) <> EMPTY /\
    DrawRectangle 0 0 8 8 DARKGRAY ∈ draw_cell (showDebug studio) i j (cell (grid studio) i j).
Proof.
  assert (H1 : DrawRectangle 0 0 8 8 DARKGRAY ∈ DrawGrid studio).
  { apply (list_elem_of_lookup_2 _ 0%nat). vm_compute. reflexivity. }
  split; [exact H1|].
  exact (only_cells_of_the_grid_are_drawn studio (DrawRectangle 0 0 8 8 DARKGRAY) H1).
Defined.

Lemma stored_colour_is_never_drawn_witness :
  showDebug studio = showDebug recoloured /\ camera studio = camera recoloured /\
  (forall i j, look_alike (cell (grid studio) i j) (cell (grid recoloured) i j)) /\
  DrawGrid studio =
  DrawGrid recoloured.
Proof.
  assert (H0 : well_formed box = true) by (vm_compute; reflexivity).
  assert (H1 : showDebug studio = showDebug recoloured) by reflexivity.
  assert (H2 : forall i j, look_alike (cell (grid studio) i j) (cell (grid recoloured) i j)).
  { intros i j. exact (recoloured_looks_alike box 0 0 SKYBLUE i j H0). }
  assert (H3 : camera studio = camera recoloured) by reflexivity.
  split; [exact H1|]. split; [exact H3|]. split; [exact H2|].
  exact (stored_colour_is_never_drawn studio recoloured H1 H3 H2).
Defined.

Lemma camera_at_origin_draws_every_cell_witness :
  GRID_WIDTH <= 161 /\ GRID_HEIGHT <= 91 /\
  target_x (camera studio) = F32.of_int 0 /\ target_y (camera studio) = F32.of_int 0 /\
  IsValidPosition 159 3 = true /\ type (cell (grid studio) 159 3) <> EMPTY /\
  DrawRectangle (159 * CELL_SIZE) (3 * CELL_SIZE) CELL_SIZE CELL_SIZE
    (GetTemperatureColor (Props.color (particleProps (type (cell (grid studio) 159 3))))
                         (temperature (cell (grid studio) 159 3)))
  ∈ DrawGrid studio.
Proof.
  assert (H1 : GRID_WIDTH <= 161) by (cbv [GRID_WIDTH screen]; lia).
  assert (H2 : GRID_HEIGHT <= 91) by (cbv [GRID_HEIGHT screen]; lia).
  assert (H3 : IsValidPosition 159 3 = true) by (vm_compute; reflexivity).
  assert (H4 : type (cell (grid studio) 159 3) <> EMPTY) by (vm_compute; discriminate).
  assert (H5 : target_x (camera studio) = F32.of_int 0) by reflexivity.
  assert (H6 : target_y (camera studio) = F32.of_int 0) by reflexivity.
  split; [exact H1|]. split; [exact H2|]. split; [exact H5|]. split; [exact H6|].
  split; [exact H3|]. split; [exact H4|].
  exact (camera_at_origin_draws_every_cell studio 159 3 H1 H2 H5 H6 H3 H4).
Defined.

Lemma kinds_have_distinct_names_witness :
  GetParticleTypeName SALT = GetParticleTypeName SALT /\ SALT = SALT.
Proof.
  assert (H1 : GetParticleTypeName SALT = GetParticleTypeName SALT) by reflexivity.
  split; [exact H1|].
  exact (kinds_have_distinct_names SALT SALT H1).
Defined.

Lemma a_particle_moves_whenever_a_target_is_free_witness :
  well_formed falling_sand = true /\ IsValidPosition 80 10 = true /\
  type (cell (fst (UpdatePhysics 80 10 (falling_sand, [9]))) 80 10) =
  if has_free_target falling_sand 80 10 then EMPTY else type (cell falling_sand 80 10).
Proof.
  assert (H1 : well_formed falling_sand = true) by (vm_compute; reflexivity).
  assert (H2 : IsValidPosition 80 10 = true) by (vm_compute; reflexivity).
  split; [exact H1|]. split; [exact H2|].
  exact (a_particle_moves_whenever_a_target_is_free 80 10 falling_sand [9] H1 H2).
Defined.

Lemma still_cells_only_exchange_heat_witness :
  well_formed warm_cell = true /\ enters 80 44 warm_cell = true /\
  inert (type (cell warm_cell 80 44)) = true /\ lifetime (cell warm_cell 80 44) <= 0 /\
  snd (UpdateParticle 80 44 (warm_cell, [1])) = [1] /\
  cell (fst (UpdateParticle 80 44 (warm_cell, [1]))) 80 44 =
  if bool_decide (80 = 80 /\ 44 = 44)
  then set_temperature (new_temperature 80 44 warm_cell)
                       (set_updated true (cell warm_cell 80 44))
  else cell warm_cell 80 44.
Proof.
  assert (H1 : well_formed warm_cell = true) by (vm_compute; reflexivity).
  assert (H2 : enters 80 44 warm_cell = true) by (vm_compute; reflexivity).
  assert (H3 : inert (type (cell warm_cell 80 44)) = true) by (vm_compute; reflexivity).
  assert (H4 : lifetime (cell warm_cell 80 44) <= 0) by (vm_compute; discriminate).
  split; [exact H1|]. split; [exact H2|]. split; [exact H3|]. split; [exact H4|].
  exact (still_cells_only_exchange_heat 80 44 warm_cell [1] 80 44 H1 H2 H3 H4).
Defined.

Lemma tick_ignores_stale_flags_witness :
  well_formed falling_sand = true /\
  well_formed (update falling_sand 80 10 (set_updated true)) = true /\
  (forall i j, set_updated false (cell falling_sand i j) =
               set_updated false (cell (update falling_sand 80 10 (set_updated true)) i j)) /\
  UpdateParticles (falling_sand, []) =
  UpdateParticles (update falling_sand 80 10 (set_updated true), []).
Proof.
  assert (H1 : well_formed falling_sand = true) by (vm_compute; reflexivity).
  assert (H2 : well_formed (update falling_sand 80 10 (set_updated true)) = true)
    by (vm_compute; reflexivity).
  assert (H3 : forall i j, set_updated false (cell falling_sand i j) =
            set_updated false (cell (update falling_sand 80 10 (set_updated true)) i j)).
  { intros i j. exact (flagged_differs_in_flag falling_sand 80 10 true i j H1). }
  split; [exact H1|]. split; [exact H2|]. split; [exact H3|].
  exact (tick_ignores_stale_flags falling_sand
           (update falling_sand 80 10 (set_updated true)) [] H1 H2 H3).
Defined.

Lemma erasing_leaves_cells_at_zero_degrees_witness :
  well_formed burning = true /\ 0 <= 3 <= 20 /\ IsValidPosition 80 45 = true /\
  IsValidPosition 81 46 = true /\ in_disc 80 45 3 81 46 = true /\
  cell (PlaceParticles 3 80 45 EMPTY burning) 81 46 =
    mkParticle EMPTY (mkColor 0 0 0 0) false (F32.of_int 0) (F32.of_int 0) (F32.of_int 0) 0
               (ghost_id (cell burning 81 46)) /\
  temperature (initial_particle 81 46 (ghost_id (cell burning 81 46))) = F32.of_int 20 /\
  lifetime (initial_particle 81 46 (ghost_id (cell burning 81 46))) = -1.
Proof.
  assert (H1 : well_formed burning = true) by (vm_compute; reflexivity).
  assert (H2 : 0 <= 3 <= 20) by lia.
  assert (H3 : IsValidPosition 80 45 = true) by (vm_compute; reflexivity).
  assert (H4 : IsValidPosition 81 46 = true) by (vm_compute; reflexivity).
  assert (H5 : in_disc 80 45 3 81 46 = true) by (vm_compute; reflexivity).
  split; [exact H1|]. split; [exact H2|]. split; [exact H3|]. split; [exact H4|].
  split; [exact H5|].
  exact (erasing_leaves_cells_at_zero_degrees 3 80 45 burning 81 46 H1 H2 H3 H4 H5).
Defined.

End Program.

(** C5: of the 101 values that [GetRandomValue(0, 100)] can return, 10
    ignite a flammable neighbour, 5 spawn Smoke and 20 dissolve a
    neighbour, so under a uniform source the chances are 10/101, 5/101
    and 20/101, not 10%, 5% and 20%; the direction is the left for one of
    the two values of [GetRandomValue(0, 1)]. *)
Theorem chances_are_out_of_101 :
  chance ignites 0 100 = (10, 101) /\
  chance smokes 0 100 = (5, 101) /\
  chance dissolves 0 100 = (20, 101) /\
  chance goes_left 0 1 = (1, 2).
Proof. vm_compute. repeat split; reflexivity. Qed.
